(** * Rosette API Python binding (rosette/api.py): a shallow embedding

    The binding is a thin client: parameter containers, an endpoint caller
    and a transport layer that retries rate-limited requests.  Python
    objects become records, dictionaries become finite maps, exceptions
    become a [result] type, and the effects of the transport (requests,
    sleeps, closing and opening the connection) are threaded through an
    explicit [World].  The Python runtime library the binding calls into
    (json, gzip, repr, os.path, urlparse) is an interface, [PyRuntime].

    Left out: the calls to the logger, which change no result; the
    [useMultipart] attribute that [EndpointCaller.call] writes on the caller
    before reading it back in the same call (a local variable here);
    the default value of the [facet] argument of [morphology], which is
    passed explicitly here. *)

From Stdlib Require Import ZArith QArith Ascii.
From Stdlib.Strings Require Byte.
From stdpp Require Import gmap strings list fin_maps pretty.

Set Default Proof Using "Type".
#[local] Set Warnings "-register-all,-clear-no-such-hyp".
Open Scope Z_scope.

(** ** Python values and exceptions *)

Abbreviation bytes := (list Byte.byte).

#[global] Instance byte_eq_decision : EqDecision Byte.byte :=
  Stdlib.Strings.Byte.byte_eq_dec.

Inductive pyvalue :=
| PNone
| PBool (b : bool)
| PInt (z : Z)
| PStr (s : string)
| PBytes (b : bytes)
| PList (l : list pyvalue)
| PDict (d : gmap string pyvalue).

Abbreviation pydict := (gmap string pyvalue).

(** [val is None] *)
Definition is_None (v : pyvalue) : bool :=
  match v with PNone => true | _ => false end.

Inductive exn :=
| RosetteException (status message response_message : pyvalue)
| KeyError (key : string)
| AttributeError (what : string)
| TypeError (what : string)
| ValueError (what : string)
| UnicodeDecodeError
| IOError (what : string)
| BadStatusLine
| gaierror
| OtherError (what : string).

Inductive result (A : Type) :=
| Ok (a : A)
| Raise (e : exn).
Arguments Ok {A} a.
Arguments Raise {A} e.

#[global] Instance result_ret : MRet result := λ A a, Ok a.
#[global] Instance result_bind : MBind result :=
  λ A B f m, match m with Ok a => f a | Raise e => Raise e end.

(** ** The Python runtime the binding relies on *)

Class PyRuntime := {
  (** [sys.version_info[0] == 3] *)
  _IsPy3 : bool;
  (** builtin [repr] *)
  repr : pyvalue → string;
  (** the text [str.format] substitutes for a positional field *)
  format_field : pyvalue → string;
  (** [json.loads] and [json.dumps] *)
  json_loads : string → result pyvalue;
  json_dumps : pyvalue → result string;
  (** [bytes.decode("utf-8")] *)
  decode_utf8 : bytes → result string;
  (** [gzip.GzipFile(fileobj=BytesIO(b)).read()] *)
  gzip_read : bytes → result bytes;
  (** [os.path.basename] *)
  basename : string → string;
  (** [urlparse.urlparse(url)]: the scheme and the netloc *)
  urlparse : string → string * string;
}.

(** ** Parameter containers *)

Inductive ParamClass :=
| DocumentParametersC
| RelationshipsParametersC
| NameTranslationParametersC
| NameSimilarityParametersC.

(** [file_name] is [None] while the attribute does not exist
    ([RelationshipsParameters.__init__] does not create it). *)
Record ParamSet := mkParamSet {
  cls : ParamClass;
  params : gmap string pyvalue;
  file_name : option string;
  useMultipart : bool;
}.

Definition set_params (p : ParamSet) (m : gmap string pyvalue) : ParamSet :=
  {| cls := cls p; params := m; file_name := file_name p;
     useMultipart := useMultipart p |}.

(** [_DocumentParamSetBase.__init__]: every key of the repertoire starts
    as [None]. *)
Definition _DocumentParamSetBase_init (repertoire : list string)
  : gmap string pyvalue :=
  foldl (λ m k, <[k := PNone]> m) ∅ repertoire.

Definition repertoire (c : ParamClass) : list string :=
  match c with
  | DocumentParametersC => ["content"; "contentUri"; "language"; "genre"]
  | RelationshipsParametersC =>
      ["content"; "contentUri"; "language"; "options"; "genre"]
  | NameTranslationParametersC =>
      ["name"; "targetLanguage"; "entityType"; "sourceLanguageOfOrigin";
       "sourceLanguageOfUse"; "sourceScript"; "targetScript"; "targetScheme";
       "genre"]
  | NameSimilarityParametersC => ["name1"; "name2"]
  end%string.

Definition DocumentParameters : ParamSet :=
  {| cls := DocumentParametersC;
     params := _DocumentParamSetBase_init (repertoire DocumentParametersC);
     file_name := Some EmptyString;
     useMultipart := false |}.

Definition RelationshipsParameters : ParamSet :=
  {| cls := RelationshipsParametersC;
     params := _DocumentParamSetBase_init (repertoire RelationshipsParametersC);
     file_name := None;
     useMultipart := false |}.

Definition NameTranslationParameters : ParamSet :=
  {| cls := NameTranslationParametersC;
     params := _DocumentParamSetBase_init (repertoire NameTranslationParametersC);
     file_name := None;
     useMultipart := false |}.

Definition NameSimilarityParameters : ParamSet :=
  {| cls := NameSimilarityParametersC;
     params := _DocumentParamSetBase_init (repertoire NameSimilarityParametersC);
     file_name := None;
     useMultipart := false |}.

Definition new_ParamSet (c : ParamClass) : ParamSet :=
  match c with
  | DocumentParametersC => DocumentParameters
  | RelationshipsParametersC => RelationshipsParameters
  | NameTranslationParametersC => NameTranslationParameters
  | NameSimilarityParametersC => NameSimilarityParameters
  end.

Section Containers.
Context `{PyRuntime}.

Definition badKey (key : string) : exn :=
  RosetteException (PStr "badKey") (PStr "Unknown Rosette parameter key")
    (PStr (repr (PStr key))).

(** [_DocumentParamSetBase.__setitem__] *)
Definition setitem (p : ParamSet) (key : string) (val : pyvalue)
  : result ParamSet :=
  match params p !! key with
  | None => Raise (badKey key)
  | Some _ => Ok (set_params p (<[key := val]> (params p)))
  end.

(** [_DocumentParamSetBase.__getitem__] *)
Definition getitem (p : ParamSet) (key : string) : result pyvalue :=
  match params p !! key with
  | None => Raise (badKey key)
  | Some v => Ok v
  end.

(** [DocumentParameters.validate] *)
Definition DocumentParameters_validate (p : ParamSet) : result unit :=
  c ← getitem p "content";
  if is_None c then
    u ← getitem p "contentUri";
    if is_None u then
      Raise (RosetteException (PStr "badArgument")
               (PStr "Must supply one of Content or ContentUri")
               (PStr "bad arguments"))
    else Ok tt
  else
    u ← getitem p "contentUri";
    if negb (is_None u) then
      Raise (RosetteException (PStr "badArgument")
               (PStr "Cannot supply both Content and ContentUri")
               (PStr "bad arguments"))
    else Ok tt.

(** The loop shared by [NameTranslationParameters.validate] and
    [NameSimilarityParameters.validate]: the first required key that is
    [None] raises. *)
Fixpoint require_each (p : ParamSet) (complaint : string)
    (required : list string) : result unit :=
  match required with
  | [] => Ok tt
  | n :: rest =>
      v ← getitem p n;
      if is_None v then
        Raise (RosetteException (PStr "missingParameter") (PStr complaint)
                 (PStr (repr (PStr n))))
      else require_each p complaint rest
  end.

Definition NameTranslationParameters_validate (p : ParamSet) : result unit :=
  require_each p "Required Name Translation parameter not supplied"
    ["name"; "targetLanguage"]%string.

Definition NameSimilarityParameters_validate (p : ParamSet) : result unit :=
  require_each p "Required Name Similarity parameter not supplied"
    ["name1"; "name2"]%string.

(** [self.validate()], dispatched on the class of the container. *)
Definition validate (p : ParamSet) : result unit :=
  match cls p with
  | DocumentParametersC | RelationshipsParametersC =>
      DocumentParameters_validate p
  | NameTranslationParametersC => NameTranslationParameters_validate p
  | NameSimilarityParametersC => NameSimilarityParameters_validate p
  end.

(** [_DocumentParamSetBase.serialize] *)
Definition _DocumentParamSetBase_serialize (p : ParamSet) : result pydict :=
  _ ← validate p;
  Ok (filter (λ kv, is_None kv.2 = false) (params p)).

(** [DocumentParameters.serialize] validates, then defers to the base
    class (which validates again). *)
Definition DocumentParameters_serialize (p : ParamSet) : result pydict :=
  _ ← validate p;
  _DocumentParamSetBase_serialize p.

Definition serialize (p : ParamSet) : result pydict :=
  match cls p with
  | DocumentParametersC | RelationshipsParametersC =>
      DocumentParameters_serialize p
  | NameTranslationParametersC | NameSimilarityParametersC =>
      _DocumentParamSetBase_serialize p
  end.

(** [DocumentParameters.load_document_string] *)
Definition load_document_string (p : ParamSet) (s : pyvalue)
  : result ParamSet :=
  setitem p "content" s.

(** [DocumentParameters.load_document_file].  [fs] is the file system:
    [open(path, "rb").read()] raises when the file cannot be opened.  The
    two attribute writes happen first and survive a failure, so the
    container is returned next to the result. *)
Definition load_document_file (fs : string → option bytes)
    (p : ParamSet) (path : string) : result unit * ParamSet :=
  let p1 := {| cls := cls p; params := params p;
               file_name := Some path; useMultipart := true |} in
  match fs path with
  | None => (Raise (IOError path), p1)
  | Some content =>
      match load_document_string p1 (PBytes content) with
      | Ok p2 => (Ok tt, p2)
      | Raise e => (Raise e, p1)
      end
  end.

End Containers.

(** ** The world: connection, network and trace of effects *)

(** An [httplib.HTTPConnection] or [HTTPSConnection] object. *)
Record Conn := mkConn {
  conn_https : bool;
  conn_loc : string;
}.

(** What the server answers to one exchange: [response.status],
    [response.read()] and [dict(response.getheaders())]. *)
Record Response := mkResponse {
  status : Z;
  body : option bytes;
  resp_headers : pydict;
}.

(** One exchange either answers or raises (for instance
    [httplib.BadStatusLine] or [socket.gaierror]). *)
Inductive Outcome :=
| Responds (r : Response)
| Fails (e : exn).

(** One part of the [files] argument of [requests.Request]:
    file name, content, content type. *)
Record FilePart := mkFilePart {
  part_filename : string;
  part_content : pyvalue;
  part_type : string;
}.

Record PreparedRequest := mkPreparedRequest {
  req_method : string;
  req_url : string;
  req_files : list (string * FilePart);
  req_headers : pydict;
}.

Inductive Event :=
| EvConnect (c : Conn)
| EvRequest (op url : string) (data : option string) (headers : pydict)
| EvSleep (d : Q)
| EvClose
| EvSend (r : PreparedRequest).

(** [http_connection] is the field of the [API] object that the transport
    mutates; [exchanges] counts the exchanges made so far, so that the
    network can answer each one differently. *)
Record World := mkWorld {
  http_connection : option Conn;
  exchanges : nat;
  trace : list Event;
}.

Definition M (A : Type) : Type := World → result A * World.

#[global] Instance M_ret : MRet M := λ A a w, (Ok a, w).
#[global] Instance M_bind : MBind M :=
  λ A B f m w, match m w with
               | (Ok a, w') => f a w'
               | (Raise e, w') => (Raise e, w')
               end.

Definition raise {A} (e : exn) : M A := λ w, (Raise e, w).

Definition lift {A} (r : result A) : M A := λ w, (r, w).

Definition emit (ev : Event) : M unit := λ w,
  (Ok tt, {| http_connection := http_connection w;
             exchanges := exchanges w;
             trace := trace w ++ [ev] |}).

(** [try: body except <classes>: handler]; [handler e] is [None] for an
    exception the clause does not catch. *)
Definition try_except {A} (body : M A) (handler : exn → option (M A)) : M A :=
  λ w, match body w with
       | (Ok a, w') => (Ok a, w')
       | (Raise e, w') =>
           match handler e with
           | Some h => h w'
           | None => (Raise e, w')
           end
       end.

(** ** The API object *)

Record API := mkAPI {
  user_key : option string;
  service_url : string;
  debug : bool;
  num_retries : Z;
  reuse_connection : bool;
  connection_refresh_duration : Q;
}.

(** [s.endswith(c)] for a one-character [c] *)
Fixpoint endswith (c : Ascii.ascii) (s : string) : bool :=
  match s with
  | EmptyString => false
  | String a EmptyString => Ascii.eqb a c
  | String _ rest => endswith c rest
  end.

(** [API.__init__]; [http_connection] starts as [None] in the world. *)
Definition API_init (user_key : option string) (service_url : string)
    (retries : Z) (reuse_connection : bool) (refresh_duration : Q)
    (debug : bool) : API :=
  let retries := if retries <? 1 then 1 else retries in
  let refresh_duration :=
    if negb (Qle_bool 0 refresh_duration) then 0%Q else refresh_duration in
  {| user_key := user_key;
     service_url := if endswith ("/" : Ascii.ascii) service_url then service_url
                    else (service_url ++ "/")%string;
     debug := debug;
     num_retries := retries;
     reuse_connection := reuse_connection;
     connection_refresh_duration := refresh_duration |}.

(** The defaults of the constructor's keyword arguments. *)
Definition API_default : API :=
  API_init None "https://api.rosette.com/rest/v1/" 5 true (1 # 2)%Q false.

Definition world0 : World :=
  {| http_connection := None; exchanges := 0%nat; trace := [] |}.

Definition _BINDING_VERSION : string := "1.1".

Definition _GZIP_BYTEARRAY : bytes := [Byte.x1f; Byte.x8b; Byte.x08].

(** ** Response wrapper *)

(** [_ReturnObject]: a parsed body and a status code. *)
Record _ReturnObject := mkReturnObject {
  json : pydict;
  status_code : Z;
}.

(** The value a loop iteration of [_make_request] hands to the loop:
    [return rdata, status, response_headers], or go on to the next
    iteration with the [message] and [code] recorded so far. *)
Inductive LoopCtl :=
| Return (rdata : option bytes) (status : Z) (response_headers : pydict)
| Continue (message code : pyvalue).

Section Transport.
Context `{PyRuntime}.
(** The network: what the [n]-th exchange of the run yields. *)
Variable net : nat → Outcome.

(** [d.copy()] on the value [json.loads] returned. *)
Definition py_copy (v : pyvalue) : result pyvalue :=
  match v with
  | PDict d => Ok (PDict d)
  | PList l => if _IsPy3 then Ok (PList l) else Raise (AttributeError "copy")
  | _ => Raise (AttributeError "copy")
  end.

(** [d.update(response_headers)] *)
Definition py_update (v : pyvalue) (other : pydict) : result pydict :=
  match v with
  | PDict d => Ok (other ∪ d)
  | _ => Raise (AttributeError "update")
  end.

(** [_my_loads] *)
Definition _my_loads (obj : option bytes) (response_headers : pydict)
  : result pydict :=
  if _IsPy3 then
    match obj with
    | None => Raise (AttributeError "decode")
    | Some b =>
        s ← decode_utf8 b;
        v ← json_loads s;
        d1 ← py_copy v;
        py_update d1 response_headers
    end
  else
    match obj with
    | None => Raise (TypeError "expected string or buffer")
    | Some b =>
        v ← json_loads (String.string_of_list_byte b);
        d2 ← py_copy v;
        py_update d2 response_headers
    end.

(** [httplib.HTTPSConnection(loc)] for the scheme "https",
    [httplib.HTTPConnection(loc)] otherwise. *)
Definition new_conn (parsedUrl : string * string) : Conn :=
  {| conn_https := bool_decide (parsedUrl.1 = "https"%string);
     conn_loc := parsedUrl.2 |}.

(** [API._connect] *)
Definition _connect (api : API) (parsedUrl : string * string) : M unit :=
  λ w,
    if negb (reuse_connection api)
       || match http_connection w with None => true | Some _ => false end
    then
      (Ok tt, {| http_connection := Some (new_conn parsedUrl);
                 exchanges := exchanges w;
                 trace := trace w ++ [EvConnect (new_conn parsedUrl)] |})
    else (Ok tt, w).

(** [self.http_connection.close()] *)
Definition close : M unit := λ w,
  match http_connection w with
  | None => (Raise (AttributeError "close"), w)
  | Some _ => emit EvClose w
  end.

(** [time.sleep(d)] *)
Definition sleep (d : Q) : M unit := emit (EvSleep d).

(** [self.http_connection.request(op, url, data, headers)] followed by
    [getresponse()], [read()] and [getheaders()]. *)
Definition http_exchange (op url : string) (data : option string)
    (headers : pydict) : M Response := λ w,
  match http_connection w with
  | None => (Raise (AttributeError "request"), w)
  | Some _ =>
      let w' := {| http_connection := http_connection w;
                   exchanges := S (exchanges w);
                   trace := trace w ++ [EvRequest op url data headers] |} in
      match net (exchanges w) with
      | Responds r => (Ok r, w')
      | Fails e => (Raise e, w')
      end
  end.

(** [rdata] as the argument of [str.format] *)
Definition rdata_value (rdata : option bytes) : pyvalue :=
  match rdata with None => PNone | Some b => PBytes b end.

(** ["{0} ({1})".format(rdata, i)] *)
Definition format_429 (rdata : option bytes) (i : nat) : string :=
  format_field (rdata_value rdata) ++ " (" ++ format_field (PInt (Z.of_nat i))
    ++ ")".

(** The body of the [try] in the loop of [_make_request], for attempt
    [i]. *)
Definition attempt (api : API) (op url : string) (data : option string)
    (headers : pydict) (parsedUrl : string * string) (i : nat)
    (message code : pyvalue) : M LoopCtl :=
  response ← http_exchange op url data headers;
  let status := status response in
  let rdata := body response in
  let response_headers : pydict :=
    {[ "responseHeaders"%string := PDict (resp_headers response) ]} in
  if status =? 200 then
    _ ← (if negb (reuse_connection api) then close else mret tt);
    mret (Return rdata status response_headers)
  else if status =? 429 then
    let code := PInt status in
    let message := PStr (format_429 rdata i) in
    _ ← sleep (connection_refresh_duration api);
    _ ← close;
    _ ← _connect api parsedUrl;
    mret (Continue message code)
  else
    match rdata with
    | Some _ =>
        (* try: ... except: raise *)
        try_except
          (the_json ← lift (_my_loads rdata response_headers);
           let message :=
             match the_json !! "message"%string with
             | Some m => m
             | None => message
             end in
           let code :=
             match the_json !! "code"%string with
             | Some c => c
             | None => PInt status
             end in
           raise (RosetteException code message (PStr url)))
          (λ e, Some (raise e))
    | None => mret (Continue message code)
    end.

(** [except (httplib.BadStatusLine, gaierror)] *)
Definition connection_failure (url : string) (e : exn)
  : option (M LoopCtl) :=
  match e with
  | BadStatusLine | gaierror =>
      Some (raise (RosetteException (PStr "ConnectionError")
              (PStr "Unable to establish connection to the Rosette API server")
              (PStr url)))
  | _ => None
  end.

(** The [for i in range(self.num_retries + 1)] loop and what follows
    it. *)
Fixpoint retry_loop (api : API) (op url : string) (data : option string)
    (headers : pydict) (parsedUrl : string * string) (attempts : list nat)
    (message code : pyvalue) : M (option bytes * Z * pydict) :=
  match attempts with
  | [] =>
      _ ← (if negb (reuse_connection api) then close else mret tt);
      raise (RosetteException code message (PStr url))
  | i :: rest =>
      ctl ← try_except
              (attempt api op url data headers parsedUrl i message code)
              (connection_failure url);
      match ctl with
      | Return rdata status response_headers =>
          mret (rdata, status, response_headers)
      | Continue message code =>
          retry_loop api op url data headers parsedUrl rest message code
      end
  end.

(** [API._make_request] *)
Definition _make_request (api : API) (op url : string)
    (data : option string) (headers : pydict)
  : M (option bytes * Z * pydict) :=
  let headers :=
    <[ "User-Agent"%string := PStr ("RosetteAPIPython/" ++ _BINDING_VERSION) ]>
      headers in
  let parsedUrl := urlparse url in
  _ ← _connect api parsedUrl;
  retry_loop api op url data headers parsedUrl
    (seq 0 (Z.to_nat (num_retries api + 1))) PNone (PStr "unknownError").

(** [API._get_http] *)
Definition _get_http (api : API) (url : string) (headers : pydict)
  : M _ReturnObject :=
  '(rdata, status, response_headers) ←
    _make_request api "GET" url None headers;
  the_json ← lift (_my_loads rdata response_headers);
  mret {| json := the_json; status_code := status |}.

(** [len(rdata) > 3 and rdata[0:3] == _GZIP_SIGNATURE] *)
Definition has_gzip_signature (rdata : bytes) : bool :=
  (3 <? length rdata)%nat && bool_decide (take 3 rdata = _GZIP_BYTEARRAY).

(** The request body of [_post_http]: the empty string for [None], the
    JSON encoding otherwise. *)
Definition json_data_of (data : pyvalue) : result string :=
  if is_None data then Ok EmptyString else json_dumps data.

(** [API._post_http] *)
Definition _post_http (api : API) (url : string) (data : pyvalue)
    (headers : pydict) : M _ReturnObject :=
  json_data ← lift (json_data_of data);
  '(rdata, status, response_headers) ←
    _make_request api "POST" url (Some json_data) headers;
  rdata ← match rdata with
          | None => raise (TypeError "len")
          | Some b =>
              if has_gzip_signature b then
                b' ← lift (gzip_read b); mret (Some b')
              else mret (Some b)
          end;
  the_json ← lift (_my_loads rdata response_headers);
  mret {| json := the_json; status_code := status |}.

End Transport.

(** ** Endpoint caller *)

Record EndpointCaller := mkEndpointCaller {
  ec_service_url : string;
  ec_user_key : option string;
  suburl : option string;
  ec_debug : bool;
  ec_api : API;
}.

(** [EndpointCaller.__init__] *)
Definition EndpointCaller_init (api : API) (suburl : option string)
  : EndpointCaller :=
  {| ec_service_url := service_url api;
     ec_user_key := user_key api;
     suburl := suburl;
     ec_debug := debug api;
     ec_api := api |}.

(** The argument of [EndpointCaller.call]: a parameter container, or
    anything else (a plain string, for instance). *)
Inductive CallArg :=
| Plain (text : pyvalue)
| Container (p : ParamSet).

Section Endpoint.
Context `{PyRuntime}.
Variable net : nat → Outcome.

(** [EndpointCaller.__finish_result] *)
Definition __finish_result (ec : EndpointCaller) (r : _ReturnObject)
    (ename : string) : result pydict :=
  let code := status_code r in
  let the_json := json r in
  if code =? 200 then Ok the_json
  else
    msg ← match the_json !! "message"%string with
          | Some m => Ok m
          | None =>
              match the_json !! "code"%string with
              | Some c => Ok c
              | None => Raise (KeyError "code")
              end
          end;
    let complaint_url :=
      match suburl ec with
      | None => "Top level info"%string
      | Some sub => (ename ++ " " ++ sub)%string
      end in
    Raise (RosetteException (PInt code)
             (PStr (complaint_url ++ " : failed to communicate with Rosette"))
             msg).

(** The headers of [info] and [ping]. *)
Definition binding_headers (ec : EndpointCaller) : pydict :=
  let headers : pydict :=
    <[ "X-RosetteAPI-Binding-Version"%string := PStr _BINDING_VERSION ]>
      (<[ "X-RosetteAPI-Binding"%string := PStr "python" ]>
         {[ "Accept"%string := PStr "application/json" ]}) in
  let headers :=
    if ec_debug ec then <[ "X-RosetteAPI-Devel"%string := PStr "true" ]> headers
    else headers in
  match ec_user_key ec with
  | Some k => <[ "X-RosetteAPI-Key"%string := PStr k ]> headers
  | None => headers
  end.

(** [EndpointCaller.info] *)
Definition info (ec : EndpointCaller) : M pydict :=
  let url := (ec_service_url ec ++ "info")%string in
  r ← _get_http net (ec_api ec) url (binding_headers ec);
  lift (__finish_result ec r "info").

(** [EndpointCaller.ping] *)
Definition ping (ec : EndpointCaller) : M pydict :=
  let url := (ec_service_url ec ++ "ping")%string in
  r ← _get_http net (ec_api ec) url (binding_headers ec);
  lift (__finish_result ec r "ping").

(** [requests.Session().send(request.prepare())]: one exchange, outside
    the retry loop. *)
Definition session_send (req : PreparedRequest) : M Response := λ w,
  let w' := {| http_connection := http_connection w;
               exchanges := S (exchanges w);
               trace := trace w ++ [EvSend req] |} in
  match net (exchanges w) with
  | Responds r => (Ok r, w')
  | Fails e => (Raise e, w')
  end.

(** [dict((key, value) for key, value in d.iteritems() if key ==
    'language')]; dictionaries have no [iteritems] on Python 3. *)
Definition language_only (d : pydict) : result pydict :=
  if _IsPy3 then Raise (AttributeError "iteritems")
  else Ok (filter (λ kv, kv.1 = "language"%string) d).

(** The headers [call] starts from: the key and the identification of the
    binding, when a key is configured. *)
Definition key_headers (ec : EndpointCaller) : pydict :=
  match ec_user_key ec with
  | Some k =>
      <[ "X-RosetteAPI-Binding-Version"%string := PStr _BINDING_VERSION ]>
        (<[ "X-RosetteAPI-Binding"%string := PStr "python" ]>
           {[ "X-RosetteAPI-Key"%string := PStr k ]})
  | None => ∅
  end.

(** [EndpointCaller.call] *)
Definition call (ec : EndpointCaller) (parameters : CallArg) : M pydict :=
  parameters ←
    match parameters with
    | Container p => mret p
    | Plain text =>
        if negb (bool_decide (suburl ec = Some "name-similarity"%string))
           && negb (bool_decide (suburl ec = Some "name-translation"%string))
        then lift (setitem DocumentParameters "content" text)
        else raise (RosetteException (PStr "incompatible")
                      (PStr "Text-only input only works for DocumentParameter endpoints")
                      (match suburl ec with
                       | Some sub => PStr sub
                       | None => PNone
                       end))
    end;
  let useMultipart := useMultipart parameters in
  url ← match suburl ec with
        | Some sub => mret (ec_service_url ec ++ sub)%string
        | None => raise (TypeError "cannot concatenate 'str' and 'NoneType' objects")
        end;
  params_to_serialize ← lift (serialize parameters);
  let headers := key_headers ec in
  r ← (if useMultipart then
         params ← lift (language_only params_to_serialize);
         fname ← match file_name parameters with
                 | Some f => mret (basename f)
                 | None => raise (AttributeError "file_name")
                 end;
         content ← match params_to_serialize !! "content"%string with
                   | Some c => mret c
                   | None => raise (KeyError "content")
                   end;
         request_options ← lift (json_dumps (PDict params));
         let files :=
           [("content"%string,
             {| part_filename := fname; part_content := content;
                part_type := "text/plain" |});
            ("request"%string,
             {| part_filename := "request_options";
                part_content := PStr request_options;
                part_type := "application/json" |})] in
         resp ← session_send {| req_method := "POST"; req_url := url;
                                req_files := files; req_headers := headers |};
         let rdata := body resp in
         let response_headers : pydict :=
           {[ "responseHeaders"%string := PDict (resp_headers resp) ]} in
         let status := status resp in
         the_json ← lift (_my_loads rdata response_headers);
         mret {| json := the_json; status_code := status |}
       else
         let headers :=
           if ec_debug ec then <[ "X-RosetteAPI-Devel"%string := PBool true ]> headers
           else headers in
         let headers := <[ "Accept"%string := PStr "application/json" ]> headers in
         let headers := <[ "Accept-Encoding"%string := PStr "gzip" ]> headers in
         let headers := <[ "Content-Type"%string := PStr "application/json" ]> headers in
         _post_http net (ec_api ec) url (PDict params_to_serialize) headers);
  lift (__finish_result ec r "operate").

(** Two of the facade methods of [API]. *)
Definition entities (api : API) (parameters : CallArg)
    (resolve_entities : bool) : M pydict :=
  if resolve_entities
  then call (EndpointCaller_init api (Some "entities/linked"%string)) parameters
  else call (EndpointCaller_init api (Some "entities"%string)) parameters.

Definition name_similarity (api : API) (parameters : CallArg) : M pydict :=
  call (EndpointCaller_init api (Some "name-similarity"%string)) parameters.

Definition name_translation (api : API) (parameters : CallArg) : M pydict :=
  call (EndpointCaller_init api (Some "name-translation"%string)) parameters.

End Endpoint.

(** ** A reference runtime

    An executable instance of [PyRuntime], so that the definitions above
    can be run on concrete inputs.  It implements the part of the Python
    library that the examples need: JSON texts made of objects, arrays,
    strings with the single-character escapes, integers and the three
    literals; gzip members whose deflate blocks are stored or use the fixed
    Huffman code; [repr] and [format] of the simple values; POSIX
    [basename]; URLs of the form [scheme://netloc/path]. *)

Module Reference.

(** *** JSON *)

Definition is_ws (c : ascii) : bool :=
  (Ascii.eqb c " " || Ascii.eqb c "009" || Ascii.eqb c "010"
   || Ascii.eqb c "013")%char.

Fixpoint skip_ws (s : string) : string :=
  match s with
  | String c r => if is_ws c then skip_ws r else s
  | EmptyString => s
  end.

Definition is_digit (c : ascii) : bool :=
  let n := nat_of_ascii c in (48 <=? n)%nat && (n <=? 57)%nat.

Fixpoint scan_digits (s : string) (acc : Z) : Z * string :=
  match s with
  | String c r =>
      if is_digit c
      then scan_digits r (10 * acc + Z.of_nat (nat_of_ascii c - 48))
      else (acc, s)
  | EmptyString => (acc, s)
  end.

(** The double quote, character 34. *)
Definition dquote : ascii :=
  Ascii false true false false false true false false.

(** The characters of a string literal, after the opening quote. *)
Fixpoint scan_string (s : string) : option (string * string) :=
  match s with
  | EmptyString => None
  | String "\" (String e r) =>
      c ← (if Ascii.eqb e dquote then Some dquote
           else if Ascii.eqb e "\" then Some "\"%char
           else if Ascii.eqb e "/" then Some "/"%char
           else if Ascii.eqb e "n" then Some "010"%char
           else if Ascii.eqb e "t" then Some "009"%char
           else if Ascii.eqb e "r" then Some "013"%char
           else if Ascii.eqb e "b" then Some "008"%char
           else if Ascii.eqb e "f" then Some "012"%char
           else None);
      '(t, rest) ← scan_string r;
      Some (String c t, rest)
  | String c r =>
      if Ascii.eqb c dquote then Some (EmptyString, r)
      else if (nat_of_ascii c <? 32)%nat then None
      else '(t, rest) ← scan_string r; Some (String c t, rest)
  end.

(** The elements of an array after the first, up to the bracket. *)
Fixpoint scan_elements (value : string → option (pyvalue * string))
    (fuel : nat) (s : string) (acc : list pyvalue)
  : option (list pyvalue * string) :=
  match fuel with
  | O => None
  | S fuel =>
      match skip_ws s with
      | String "]" r => Some (reverse acc, r)
      | String "," r =>
          '(v, rest) ← value r;
          scan_elements value fuel rest (v :: acc)
      | _ => None
      end
  end.

Definition scan_member (value : string → option (pyvalue * string))
    (s : string) : option (string * pyvalue * string) :=
  match skip_ws s with
  | String c r =>
      if Ascii.eqb c dquote then
        '(k, rest) ← scan_string r;
        match skip_ws rest with
        | String ":" rest =>
            '(v, rest) ← value rest;
            Some (k, v, rest)
        | _ => None
        end
      else None
  | EmptyString => None
  end.

(** The members of an object after the first, up to the brace. *)
Fixpoint scan_members (value : string → option (pyvalue * string))
    (fuel : nat) (s : string) (acc : pydict) : option (pydict * string) :=
  match fuel with
  | O => None
  | S fuel =>
      match skip_ws s with
      | String "}" r => Some (acc, r)
      | String "," r =>
          '(k, v, rest) ← scan_member value r;
          scan_members value fuel rest (<[k := v]> acc)
      | _ => None
      end
  end.

Fixpoint scan_value (fuel : nat) (s : string) : option (pyvalue * string) :=
  match fuel with
  | O => None
  | S fuel =>
      match skip_ws s with
      | String "{" r =>
          match skip_ws r with
          | String "}" rest => Some (PDict ∅, rest)
          | _ =>
              '(k, v, rest) ← scan_member (scan_value fuel) r;
              '(d, rest) ← scan_members (scan_value fuel) fuel rest {[k := v]};
              Some (PDict d, rest)
          end
      | String "[" r =>
          match skip_ws r with
          | String "]" rest => Some (PList [], rest)
          | _ =>
              '(v, rest) ← scan_value fuel r;
              '(l, rest) ← scan_elements (scan_value fuel) fuel rest [v];
              Some (PList l, rest)
          end
      | String "t" (String "r" (String "u" (String "e" r))) =>
          Some (PBool true, r)
      | String "f" (String "a" (String "l" (String "s" (String "e" r)))) =>
          Some (PBool false, r)
      | String "n" (String "u" (String "l" (String "l" r))) =>
          Some (PNone, r)
      | String "-" (String c r) =>
          if is_digit c
          then let '(n, rest) := scan_digits (String c r) 0 in Some (PInt (- n), rest)
          else None
      | String c r =>
          if Ascii.eqb c dquote
          then '(t, rest) ← scan_string r; Some (PStr t, rest)
          else if is_digit c
          then let '(n, rest) := scan_digits (String c r) 0 in Some (PInt n, rest)
          else None
      | EmptyString => None
      end
  end.

Definition json_loads (s : string) : result pyvalue :=
  match scan_value (S (String.length s)) s with
  | Some (v, rest) =>
      match skip_ws rest with
      | EmptyString => Ok v
      | _ => Raise (ValueError "Extra data")
      end
  | None => Raise (ValueError "No JSON object could be decoded")
  end.

Fixpoint escape (s : string) : string :=
  match s with
  | EmptyString => EmptyString
  | String c r =>
      if Ascii.eqb c dquote then String "\" (String dquote (escape r))
      else if Ascii.eqb c "\" then String "\" (String "\" (escape r))
      else if Ascii.eqb c "010" then String "\" (String "n" (escape r))
      else if Ascii.eqb c "013" then String "\" (String "r" (escape r))
      else if Ascii.eqb c "009" then String "\" (String "t" (escape r))
      else String c (escape r)
  end.

Definition quoted (s : string) : string :=
  String dquote (escape s ++ String dquote EmptyString).

Fixpoint join (sep : string) (l : list string) : string :=
  match l with
  | [] => EmptyString
  | [x] => x
  | x :: r => x ++ sep ++ join sep r
  end.

Fixpoint dumps (py3 : bool) (fuel : nat) (v : pyvalue) : result string :=
  match fuel with
  | O => Raise (ValueError "Circular reference detected")
  | S fuel =>
      match v with
      | PNone => Ok "null"%string
      | PBool true => Ok "true"%string
      | PBool false => Ok "false"%string
      | PInt z => Ok (pretty z)
      | PStr s => Ok (quoted s)
      | PBytes b =>
          if py3 then Raise (TypeError "is not JSON serializable")
          else Ok (quoted (String.string_of_list_byte b))
      | PList l =>
          items ← foldr (λ x acc, s ← dumps py3 fuel x; r ← acc; Ok (s :: r))
                    (Ok []) l;
          Ok ("[" ++ join ", " items ++ "]")%string
      | PDict d =>
          items ← foldr (λ kv acc, s ← dumps py3 fuel kv.2; r ← acc;
                                    Ok ((quoted kv.1 ++ ": " ++ s)%string :: r))
                    (Ok []) (map_to_list d);
          Ok ("{" ++ join ", " items ++ "}")%string
      end
  end.

Definition json_dumps (py3 : bool) (v : pyvalue) : result string :=
  dumps py3 1000 v.

(** *** gzip *)

Abbreviation byte_to_N := Stdlib.Strings.Byte.to_N.
Abbreviation byte_of_N := Stdlib.Strings.Byte.of_N.

(** A position in a byte string: the bytes left, and the number of bits
    of the first one already consumed. *)
Definition bitreader : Type := bytes * nat.

Definition read_bit (r : bitreader) : option (bool * bitreader) :=
  match r with
  | (b :: rest, pos) =>
      Some (N.testbit (byte_to_N b) (N.of_nat pos),
            if (pos =? 7)%nat then (rest, 0%nat) else (b :: rest, S pos))
  | ([], _) => None
  end.

Definition bit (b : bool) : N := if b then 1%N else 0%N.

(** [n] bits, least significant first (header fields, extra bits). *)
Fixpoint read_bits (n : nat) (r : bitreader) : option (N * bitreader) :=
  match n with
  | O => Some (0%N, r)
  | S n =>
      '(b, r) ← read_bit r;
      '(v, r) ← read_bits n r;
      Some ((bit b + 2 * v)%N, r)
  end.

(** [n] bits, most significant first (Huffman codes). *)
Fixpoint read_code (n : nat) (acc : N) (r : bitreader)
  : option (N * bitreader) :=
  match n with
  | O => Some (acc, r)
  | S n => '(b, r) ← read_bit r; read_code n (2 * acc + bit b)%N r
  end.

(** Drop the rest of a byte that was started. *)
Definition align (r : bitreader) : bytes :=
  match r with
  | (_ :: rest, S _) => rest
  | (bs, _) => bs
  end.

(** One symbol of the fixed literal/length code (RFC 1951, 3.2.6). *)
Definition fixed_symbol (r : bitreader) : option (N * bitreader) :=
  '(c7, r) ← read_code 7 0%N r;
  if (c7 <=? 23)%N then Some ((256 + c7)%N, r)
  else
    '(b, r) ← read_bit r;
    let c8 := (2 * c7 + bit b)%N in
    if (c8 <=? 191)%N then Some ((c8 - 48)%N, r)
    else if (c8 <=? 199)%N then Some ((280 + (c8 - 192))%N, r)
    else
      '(b, r) ← read_bit r;
      let c9 := (2 * c8 + bit b)%N in
      Some ((144 + (c9 - 400))%N, r).

(** Base value and number of extra bits, for length symbols 257.. and
    distance symbols 0.. *)
Definition length_table : list (N * N) :=
  [(3, 0); (4, 0); (5, 0); (6, 0); (7, 0); (8, 0); (9, 0); (10, 0);
   (11, 1); (13, 1); (15, 1); (17, 1); (19, 2); (23, 2); (27, 2); (31, 2);
   (35, 3); (43, 3); (51, 3); (59, 3); (67, 4); (83, 4); (99, 4); (115, 4);
   (131, 5); (163, 5); (195, 5); (227, 5); (258, 0)]%N.

Definition dist_table : list (N * N) :=
  [(1, 0); (2, 0); (3, 0); (4, 0); (5, 1); (7, 1); (9, 2); (13, 2);
   (17, 3); (25, 3); (33, 4); (49, 4); (65, 5); (97, 5); (129, 6);
   (193, 6); (257, 7); (385, 7); (513, 8); (769, 8); (1025, 9);
   (1537, 9); (2049, 10); (3073, 10); (4097, 11); (6145, 11);
   (8193, 12); (12289, 12); (16385, 13); (24577, 13)]%N.

(** Copy [len] bytes from [dist] back; [out] holds the output so far,
    last byte first. *)
Fixpoint copy_back (len dist : nat) (out : bytes) : option bytes :=
  match len with
  | O => Some out
  | S len => b ← out !! pred dist; copy_back len dist (b :: out)
  end.

Fixpoint fixed_block (fuel : nat) (r : bitreader) (out : bytes)
  : option (bytes * bitreader) :=
  match fuel with
  | O => None
  | S fuel =>
      '(sym, r) ← fixed_symbol r;
      if (sym <? 256)%N then
        b ← byte_of_N sym; fixed_block fuel r (b :: out)
      else if (sym =? 256)%N then Some (out, r)
      else
        '(base, extra) ← length_table !! N.to_nat (sym - 257);
        '(e, r) ← read_bits (N.to_nat extra) r;
        '(dc, r) ← read_code 5 0%N r;
        '(dbase, dextra) ← dist_table !! N.to_nat dc;
        '(de, r) ← read_bits (N.to_nat dextra) r;
        if (dbase + de =? 0)%N then None
        else
          out ← copy_back (N.to_nat (base + e)) (N.to_nat (dbase + de)) out;
          fixed_block fuel r out
  end.

(** A little-endian number of [n] bytes. *)
Fixpoint le_number (n : nat) (bs : bytes) : option (N * bytes) :=
  match n with
  | O => Some (0%N, bs)
  | S n =>
      match bs with
      | b :: rest =>
          '(v, rest) ← le_number n rest;
          Some ((byte_to_N b + 256 * v)%N, rest)
      | [] => None
      end
  end.

Definition stored_block (r : bitreader) (out : bytes)
  : option (bytes * bitreader) :=
  '(len, bs) ← le_number 2 (align r);
  '(nlen, bs) ← le_number 2 bs;
  if (len + nlen =? 65535)%N && (N.to_nat len <=? length bs)%nat
  then Some (reverse (take (N.to_nat len) bs) ++ out,
             (drop (N.to_nat len) bs, 0%nat))
  else None.

(** The deflate stream: the output and the bytes after it. *)
Fixpoint inflate (fuel : nat) (r : bitreader) (out : bytes)
  : option (bytes * bytes) :=
  match fuel with
  | O => None
  | S fuel =>
      '(bfinal, r) ← read_bit r;
      '(btype, r) ← read_bits 2 r;
      '(out, r) ← (if (btype =? 0)%N then stored_block r out
                   else if (btype =? 1)%N
                   then fixed_block (8 * length r.1) r out
                   else None);
      if (bfinal : bool) then Some (reverse out, align r) else inflate fuel r out
  end.

Definition crc_step (crc : N) : N :=
  if N.testbit crc 0
  then N.lxor (N.shiftr crc 1) 0xEDB88320%N
  else N.shiftr crc 1.

Definition crc_byte (crc : N) (b : Byte.byte) : N :=
  Nat.iter 8 crc_step (N.lxor crc (byte_to_N b)).

Definition crc32 (bs : bytes) : N :=
  N.lxor (foldl crc_byte 0xFFFFFFFF%N bs) 0xFFFFFFFF%N.

(** Skip a zero-terminated header field. *)
Fixpoint skip_zstring (bs : bytes) : option bytes :=
  match bs with
  | [] => None
  | b :: rest => if (byte_to_N b =? 0)%N then Some rest else skip_zstring rest
  end.

(** The optional fields of a member header (RFC 1952, 2.3). *)
Definition skip_optional (flg : N) (bs : bytes) : option bytes :=
  bs ← (if N.testbit flg 2
        then '(xlen, bs) ← le_number 2 bs;
             if (N.to_nat xlen <=? length bs)%nat
             then Some (drop (N.to_nat xlen) bs) else None
        else Some bs);
  bs ← (if N.testbit flg 3 then skip_zstring bs else Some bs);
  bs ← (if N.testbit flg 4 then skip_zstring bs else Some bs);
  if N.testbit flg 1
  then (if (2 <=? length bs)%nat then Some (drop 2 bs) else None)
  else Some bs.

Definition gunzip_member (bs : bytes) : option bytes :=
  match bs with
  | id1 :: id2 :: cm :: flg :: _ :: _ :: _ :: _ :: _ :: _ :: rest =>
      if (byte_to_N id1 =? 0x1f)%N && (byte_to_N id2 =? 0x8b)%N
         && (byte_to_N cm =? 8)%N
      then
        rest ← skip_optional (byte_to_N flg) rest;
        '(out, trailer) ← inflate (S (length rest)) (rest, 0%nat) [];
        '(crc, trailer) ← le_number 4 trailer;
        '(isize, trailer) ← le_number 4 trailer;
        if (crc =? crc32 out)%N
           && (isize =? N.of_nat (length out) mod 2 ^ 32)%N
           && bool_decide (trailer = [])
        then Some out else None
      else None
  | _ => None
  end.

Definition gzip_read (bs : bytes) : result bytes :=
  match gunzip_member bs with
  | Some out => Ok out
  | None => Raise (IOError "Not a gzipped file")
  end.

(** *** The other library functions *)

Definition is_ascii (b : Byte.byte) : bool := (byte_to_N b <? 128)%N.

(** Exact on ASCII input. *)
Definition decode_utf8 (bs : bytes) : result string :=
  if forallb is_ascii bs then Ok (String.string_of_list_byte bs)
  else Raise UnicodeDecodeError.

(** Exact for strings of printable characters without quotes or
    backslashes. *)
Definition repr (py3 : bool) (v : pyvalue) : string :=
  match v with
  | PNone => "None"
  | PBool true => "True"
  | PBool false => "False"
  | PInt z => pretty z
  | PStr s => "'" ++ s ++ "'"
  | PBytes b =>
      (if py3 then "b'" else "'") ++ String.string_of_list_byte b ++ "'"
  | PList _ => "[...]"
  | PDict _ => "{...}"
  end%string.

Definition format_field (py3 : bool) (v : pyvalue) : string :=
  match v with
  | PStr s => s
  | PBytes b => if py3 then repr py3 v else String.string_of_list_byte b
  | _ => repr py3 v
  end.

(** [posixpath.basename]: what follows the last slash. *)
Fixpoint basename_from (s : string) (acc : string) : string :=
  match s with
  | EmptyString => acc
  | String c r =>
      if Ascii.eqb c "/" then basename_from r EmptyString
      else basename_from r (acc ++ String c EmptyString)
  end.

Definition basename (path : string) : string :=
  basename_from path EmptyString.

Fixpoint until_slash (s : string) : string :=
  match s with
  | EmptyString => EmptyString
  | String c r => if Ascii.eqb c "/" then EmptyString else String c (until_slash r)
  end.

(** Scheme and netloc of [scheme://netloc/...]. *)
Fixpoint split_url (s : string) (scheme : string) : string * string :=
  match s with
  | String ":" (String "/" (String "/" r)) => (scheme, until_slash r)
  | String c r => split_url r (scheme ++ String c EmptyString)
  | EmptyString => (EmptyString, EmptyString)
  end.

Definition urlparse (url : string) : string * string :=
  split_url url EmptyString.

(** The runtime, with the gzip reader left open. *)
Definition runtime_with_gzip (py3 : bool) (gz : bytes → result bytes)
  : PyRuntime :=
  Build_PyRuntime py3 (repr py3) (format_field py3) json_loads
    (json_dumps py3) decode_utf8 gz basename urlparse.

Definition runtime (py3 : bool) : PyRuntime :=
  runtime_with_gzip py3 gzip_read.

End Reference.

(** ** The rest of the binding *)

(** The code points of a Python 3 string, for [_byteify]. *)
Abbreviation codepoints := (list N).

(** [_byteify]: the byte array of a string whose characters are all below
    256.  The array is allocated with the length of the string and filled
    index by index; the [assert] stops at the first larger character. *)
Fixpoint _byteify_from (s : codepoints) (ix : nat) (b : bytes) : result bytes :=
  match s with
  | [] => Ok b
  | oc :: rest =>
      if (oc <? 256)%N then
        match Stdlib.Strings.Byte.of_N oc with
        | Some x => _byteify_from rest (S ix) (<[ ix := x ]> b)
        | None => Raise (ValueError "byte must be in range(0, 256)")
        end
      else Raise (OtherError "AssertionError")
  end.

Definition _byteify (s : codepoints) : result bytes :=
  _byteify_from s 0 (replicate (length s) Byte.x00).

(** [k.startswith("__")] *)
Definition startswith_dunder (k : string) : bool :=
  match k with
  | String "_" (String "_" _) => true
  | _ => false
  end.

(** The attributes of the class body of [MorphologyOutput]. *)
Definition MorphologyOutput_attributes : list (string * pyvalue) :=
  [("LEMMAS", PStr "lemmas");
   ("PARTS_OF_SPEECH", PStr "parts-of-speech");
   ("COMPOUND_COMPONENTS", PStr "compound-components");
   ("HAN_READINGS", PStr "han-readings");
   ("COMPLETE", PStr "complete")]%string.

(** [vars(MorphologyOutput).items()]: the entries of the class dictionary,
    in the order in which the interpreter enumerates it (the order of the
    class body where dictionaries keep the order of insertion, the order of
    the hash table on Python 2).  The dictionary holds the attributes of the
    class body and what the interpreter adds to a class, under names that
    start with two underscores ([__module__] and [__doc__], and more on
    later versions). *)
Definition MorphologyOutput_vars (items : list (string * pyvalue)) : Prop :=
  ∃ added,
    Forall (λ kv, startswith_dunder kv.1 = true) added
    ∧ items ≡ₚ MorphologyOutput_attributes ++ added.

Definition MorphologyOutput_COMPLETE : string := "complete".

(** [", ".join(values)]: every value has to be a string. *)
Fixpoint py_join (sep : string) (values : list pyvalue) : result string :=
  match values with
  | [] => Ok EmptyString
  | [PStr x] => Ok x
  | PStr x :: rest => r ← py_join sep rest; Ok (x ++ sep ++ r)%string
  | _ :: _ => Raise (TypeError "sequence item: expected string")
  end.

Section Rest.
Context `{PyRuntime}.
Variable net : nat → Outcome.

(** The text of a value that is an instance of [str]: a string, and on
    Python 2 a byte string as well. *)
Definition as_str (v : pyvalue) : option string :=
  match v with
  | PStr s => Some s
  | PBytes b => if _IsPy3 then None else Some (String.string_of_list_byte b)
  | _ => None
  end.

(** [RosetteException.__str__]: the status goes through [repr] unless it
    is a string; the concatenations raise when the message or the context
    is not one. *)
Definition RosetteException_str (status message response_message : pyvalue)
  : result string :=
  let sst := match as_str status with
             | Some s => s
             | None => repr status
             end in
  match as_str message with
  | None => Raise (TypeError "cannot concatenate 'str' and non-str objects")
  | Some m =>
      match as_str response_message with
      | None => Raise (TypeError "cannot concatenate 'str' and non-str objects")
      | Some r =>
          Ok (sst ++ ": " ++ m ++ ":" ++ String "010" "  " ++ r)%string
      end
  end.

(** [str(e)] for the exceptions of the model. *)
Definition exn_str (e : exn) : result string :=
  match e with
  | RosetteException st m r => RosetteException_str st m r
  | _ => Raise (OtherError "not a RosetteException")
  end.

(** [value == v] for a class attribute [v]: the attributes compared are
    strings, which only a string equals (on Python 2 a byte string with
    the same bytes too). *)
Definition py_equals_attr (value v : pyvalue) : bool :=
  match v with
  | PStr s =>
      match as_str value with
      | Some t => String.eqb t s
      | None => false
      end
  | PNone => is_None value
  | _ => false
  end.

(** [_PseudoEnum.validate], a class method: [cls_vars] is
    [vars(cls).items()], in the order of the interpreter. *)
Definition _PseudoEnum_validate (cls_vars : list (string * pyvalue))
    (value : pyvalue) (name : string) : result unit :=
  let values :=
    (λ kv, kv.2) <$> List.filter (λ kv, negb (startswith_dunder kv.1)) cls_vars in
  if negb (existsb (py_equals_attr value) values) then
    listed ← py_join ", " values;
    Raise (RosetteException (PStr "unknownVariable")
             (PStr ("The value supplied for " ++ name ++ " is not one of "
                    ++ listed ++ "."))
             (PStr (repr value)))
  else Ok tt.

(** The facade methods of [API]. *)
Definition API_ping (api : API) : M pydict :=
  ping net (EndpointCaller_init api None).

Definition API_info (api : API) : M pydict :=
  info net (EndpointCaller_init api None).

Definition language (api : API) (parameters : CallArg) : M pydict :=
  call net (EndpointCaller_init api (Some "language"%string)) parameters.

Definition sentences (api : API) (parameters : CallArg) : M pydict :=
  call net (EndpointCaller_init api (Some "sentences"%string)) parameters.

Definition tokens (api : API) (parameters : CallArg) : M pydict :=
  call net (EndpointCaller_init api (Some "tokens"%string)) parameters.

Definition morphology (api : API) (parameters : CallArg) (facet : string)
  : M pydict :=
  call net (EndpointCaller_init api (Some ("morphology/" ++ facet)%string))
    parameters.

Definition categories (api : API) (parameters : CallArg) : M pydict :=
  call net (EndpointCaller_init api (Some "categories"%string)) parameters.

Definition sentiment (api : API) (parameters : CallArg) : M pydict :=
  call net (EndpointCaller_init api (Some "sentiment"%string)) parameters.

Definition relationships (api : API) (parameters : CallArg) : M pydict :=
  call net (EndpointCaller_init api (Some "relationships"%string)) parameters.

Definition translated_name (api : API) (parameters : CallArg) : M pydict :=
  name_translation net api parameters.

Definition matched_name (api : API) (parameters : CallArg) : M pydict :=
  name_similarity net api parameters.

End Rest.

(** ** Well-formed containers *)

(** The keys of a container are those of the repertoire of its class:
    the constructors establish this, and no operation adds or removes a
    key. *)
Definition wf (p : ParamSet) : Prop :=
  dom (params p) = list_to_set (repertoire (cls p)).

(** A key is set when it is present with a value other than [None]. *)
Definition is_set (p : ParamSet) (key : string) : bool :=
  match params p !! key with
  | Some v => negb (is_None v)
  | None => false
  end.

(** ** Vocabulary of the statements about the transport *)

(** What [_connect] does to a world that already has a connection: a
    fresh connection when connections are not reused, nothing
    otherwise. *)
Definition reconnect_events (api : API) (parsedUrl : string * string)
  : list Event :=
  if reuse_connection api then [] else [EvConnect (new_conn parsedUrl)].

Definition reconnected (api : API) (parsedUrl : string * string) (c : Conn)
  : Conn :=
  if reuse_connection api then c else new_conn parsedUrl.

(** The effects of one attempt that is answered with status 429. *)
Definition round_429 (api : API) (op url : string) (data : option string)
    (headers : pydict) (parsedUrl : string * string) : list Event :=
  [EvRequest op url data headers; EvSleep (connection_refresh_duration api);
   EvClose] ++ reconnect_events api parsedUrl.

(** The effects of the attempt that is answered with status 200. *)
Definition round_200 (api : API) (op url : string) (data : option string)
    (headers : pydict) : list Event :=
  EvRequest op url data headers
  :: (if reuse_connection api then [] else [EvClose]).

Definition is_sleep (ev : Event) : bool :=
  match ev with EvSleep _ => true | _ => false end.

Definition is_request (ev : Event) : bool :=
  match ev with EvRequest _ _ _ _ => true | _ => false end.

(** The headers [_make_request] sends: the caller's, with the user
    agent. *)
Definition with_user_agent (headers : pydict) : pydict :=
  <[ "User-Agent"%string := PStr ("RosetteAPIPython/" ++ _BINDING_VERSION) ]>
    headers.

(** The [response_headers] dictionary built from a response. *)
Definition response_headers_of (r : Response) : pydict :=
  {[ "responseHeaders"%string := PDict (resp_headers r) ]}.

(** What the [except (httplib.BadStatusLine, gaierror)] clause of the loop
    makes of an exception raised in its body. *)
Definition surfaced (url : string) (e : exn) : exn :=
  match e with
  | BadStatusLine | gaierror =>
      RosetteException (PStr "ConnectionError")
        (PStr "Unable to establish connection to the Rosette API server")
        (PStr url)
  | _ => e
  end.

(** The exception an attempt raises on a status other than 200 and 429,
    from the body [b] of the response and the [message] recorded so
    far. *)
Definition error_of_body `{PyRuntime} (url : string) (r : Response)
    (b : bytes) (message : pyvalue) : exn :=
  match _my_loads (Some b) (response_headers_of r) with
  | Ok the_json =>
      RosetteException
        (default (PInt (status r)) (the_json !! "code"%string))
        (default message (the_json !! "message"%string))
        (PStr url)
  | Raise e => surfaced url e
  end.

(** The body of an answer, [None] when the exchange raised. *)
Definition answer_body (o : Outcome) : option bytes :=
  match o with
  | Responds r => body r
  | Fails _ => None
  end.

(** The exchanges [first], ..., [first + k - 1] are answered with status
    429. *)
Definition answers_429 (net : nat → Outcome) (first k : nat) : Prop :=
  ∀ j, (j < k)%nat → ∃ r, net (first + j)%nat = Responds r ∧ status r = 429.

(** The [message] and [code] variables of [_make_request] after [k]
    attempts, numbered from [a], were answered with 429: those of the last
    one, or the initial values when [k] is zero. *)
Definition recorded_message `{PyRuntime} (net : nat → Outcome)
    (first a k : nat) (message : pyvalue) : pyvalue :=
  match k with
  | O => message
  | S k' => PStr (format_429 (answer_body (net (first + k')%nat)) (a + k'))
  end.

Definition recorded_code (k : nat) (code : pyvalue) : pyvalue :=
  match k with
  | O => code
  | S _ => PInt 429
  end.

(** What the [_connect] at the start of [_make_request] does: the
    connection the loop starts with, and the events of making it. *)
Definition connected_conn (api : API) (parsedUrl : string * string)
    (w : World) : Conn :=
  match http_connection w with
  | Some c => reconnected api parsedUrl c
  | None => new_conn parsedUrl
  end.

Definition connect_events (api : API) (parsedUrl : string * string)
    (w : World) : list Event :=
  match http_connection w with
  | Some c => reconnect_events api parsedUrl
  | None => [EvConnect (new_conn parsedUrl)]
  end.

(** The number of attempts of [_make_request]. *)
Definition attempts_of (api : API) : nat := Z.to_nat (num_retries api + 1).

(** [json.loads] of a body, as [_my_loads] calls it: on the decoded text on
    Python 3, on the byte string itself on Python 2. *)
Definition loads_body `{PyRuntime} (b : bytes) : result pyvalue :=
  if _IsPy3 then s ← decode_utf8 b; json_loads s
  else json_loads (String.string_of_list_byte b).

(** The [_ReturnObject] built from a body, the response headers and the
    status. *)
Definition parsed `{PyRuntime} (b : bytes) (response_headers : pydict)
    (st : Z) : result _ReturnObject :=
  the_json ← _my_loads (Some b) response_headers;
  Ok {| json := the_json; status_code := st |}.

(** The "language" entry of a container, when it is set. *)
Definition language_part (p : ParamSet) : pydict :=
  match params p !! "language"%string with
  | Some v => if is_None v then ∅ else {[ "language"%string := v ]}
  | None => ∅
  end.

(** The headers of a JSON (not multipart) [call], before [_make_request]
    adds the user agent. *)
Definition json_call_headers (ec : EndpointCaller) : pydict :=
  <[ "Content-Type"%string := PStr "application/json" ]>
    (<[ "Accept-Encoding"%string := PStr "gzip" ]>
       (<[ "Accept"%string := PStr "application/json" ]>
          (if ec_debug ec
           then <[ "X-RosetteAPI-Devel"%string := PBool true ]> (key_headers ec)
           else key_headers ec))).

(** The facet names of [MorphologyOutput]. *)
Definition facets : list string :=
  ["lemmas"; "parts-of-speech"; "compound-components"; "han-readings";
   "complete"]%string.

(** An enumeration of the class dictionary of [MorphologyOutput] that is
    not in the order of the class body. *)
Definition MorphologyOutput_items_shuffled : list (string * pyvalue) :=
  [("COMPLETE", PStr "complete");
   ("__module__", PStr "rosette.api");
   ("LEMMAS", PStr "lemmas");
   ("COMPOUND_COMPONENTS", PStr "compound-components");
   ("HAN_READINGS", PStr "han-readings");
   ("__doc__", PNone);
   ("PARTS_OF_SPEECH", PStr "parts-of-speech")]%string.

(** ** Mocked transports for the examples *)

(** A network that gives the answers of a list, in order. *)
Definition scripted (answers : list Outcome) (n : nat) : Outcome :=
  default (Fails (OtherError "no more answers")) (answers !! n).

Definition answer (st : Z) (text : string) : Outcome :=
  Responds {| status := st;
              body := Some (String.list_byte_of_string text);
              resp_headers := ∅ |}.

(** JSON texts are written with apostrophes for the double quotes. *)
Fixpoint json_text (s : string) : string :=
  match s with
  | EmptyString => EmptyString
  | String c r =>
      String (if Ascii.eqb c "'" then Reference.dquote else c) (json_text r)
  end.

Definition json_answer (st : Z) (text : string) : Outcome :=
  answer st (json_text text).

(** The 31 bytes gzip makes of the 11 bytes of the JSON text of the object
    with the one entry ok: true (one deflate block, fixed Huffman code). *)
Definition gzip_ok : bytes :=
  [Byte.x1f; Byte.x8b; Byte.x08; Byte.x00; Byte.x00; Byte.x00; Byte.x00;
   Byte.x00; Byte.x02; Byte.x03; Byte.xab; Byte.x56; Byte.xca; Byte.xcf;
   Byte.x56; Byte.xb2; Byte.x2a; Byte.x29; Byte.x2a; Byte.x4d; Byte.xad;
   Byte.x05; Byte.x00; Byte.x90; Byte.x5f; Byte.xd4; Byte.xa7; Byte.x0b;
   Byte.x00; Byte.x00; Byte.x00].

(** A file system with one file. *)
Definition one_file (path : string) (content : bytes) (q : string)
  : option bytes :=
  if bool_decide (q = path) then Some content else None.

(** A client with a key, and a document container with a language. *)
Definition keyed_api : API :=
  API_init (Some "0123456789abcdef"%string) "https://api.rosette.com/rest/v1"
    5 true (1 # 2) false.

Definition english_document : ParamSet :=
  set_params DocumentParameters
    (<[ "language"%string := PStr "eng" ]> (params DocumentParameters)).

(** The Python 2 reference runtime. *)
Definition py2 : PyRuntime := Reference.runtime false.

(** The document of the examples, with a text. *)
Definition english_letter : ParamSet :=
  set_params english_document
    (<[ "content"%string := PStr "Dear Sir" ]> (params english_document)).

Definition entities_caller : EndpointCaller :=
  EndpointCaller_init keyed_api (Some "entities"%string).

Definition letter_file : string → option bytes :=
  one_file "/tmp/docs/letter.txt" (String.list_byte_of_string "Dear Sir").

Definition entities_url : string := "https://api.rosette.com/rest/v1/entities".

(** * Properties *)

Lemma is_None_true v : is_None v = true ↔ v = PNone.
Proof. destruct v; simpl; split; congruence. Qed.

Lemma is_None_false v : is_None v = false ↔ v ≠ PNone.
Proof. destruct v; simpl; split; congruence. Qed.

Lemma init_dom (keys : list string) :
  dom (_DocumentParamSetBase_init keys) = list_to_set keys.
Proof.
  unfold _DocumentParamSetBase_init.
  enough (G : ∀ m : gmap string pyvalue,
             dom (foldl (λ m k, <[k := PNone]> m) m keys)
             = dom m ∪ list_to_set keys).
  { rewrite G, dom_empty_L. set_solver. }
  induction keys as [|k keys IH]; intros m; simpl.
  - set_solver.
  - rewrite IH, dom_insert_L. set_solver.
Qed.

Lemma init_lookup (keys : list string) (k : string) :
  k ∈ keys → _DocumentParamSetBase_init keys !! k = Some PNone.
Proof.
  unfold _DocumentParamSetBase_init.
  enough (G : ∀ m : gmap string pyvalue,
             (k ∈ keys ∨ m !! k = Some PNone) →
             foldl (λ m k, <[k := PNone]> m) m keys !! k = Some PNone).
  { intros Hk. apply G. by left. }
  induction keys as [|k' keys IH]; intros m [Hk|Hm]; simpl.
  - by apply elem_of_nil in Hk.
  - done.
  - apply IH. apply elem_of_cons in Hk as [->|Hk]; [right|by left].
    apply lookup_insert_eq.
  - apply IH. right. destruct (decide (k' = k)) as [->|Hne].
    + apply lookup_insert_eq.
    + by rewrite lookup_insert_ne.
Qed.

Lemma new_ParamSet_wf (c : ParamClass) : wf (new_ParamSet c).
Proof. destruct c; apply init_dom. Qed.

Lemma new_ParamSet_cls (c : ParamClass) : cls (new_ParamSet c) = c.
Proof. by destruct c. Qed.

Lemma wf_lookup (p : ParamSet) (k : string) :
  wf p → (k ∈ repertoire (cls p) ↔ is_Some (params p !! k)).
Proof.
  unfold wf. intros Hwf. rewrite <- elem_of_dom, Hwf.
  by rewrite elem_of_list_to_set.
Qed.

Section ContainerProperties.
Context `{PyRuntime}.

Lemma setitem_wf (p p' : ParamSet) (k : string) (v : pyvalue) :
  wf p → setitem p k v = Ok p' → wf p' ∧ cls p' = cls p.
Proof.
  unfold setitem, wf. intros Hwf.
  destruct (params p !! k) as [x|] eqn:Hk; [|done].
  intros [= <-]. simpl. split; [|done].
  rewrite dom_insert_L, Hwf.
  assert (k ∈ dom (params p)) as Hin by (apply elem_of_dom; eauto).
  rewrite Hwf in Hin. set_solver.
Qed.

Lemma load_document_file_wf fs (p : ParamSet) (path : string) :
  wf p → wf (load_document_file fs p path).2.
Proof.
  intros Hwf. unfold load_document_file.
  destruct (fs path) as [content|]; [|done].
  set (p1 := {| cls := cls p; params := params p; file_name := Some path;
                useMultipart := true |}).
  destruct (load_document_string p1 (PBytes content)) as [p2|e] eqn:E;
    simpl; [|done].
  by apply (setitem_wf p1 p2 "content" (PBytes content)).
Qed.

(** C9. In a container, setting a recognised key and then reading it gives
  back the value that was set; for a key outside the recognised set,
  both setting and reading raise the [badKey] exception, whose context is
  the [repr] of the offending key. *)
Theorem set_then_get_recognized (p : ParamSet) (K : string) (v : pyvalue) :
  wf p →
  (K ∈ repertoire (cls p) →
     ∃ p', setitem p K v = Ok p' ∧ getitem p' K = Ok v ∧ wf p')
  ∧ (K ∉ repertoire (cls p) →
       setitem p K v =
         Raise (RosetteException (PStr "badKey")
                  (PStr "Unknown Rosette parameter key") (PStr (repr (PStr K))))
       ∧ getitem p K =
           Raise (RosetteException (PStr "badKey")
                    (PStr "Unknown Rosette parameter key")
                    (PStr (repr (PStr K))))).
Proof.
  intros Hwf. split; intros HK.
  - apply (wf_lookup p K Hwf) in HK as [x Hx].
    exists (set_params p (<[K := v]> (params p))).
    assert (setitem p K v = Ok (set_params p (<[K := v]> (params p)))) as Hs.
    { unfold setitem. by rewrite Hx. }
    split; [done|]. split.
    + unfold getitem. simpl. by rewrite lookup_insert_eq.
    + by apply (setitem_wf p _ K v).
  - assert (params p !! K = None) as Hx.
    { destruct (params p !! K) eqn:E; [|done].
      exfalso. apply HK. apply (wf_lookup p K Hwf). eauto. }
    unfold setitem, getitem, badKey. by rewrite Hx.
Qed.

End ContainerProperties.

Lemma set_then_get_recognized_witness :
  (∃ p', setitem (H := Reference.runtime false) DocumentParameters "language"
           (PStr "eng") = Ok p'
         ∧ getitem (H := Reference.runtime false) p' "language" = Ok (PStr "eng")
         ∧ wf p')
  ∧ getitem (H := Reference.runtime false) NameSimilarityParameters "name"
    = Raise (RosetteException (PStr "badKey")
               (PStr "Unknown Rosette parameter key") (PStr "'name'")).
Proof.
  split.
  - apply (set_then_get_recognized (H := Reference.runtime false)
             DocumentParameters "language" (PStr "eng")
             (new_ParamSet_wf DocumentParametersC)).
    vm_compute. set_solver.
  - apply (set_then_get_recognized (H := Reference.runtime false)
             NameSimilarityParameters "name" PNone
             (new_ParamSet_wf NameSimilarityParametersC)).
    vm_compute. set_solver.
Defined.

Section SerializeProperties.
Context `{PyRuntime}.

Lemma getitem_wf (p : ParamSet) (k : string) :
  wf p → k ∈ repertoire (cls p) →
  ∃ v, params p !! k = Some v ∧ getitem p k = Ok v
       ∧ is_set p k = negb (is_None v).
Proof.
  intros Hwf Hk. apply (wf_lookup p k Hwf) in Hk as [v Hv].
  exists v. unfold getitem, is_set. by rewrite Hv.
Qed.

(** What [_DocumentParamSetBase.serialize] returns once validation has
    passed: the keys whose value is not [None]. *)
Lemma serialized_lookup (p : ParamSet) (k : string) (x : pyvalue) :
  wf p →
  filter (λ kv, is_None kv.2 = false) (params p) !! k = Some x
  ↔ k ∈ repertoire (cls p) ∧ params p !! k = Some x ∧ x ≠ PNone.
Proof.
  intros Hwf. rewrite map_lookup_filter_Some. simpl.
  rewrite is_None_false. split.
  - intros [Hk Hx]. split; [|done]. apply (wf_lookup p k Hwf). eauto.
  - intros (_ & Hk & Hx). done.
Qed.

Lemma document_keys (p : ParamSet) :
  cls p = DocumentParametersC ∨ cls p = RelationshipsParametersC →
  "content"%string ∈ repertoire (cls p)
  ∧ "contentUri"%string ∈ repertoire (cls p)
  ∧ "language"%string ∈ repertoire (cls p).
Proof. intros [-> | ->]; simpl; set_solver. Qed.

Lemma serialize_document_cases (p : ParamSet) :
  wf p →
  cls p = DocumentParametersC ∨ cls p = RelationshipsParametersC →
  serialize p =
    if is_set p "content" then
      if is_set p "contentUri" then
        Raise (RosetteException (PStr "badArgument")
                 (PStr "Cannot supply both Content and ContentUri")
                 (PStr "bad arguments"))
      else Ok (filter (λ kv, is_None kv.2 = false) (params p))
    else
      if is_set p "contentUri" then
        Ok (filter (λ kv, is_None kv.2 = false) (params p))
      else
        Raise (RosetteException (PStr "badArgument")
                 (PStr "Must supply one of Content or ContentUri")
                 (PStr "bad arguments")).
Proof.
  intros Hwf Hcls.
  destruct (document_keys p Hcls) as (Hc & Hu & _).
  destruct (getitem_wf p _ Hwf Hc) as (c & _ & Gc & Sc).
  destruct (getitem_wf p _ Hwf Hu) as (u & _ & Gu & Su).
  assert (serialize p = DocumentParameters_serialize p) as ->
    by (unfold serialize; by destruct Hcls as [-> | ->]).
  assert (validate p = DocumentParameters_validate p) as Hv
    by (unfold validate; by destruct Hcls as [-> | ->]).
  unfold DocumentParameters_serialize, _DocumentParamSetBase_serialize.
  rewrite Hv. unfold DocumentParameters_validate. rewrite Gc, Gu. simpl.
  rewrite Sc, Su.
  by destruct (is_None c), (is_None u).
Qed.

(** C7. [serialize()] on a document container raises [badArgument] when
    both "content" and "contentUri" are set, and when neither is; when
    exactly one is set it returns the mapping that holds exactly the
    recognised keys whose value is not [None]. *)
Theorem document_serialize (p : ParamSet) :
  wf p →
  cls p = DocumentParametersC ∨ cls p = RelationshipsParametersC →
  (is_set p "content" = true → is_set p "contentUri" = true →
     serialize p =
       Raise (RosetteException (PStr "badArgument")
                (PStr "Cannot supply both Content and ContentUri")
                (PStr "bad arguments")))
  ∧ (is_set p "content" = false → is_set p "contentUri" = false →
       serialize p =
         Raise (RosetteException (PStr "badArgument")
                  (PStr "Must supply one of Content or ContentUri")
                  (PStr "bad arguments")))
  ∧ (is_set p "content" ≠ is_set p "contentUri" →
       ∃ v, serialize p = Ok v
            ∧ ∀ k x, v !! k = Some x
                     ↔ k ∈ repertoire (cls p) ∧ params p !! k = Some x
                       ∧ x ≠ PNone).
Proof.
  intros Hwf Hcls. rewrite (serialize_document_cases p Hwf Hcls).
  destruct (is_set p "content"), (is_set p "contentUri");
    repeat split; try done.
  all: intros _; eexists; split; [done|].
  all: intros k x; by apply serialized_lookup.
Qed.

(** C8. [serialize()] on a name-translation container raises
    [missingParameter], with the [repr] of the first missing key as
    context, unless both "name" and "targetLanguage" are set; a
    name-similarity container does the same for "name1" and "name2". *)
Theorem name_serialize_required (p : ParamSet) :
  wf p →
  (cls p = NameTranslationParametersC →
     (is_set p "name" = false →
        serialize p =
          Raise (RosetteException (PStr "missingParameter")
                   (PStr "Required Name Translation parameter not supplied")
                   (PStr (repr (PStr "name")))))
     ∧ (is_set p "name" = true → is_set p "targetLanguage" = false →
          serialize p =
            Raise (RosetteException (PStr "missingParameter")
                     (PStr "Required Name Translation parameter not supplied")
                     (PStr (repr (PStr "targetLanguage")))))
     ∧ (is_set p "name" = true → is_set p "targetLanguage" = true →
          ∃ v, serialize p = Ok v))
  ∧ (cls p = NameSimilarityParametersC →
       (is_set p "name1" = false →
          serialize p =
            Raise (RosetteException (PStr "missingParameter")
                     (PStr "Required Name Similarity parameter not supplied")
                     (PStr (repr (PStr "name1")))))
       ∧ (is_set p "name1" = true → is_set p "name2" = false →
            serialize p =
              Raise (RosetteException (PStr "missingParameter")
                       (PStr "Required Name Similarity parameter not supplied")
                       (PStr (repr (PStr "name2")))))
       ∧ (is_set p "name1" = true → is_set p "name2" = true →
            ∃ v, serialize p = Ok v)).
Proof.
  intros Hwf. split; intros Hcls.
  - assert ("name"%string ∈ repertoire (cls p)) as Ha
      by (rewrite Hcls; simpl; set_solver).
    assert ("targetLanguage"%string ∈ repertoire (cls p)) as Hb
      by (rewrite Hcls; simpl; set_solver).
    destruct (getitem_wf p _ Hwf Ha) as (a & _ & Ga & Sa).
    destruct (getitem_wf p _ Hwf Hb) as (b & _ & Gb & Sb).
    unfold serialize, _DocumentParamSetBase_serialize, validate.
    rewrite Hcls. unfold NameTranslationParameters_validate. simpl.
    rewrite Ga, Gb, Sa, Sb. simpl.
    destruct (is_None a), (is_None b); simpl; repeat split; try done; eauto.
  - assert ("name1"%string ∈ repertoire (cls p)) as Ha
      by (rewrite Hcls; simpl; set_solver).
    assert ("name2"%string ∈ repertoire (cls p)) as Hb
      by (rewrite Hcls; simpl; set_solver).
    destruct (getitem_wf p _ Hwf Ha) as (a & _ & Ga & Sa).
    destruct (getitem_wf p _ Hwf Hb) as (b & _ & Gb & Sb).
    unfold serialize, _DocumentParamSetBase_serialize, validate.
    rewrite Hcls. unfold NameSimilarityParameters_validate. simpl.
    rewrite Ga, Gb, Sa, Sb. simpl.
    destruct (is_None a), (is_None b); simpl; repeat split; try done; eauto.
Qed.

End SerializeProperties.

Section TransportProperties.
Context `{PyRuntime}.
Variable net : nat → Outcome.

Lemma bind_ok {A B} (m : M A) (f : A → M B) (w w' : World) (a : A) :
  m w = (Ok a, w') → (m ≫= f) w = f a w'.
Proof. unfold mbind, M_bind. by intros ->. Qed.

Lemma bind_raise {A B} (m : M A) (f : A → M B) (w w' : World) (e : exn) :
  m w = (Raise e, w') → (m ≫= f) w = (Raise e, w').
Proof. unfold mbind, M_bind. by intros ->. Qed.

(** The world after the request of an attempt went out. *)
Lemma http_exchange_responds op url data headers (w : World) c r :
  http_connection w = Some c → net (exchanges w) = Responds r →
  http_exchange net op url data headers w =
    (Ok r, {| http_connection := Some c; exchanges := S (exchanges w);
              trace := trace w ++ [EvRequest op url data headers] |}).
Proof. unfold http_exchange. by intros -> ->. Qed.

Lemma http_exchange_fails op url data headers (w : World) c e :
  http_connection w = Some c → net (exchanges w) = Fails e →
  http_exchange net op url data headers w =
    (Raise e, {| http_connection := Some c; exchanges := S (exchanges w);
                 trace := trace w ++ [EvRequest op url data headers] |}).
Proof. unfold http_exchange. by intros -> ->. Qed.

Lemma attempt_429 api op url data headers pu i message code (w : World) c r :
  http_connection w = Some c → net (exchanges w) = Responds r →
  status r = 429 →
  attempt net api op url data headers pu i message code w =
    (Ok (Continue (PStr (format_429 (body r) i)) (PInt 429)),
     {| http_connection := Some (reconnected api pu c);
        exchanges := S (exchanges w);
        trace := trace w ++ round_429 api op url data headers pu |}).
Proof.
  intros Hc Hn Hs. unfold attempt.
  rewrite (bind_ok _ _ _ _ _ (http_exchange_responds _ _ _ _ _ _ _ Hc Hn)).
  rewrite Hs. simpl.
  unfold mbind, M_bind, sleep, close, emit, _connect, mret, M_ret,
    round_429, reconnect_events, reconnected. simpl.
  destruct (reuse_connection api); simpl; by rewrite <- ?app_assoc.
Qed.

Lemma attempt_200 api op url data headers pu i message code (w : World) c r :
  http_connection w = Some c → net (exchanges w) = Responds r →
  status r = 200 →
  attempt net api op url data headers pu i message code w =
    (Ok (Return (body r) 200 (response_headers_of r)),
     {| http_connection := Some c;
        exchanges := S (exchanges w);
        trace := trace w ++ round_200 api op url data headers |}).
Proof.
  intros Hc Hn Hs. unfold attempt.
  rewrite (bind_ok _ _ _ _ _ (http_exchange_responds _ _ _ _ _ _ _ Hc Hn)).
  rewrite Hs. simpl.
  unfold mbind, M_bind, close, emit, mret, M_ret, round_200,
    response_headers_of. simpl.
  destruct (reuse_connection api); simpl; by rewrite <- ?app_assoc.
Qed.

(** An attempt answered with another status raises at once; the loop's
    [except] clause sees the exception. *)
Lemma attempt_other api op url data headers pu i message code (w : World)
    c r b :
  http_connection w = Some c → net (exchanges w) = Responds r →
  status r ≠ 200 → status r ≠ 429 → body r = Some b →
  try_except (attempt net api op url data headers pu i message code)
    (connection_failure url) w =
    (Raise (error_of_body url r b message),
     {| http_connection := Some c;
        exchanges := S (exchanges w);
        trace := trace w ++ [EvRequest op url data headers] |}).
Proof.
  intros Hc Hn H200 H429 Hb. unfold try_except, attempt.
  rewrite (bind_ok _ _ _ _ _ (http_exchange_responds _ _ _ _ _ _ _ Hc Hn)).
  apply Z.eqb_neq in H200, H429. rewrite H200, H429, Hb.
  unfold error_of_body, response_headers_of, try_except, mbind, M_bind, lift,
    raise.
  destruct (_my_loads _ _) as [the_json|e]; simpl.
  - by destruct (the_json !! "message"%string), (the_json !! "code"%string).
  - by destruct e.
Qed.

Lemma retry_loop_429 api op url data headers pu i rest message code
    (w : World) c r :
  http_connection w = Some c → net (exchanges w) = Responds r →
  status r = 429 →
  retry_loop net api op url data headers pu (i :: rest) message code w =
    retry_loop net api op url data headers pu rest
      (PStr (format_429 (body r) i)) (PInt 429)
      {| http_connection := Some (reconnected api pu c);
         exchanges := S (exchanges w);
         trace := trace w ++ round_429 api op url data headers pu |}.
Proof.
  intros Hc Hn Hs. simpl. unfold mbind at 1, M_bind at 1, try_except.
  by rewrite (attempt_429 _ _ _ _ _ _ _ _ _ _ _ _ Hc Hn Hs).
Qed.

Lemma retry_loop_200 api op url data headers pu i rest message code
    (w : World) c r :
  http_connection w = Some c → net (exchanges w) = Responds r →
  status r = 200 →
  retry_loop net api op url data headers pu (i :: rest) message code w =
    (Ok (body r, 200, response_headers_of r),
     {| http_connection := Some c;
        exchanges := S (exchanges w);
        trace := trace w ++ round_200 api op url data headers |}).
Proof.
  intros Hc Hn Hs. simpl. unfold mbind at 1, M_bind at 1, try_except.
  by rewrite (attempt_200 _ _ _ _ _ _ _ _ _ _ _ _ Hc Hn Hs).
Qed.

Lemma retry_loop_other api op url data headers pu i rest message code
    (w : World) c r b :
  http_connection w = Some c → net (exchanges w) = Responds r →
  status r ≠ 200 → status r ≠ 429 → body r = Some b →
  retry_loop net api op url data headers pu (i :: rest) message code w =
    (Raise (error_of_body url r b message),
     {| http_connection := Some c;
        exchanges := S (exchanges w);
        trace := trace w ++ [EvRequest op url data headers] |}).
Proof.
  intros Hc Hn H200 H429 Hb. simpl. unfold mbind at 1, M_bind at 1.
  by rewrite (attempt_other _ _ _ _ _ _ _ _ _ _ _ _ _ Hc Hn H200 H429 Hb).
Qed.

Lemma retry_loop_exhausted api op url data headers pu message code
    (w : World) c :
  http_connection w = Some c →
  retry_loop net api op url data headers pu [] message code w =
    (Raise (RosetteException code message (PStr url)),
     {| http_connection := Some c;
        exchanges := exchanges w;
        trace := trace w ++ (if reuse_connection api then [] else [EvClose]) |}).
Proof.
  intros Hc. simpl. unfold mbind, M_bind, close, emit, raise, mret, M_ret.
  destruct w as [hc ex tr]. simpl in *. subst hc.
  destruct (reuse_connection api); simpl; by rewrite ?app_nil_r.
Qed.

(** [k] attempts in a row answered with 429: the loop goes on with the
    attempts that are left, having recorded the last answer. *)
Lemma retry_loop_429s api op url data headers pu (k : nat) :
  ∀ (a : nat) rest message code (w : World) c,
    http_connection w = Some c → reconnected api pu c = c →
    answers_429 net (exchanges w) k →
    retry_loop net api op url data headers pu (seq a k ++ rest) message code w
    = retry_loop net api op url data headers pu rest
        (recorded_message net (exchanges w) a k message) (recorded_code k code)
        {| http_connection := Some c;
           exchanges := exchanges w + k;
           trace := trace w
                    ++ concat (replicate k
                                 (round_429 api op url data headers pu)) |}.
Proof.
  induction k as [|k IH]; intros a rest message code w c Hc Hst Hans.
  - simpl. rewrite Nat.add_0_r, app_nil_r. destruct w; simpl in *. by subst.
  - destruct (Hans 0%nat) as (r & Hr & Hs); [lia|].
    rewrite Nat.add_0_r in Hr.
    change (seq a (S k) ++ rest) with (a :: (seq (S a) k ++ rest)).
    rewrite (retry_loop_429 _ _ _ _ _ _ _ _ _ _ _ _ _ Hc Hr Hs), Hst.
    rewrite (IH (S a) rest _ _ _ c); [|done|done|].
    + simpl exchanges. simpl trace.
      replace (S (exchanges w) + k)%nat with (exchanges w + S k)%nat by lia.
      rewrite <- app_assoc. simpl concat.
      f_equal.
      * destruct k as [|k]; simpl.
        -- rewrite !Nat.add_0_r, Hr. done.
        -- rewrite <- !Nat.add_succ_comm. done.
      * by destruct k.
    + intros j Hj. simpl exchanges.
      destruct (Hans (S j)) as (r' & Hr' & Hs'); [lia|].
      exists r'. split; [|done]. rewrite <- Hr'. f_equal. lia.
Qed.

Lemma reconnected_idemp api pu c :
  reconnected api pu (reconnected api pu c) = reconnected api pu c.
Proof. unfold reconnected. by destruct (reuse_connection api). Qed.

Lemma connected_conn_stable api pu (w : World) :
  reconnected api pu (connected_conn api pu w) = connected_conn api pu w.
Proof.
  unfold connected_conn. destruct (http_connection w).
  - apply reconnected_idemp.
  - unfold reconnected. by destruct (reuse_connection api).
Qed.

Lemma connect_spec api pu (w : World) :
  _connect api pu w =
    (Ok tt, {| http_connection := Some (connected_conn api pu w);
               exchanges := exchanges w;
               trace := trace w ++ connect_events api pu w |}).
Proof.
  unfold _connect, connected_conn, connect_events, reconnected,
    reconnect_events.
  destruct w as [[c|] ex tr]; simpl; destruct (reuse_connection api); simpl;
    by rewrite ?app_nil_r.
Qed.

Lemma make_request_unfold api op url data headers (w : World) :
  _make_request net api op url data headers w =
    retry_loop net api op url data (with_user_agent headers) (urlparse url)
      (seq 0 (attempts_of api)) PNone (PStr "unknownError")
      {| http_connection := Some (connected_conn api (urlparse url) w);
         exchanges := exchanges w;
         trace := trace w ++ connect_events api (urlparse url) w |}.
Proof.
  unfold _make_request.
  by rewrite (bind_ok _ _ _ _ _ (connect_spec api (urlparse url) w)).
Qed.

Lemma seq_split (k total : nat) :
  (k < total)%nat → seq 0 total = seq 0 k ++ k :: seq (S k) (total - S k).
Proof.
  intros Hk. replace total with (k + S (total - S k))%nat at 1 by lia.
  by rewrite seq_app.
Qed.

(** After [k] answers 429, the call runs its next attempt, if one is
    left. *)
Lemma make_request_after_429s api op url data headers (w : World) (k : nat) :
  (k < attempts_of api)%nat → answers_429 net (exchanges w) k →
  _make_request net api op url data headers w =
    retry_loop net api op url data (with_user_agent headers) (urlparse url)
      (k :: seq (S k) (attempts_of api - S k))
      (recorded_message net (exchanges w) 0 k PNone)
      (recorded_code k (PStr "unknownError"))
      {| http_connection := Some (connected_conn api (urlparse url) w);
         exchanges := exchanges w + k;
         trace := (trace w ++ connect_events api (urlparse url) w)
                  ++ concat (replicate k
                       (round_429 api op url data (with_user_agent headers)
                          (urlparse url))) |}.
Proof.
  intros Hk Hans. rewrite make_request_unfold, (seq_split k _ Hk).
  by rewrite (retry_loop_429s _ _ _ _ _ _ k 0 _ _ _
                {| http_connection := Some (connected_conn api (urlparse url) w);
                   exchanges := exchanges w;
                   trace := trace w ++ connect_events api (urlparse url) w |}
                _ eq_refl (connected_conn_stable _ _ _) Hans).
Qed.

Lemma make_request_success api op url data headers (w : World) (k : nat) r :
  (k < attempts_of api)%nat → answers_429 net (exchanges w) k →
  net (exchanges w + k)%nat = Responds r → status r = 200 →
  _make_request net api op url data headers w =
    (Ok (body r, 200, response_headers_of r),
     {| http_connection := Some (connected_conn api (urlparse url) w);
        exchanges := S (exchanges w + k);
        trace := trace w ++ connect_events api (urlparse url) w
                 ++ concat (replicate k
                      (round_429 api op url data (with_user_agent headers)
                         (urlparse url)))
                 ++ round_200 api op url data (with_user_agent headers) |}).
Proof.
  intros Hk Hans Hr Hs. rewrite (make_request_after_429s _ _ _ _ _ _ k Hk Hans).
  erewrite retry_loop_200; [|reflexivity|exact Hr|exact Hs]. simpl.
  by rewrite <- !app_assoc.
Qed.

Lemma make_request_other api op url data headers (w : World) (k : nat) r b :
  (k < attempts_of api)%nat → answers_429 net (exchanges w) k →
  net (exchanges w + k)%nat = Responds r →
  status r ≠ 200 → status r ≠ 429 → body r = Some b →
  _make_request net api op url data headers w =
    (Raise (error_of_body url r b (recorded_message net (exchanges w) 0 k PNone)),
     {| http_connection := Some (connected_conn api (urlparse url) w);
        exchanges := S (exchanges w + k);
        trace := trace w ++ connect_events api (urlparse url) w
                 ++ concat (replicate k
                      (round_429 api op url data (with_user_agent headers)
                         (urlparse url)))
                 ++ [EvRequest op url data (with_user_agent headers)] |}).
Proof.
  intros Hk Hans Hr H200 H429 Hb.
  rewrite (make_request_after_429s _ _ _ _ _ _ k Hk Hans).
  erewrite retry_loop_other; [|reflexivity|exact Hr|done..].
  simpl. by rewrite <- !app_assoc.
Qed.

Lemma make_request_exhausted api op url data headers (w : World) :
  answers_429 net (exchanges w) (attempts_of api) →
  _make_request net api op url data headers w =
    (Raise (RosetteException
              (recorded_code (attempts_of api) (PStr "unknownError"))
              (recorded_message net (exchanges w) 0 (attempts_of api) PNone)
              (PStr url)),
     {| http_connection := Some (connected_conn api (urlparse url) w);
        exchanges := exchanges w + attempts_of api;
        trace := trace w ++ connect_events api (urlparse url) w
                 ++ concat (replicate (attempts_of api)
                      (round_429 api op url data (with_user_agent headers)
                         (urlparse url)))
                 ++ (if reuse_connection api then [] else [EvClose]) |}).
Proof.
  intros Hans. rewrite make_request_unfold.
  rewrite <- (app_nil_r (seq 0 (attempts_of api))).
  rewrite (retry_loop_429s _ _ _ _ _ _ _ 0 _ _ _
             {| http_connection := Some (connected_conn api (urlparse url) w);
                exchanges := exchanges w;
                trace := trace w ++ connect_events api (urlparse url) w |}
             _ eq_refl (connected_conn_stable _ _ _) Hans).
  erewrite retry_loop_exhausted; [|reflexivity].
  simpl. by rewrite <- !app_assoc.
Qed.

Lemma API_init_retries user_key service_url retries reuse refresh debug :
  1 ≤ num_retries (API_init user_key service_url retries reuse refresh debug).
Proof. unfold API_init. simpl. destruct (Z.ltb_spec retries 1); lia. Qed.

(** C1, amended. An attempt answered with status 429 records the message
    made of the response body and the attempt number, sleeps for the
    refresh duration, closes the connection and calls [_connect]; the loop
    then goes on with the attempts that are left.  In particular, when at
    least two retries are configured and the transport answers 429 twice
    and then 200, the call succeeds with the body of the 200 response, and
    exactly two sleeps happen. *)
Theorem retry_on_429 api op url data headers :
  (∀ i rest message code (w : World) c r,
     http_connection w = Some c → net (exchanges w) = Responds r →
     status r = 429 →
     retry_loop net api op url data headers (urlparse url) (i :: rest)
       message code w
     = retry_loop net api op url data headers (urlparse url) rest
         (PStr (format_429 (body r) i)) (PInt 429)
         {| http_connection := Some (reconnected api (urlparse url) c);
            exchanges := S (exchanges w);
            trace := trace w
                     ++ [EvRequest op url data headers;
                         EvSleep (connection_refresh_duration api); EvClose]
                     ++ reconnect_events api (urlparse url) |})
  ∧ (∀ (w : World) r0 r1 r2,
       2 ≤ num_retries api →
       net (exchanges w) = Responds r0 → status r0 = 429 →
       net (exchanges w + 1)%nat = Responds r1 → status r1 = 429 →
       net (exchanges w + 2)%nat = Responds r2 → status r2 = 200 →
       ∃ w', _make_request net api op url data headers w
             = (Ok (body r2, 200, response_headers_of r2), w')
             ∧ exchanges w' = (exchanges w + 3)%nat
             ∧ trace w'
               = trace w ++ connect_events api (urlparse url) w
                 ++ round_429 api op url data (with_user_agent headers)
                      (urlparse url)
                 ++ round_429 api op url data (with_user_agent headers)
                      (urlparse url)
                 ++ round_200 api op url data (with_user_agent headers)
             ∧ length (List.filter is_sleep
                         (drop (length (trace w)) (trace w'))) = 2%nat).
Proof.
  split.
  - intros i rest message code w c r Hc Hr Hs.
    apply (retry_loop_429 _ _ _ _ _ _ _ _ _ _ _ _ _ Hc Hr Hs).
  - intros w r0 r1 r2 Hn H0 S0 H1 S1 H2 S2.
    assert (answers_429 net (exchanges w) 2) as Hans.
    { intros j Hj. destruct j as [|[|j]]; [| |lia].
      - exists r0. by rewrite Nat.add_0_r.
      - by exists r1. }
    assert (2 < attempts_of api)%nat as Hk by (unfold attempts_of; lia).
    eexists. split; [apply (make_request_success _ _ _ _ _ _ 2 r2 Hk Hans H2 S2)|].
    simpl. split; [lia|]. rewrite app_nil_r, <- !app_assoc. split; [done|].
    rewrite drop_app_length.
    unfold connect_events, round_429, round_200, reconnect_events.
    by destruct (http_connection w), (reuse_connection api).
Qed.

(** When an attempt (after any number of rate-limited ones) is answered
    with a status other than 200 and 429 and a body, the call fails at once,
    without another attempt.  If the body parses as a JSON object the
    failure is the structured error with the object's "code" (the HTTP
    status when absent), its "message" (the message recorded so far when
    absent) and the request URL; if parsing raises, that exception is what
    the call raises. *)
Lemma other_status_fails_at_once api op url data headers (w : World) (k : nat)
    r b :
  (k < attempts_of api)%nat → answers_429 net (exchanges w) k →
  net (exchanges w + k)%nat = Responds r →
  status r ≠ 200 → status r ≠ 429 → body r = Some b →
  ∃ w',
    exchanges w' = S (exchanges w + k)
    ∧ (∀ the_json,
         _my_loads (Some b) (response_headers_of r) = Ok the_json →
         _make_request net api op url data headers w
         = (Raise (RosetteException
                     (default (PInt (status r)) (the_json !! "code"%string))
                     (default (recorded_message net (exchanges w) 0 k PNone)
                        (the_json !! "message"%string))
                     (PStr url)), w'))
    ∧ (∀ e,
         _my_loads (Some b) (response_headers_of r) = Raise e →
         _make_request net api op url data headers w
         = (Raise (surfaced url e), w')).
Proof.
  intros Hk Hans Hr H200 H429 Hb. eexists. split; [|split].
  2:{ intros the_json Hj.
      rewrite (make_request_other _ _ _ _ _ _ k r b Hk Hans Hr H200 H429 Hb).
      unfold error_of_body. rewrite Hj. reflexivity. }
  - reflexivity.
  - intros e He.
    rewrite (make_request_other _ _ _ _ _ _ k r b Hk Hans Hr H200 H429 Hb).
    unfold error_of_body. by rewrite He.
Qed.

(** C3. When every attempt is answered with status 429, the call fails
    with the structured error whose code is the status 429 and whose message
    is the one recorded for the last answer; this for every client the
    constructor can build, [retries=1] included. *)
Theorem exhausted_retries_fail user_key service_url retries reuse refresh
    debug op url data headers (w : World) :
  let api := API_init user_key service_url retries reuse refresh debug in
  let last := Z.to_nat (num_retries api) in
  answers_429 net (exchanges w) (S last) →
  ∃ r, net (exchanges w + last)%nat = Responds r ∧ status r = 429
       ∧ (_make_request net api op url data headers w).1
         = Raise (RosetteException (PInt (status r))
                    (PStr (format_429 (body r) last)) (PStr url)).
Proof.
  intros api last Hans.
  pose proof (API_init_retries user_key service_url retries reuse refresh debug)
    as Hn. fold api in Hn.
  assert (attempts_of api = S last) as Ha by (unfold attempts_of, last; lia).
  destruct (Hans last) as (r & Hr & Hs); [lia|].
  exists r. split; [done|]. split; [done|].
  rewrite make_request_exhausted by (by rewrite Ha).
  rewrite Ha. simpl. by rewrite Hr, Hs.
Qed.

End TransportProperties.

(** With [retries=1] the client makes two attempts: a transport that
    answers 429, 429 and then 200 is never asked a third time, and the call
    fails with the message recorded for the second answer. *)
Lemma retry_on_429_counterexample :
  let api := API_init None "https://api.rosette.com/rest/v1/" 1 true (1 # 2) false in
  let net := scripted [answer 429 "slow down"; answer 429 "wait";
                       answer 200 "{}"] in
  let run := _make_request (H := Reference.runtime false) net api "POST"
               entities_url (Some "{}"%string) ∅ world0 in
  run.1 = Raise (RosetteException (PInt 429) (PStr "wait (1)")
                   (PStr entities_url))
  ∧ exchanges run.2 = 2%nat
  ∧ ¬ ∃ v, run.1 = Ok v.
Proof.
  intros api net run.
  assert (run.1 = Raise (RosetteException (PInt 429) (PStr "wait (1)")
                           (PStr entities_url))) as Hrun
    by (vm_compute; reflexivity).
  split; [exact Hrun|]. split; [vm_compute; reflexivity|].
  intros [v Hv]. rewrite Hrun in Hv. discriminate.
Qed.

Lemma retry_on_429_witness :
  ∃ w', _make_request (H := Reference.runtime false)
          (scripted [answer 429 "slow down"; answer 429 "wait";
                     answer 200 "{}"])
          API_default "POST" entities_url (Some "{}"%string) ∅ world0
        = (Ok (Some (String.list_byte_of_string "{}"), 200,
               {[ "responseHeaders"%string := PDict ∅ ]}), w')
        ∧ length (List.filter is_sleep (trace w')) = 2%nat.
Proof.
  destruct (retry_on_429 (H := Reference.runtime false)
              (scripted [answer 429 "slow down"; answer 429 "wait";
                         answer 200 "{}"])
              API_default "POST" entities_url (Some "{}"%string) ∅)
    as [_ Hrun].
  destruct (Hrun world0
              {| status := 429;
                 body := Some (String.list_byte_of_string "slow down");
                 resp_headers := ∅ |}
              {| status := 429;
                 body := Some (String.list_byte_of_string "wait");
                 resp_headers := ∅ |}
              {| status := 200;
                 body := Some (String.list_byte_of_string "{}");
                 resp_headers := ∅ |})
    as (w' & Hw' & _ & _ & Hsleeps);
    [by vm_compute|reflexivity..|].
  exists w'. split; [exact Hw'|exact Hsleeps].
Defined.

(** C2. The claim asks for the structured error on every body of a
    response that is neither 200 nor 429.  On a 500 answer whose body is an
    HTML page the call does fail at once, after one exchange, but with the
    parse error of [json.loads] and not with the structured error. *)
Theorem unparsable_error_body_escapes :
  let net := scripted [answer 500 "<html>Internal Server Error</html>";
                       answer 200 "{}"] in
  let run := _make_request (H := Reference.runtime false) net API_default
               "POST" entities_url (Some "{}"%string) ∅ world0 in
  run.1 = Raise (ValueError "No JSON object could be decoded")
  ∧ exchanges run.2 = 1%nat
  ∧ ¬ ∃ code message context,
        run.1 = Raise (RosetteException code message context).
Proof.
  intros net run.
  assert (run.1 = Raise (ValueError "No JSON object could be decoded"))
    as Hrun by (vm_compute; reflexivity).
  split; [exact Hrun|]. split; [vm_compute; reflexivity|].
  intros (code & message & context & Hv). rewrite Hrun in Hv. discriminate.
Qed.

Lemma status_after_429_example :
  ∃ w', _make_request (H := Reference.runtime false)
          (scripted [answer 429 "slow";
                     json_answer 400 "{ 'code': 'badRequestFormat' }"])
          API_default "POST" entities_url (Some "{}"%string) ∅ world0
        = (Raise (RosetteException (PStr "badRequestFormat") (PStr "slow (0)")
                    (PStr entities_url)), w')
        ∧ exchanges w' = 2%nat.
Proof.
  destruct (other_status_fails_at_once (H := Reference.runtime false)
              (scripted [answer 429 "slow";
                         json_answer 400 "{ 'code': 'badRequestFormat' }"])
              API_default "POST" entities_url (Some "{}"%string) ∅ world0 1
              {| status := 400;
                 body := Some (String.list_byte_of_string
                                 (json_text "{ 'code': 'badRequestFormat' }"));
                 resp_headers := ∅ |}
              (String.list_byte_of_string
                 (json_text "{ 'code': 'badRequestFormat' }")))
    as (w' & Hex & Hok & Herr).
  - vm_compute. lia.
  - intros j Hj. assert (j = 0%nat) as -> by lia.
    eexists. split; reflexivity.
  - reflexivity.
  - done.
  - done.
  - reflexivity.
  - exists w'. split; [|exact Hex].
    erewrite Hok; [|vm_compute; reflexivity].
    reflexivity.
Defined.

Lemma exhausted_retries_fail_witness :
  (_make_request (H := Reference.runtime false)
     (λ _, answer 429 "too many requests")
     (API_init None "https://api.rosette.com/rest/v1/" 1 true (1 # 2) false)
     "GET" entities_url None ∅ world0).1
  = Raise (RosetteException (PInt 429) (PStr "too many requests (1)")
             (PStr entities_url)).
Proof.
  destruct (exhausted_retries_fail (H := Reference.runtime false)
              (λ _, answer 429 "too many requests")
              None "https://api.rosette.com/rest/v1/" 1 true (1 # 2) false
              "GET" entities_url None ∅ world0)
    as (r & Hr & Hs & Hrun).
  - intros j Hj. eexists. split; reflexivity.
  - rewrite Hrun. injection Hr as <-. reflexivity.
Defined.

Section EndpointProperties.
Context `{PyRuntime}.
Variable net : nat → Outcome.

(** C10. For a response whose status is not 200 and whose parsed body has
    neither a "message" nor a "code" key, [__finish_result] itself fails
    with the key-lookup error for "code", and not with the structured
    exception. *)
Theorem finish_result_key_error (ec : EndpointCaller) (r : _ReturnObject)
    (ename : string) :
  status_code r ≠ 200 →
  json r !! "message"%string = None →
  json r !! "code"%string = None →
  __finish_result ec r ename = Raise (KeyError "code")
  ∧ ∀ st message context,
      __finish_result ec r ename ≠ Raise (RosetteException st message context).
Proof.
  intros Hst Hm Hc.
  assert (__finish_result ec r ename = Raise (KeyError "code")) as E.
  { unfold __finish_result. apply Z.eqb_neq in Hst. by rewrite Hst, Hm, Hc. }
  split; [exact E|]. intros st message context. by rewrite E.
Qed.

End EndpointProperties.

Section PostProperties.
Context `{PyRuntime}.
Variable net : nat → Outcome.

(** Whatever the answer, an attempt sends its request first, sends no
    other, and leaves a connection in place. *)
Lemma attempt_shape api op url data headers pu i message code (w : World) c
    res w' :
  http_connection w = Some c →
  try_except (attempt net api op url data headers pu i message code)
    (connection_failure url) w = (res, w') →
  ∃ evs c',
    trace w' = trace w ++ EvRequest op url data headers :: evs
    ∧ Forall (λ ev, is_request ev = false) evs
    ∧ http_connection w' = Some c'.
Proof.
  intros Hc. destruct (net (exchanges w)) as [r|e] eqn:Hn.
  - destruct (Z.eq_dec (status r) 200) as [E200|E200];
      [|destruct (Z.eq_dec (status r) 429) as [E429|E429]].
    + unfold try_except.
      rewrite (attempt_200 net _ _ _ _ _ _ _ _ _ _ _ _ Hc Hn E200).
      intros [= <- <-]. simpl. unfold round_200.
      eexists _, c. split; [done|]. split; [|done].
      destruct (reuse_connection api); by repeat constructor.
    + unfold try_except.
      rewrite (attempt_429 net _ _ _ _ _ _ _ _ _ _ _ _ Hc Hn E429).
      intros [= <- <-]. simpl. unfold round_429, reconnect_events.
      eexists _, _. split; [done|]. split; [|done].
      destruct (reuse_connection api); by repeat constructor.
    + destruct (body r) as [b|] eqn:Hb.
      * rewrite (attempt_other net _ _ _ _ _ _ _ _ _ _ _ _ _ Hc Hn E200 E429 Hb).
        intros [= <- <-]. simpl. by exists [], c.
      * unfold try_except, attempt.
        rewrite (bind_ok _ _ _ _ _ (http_exchange_responds net _ _ _ _ _ _ _ Hc Hn)).
        apply Z.eqb_neq in E200, E429. rewrite E200, E429, Hb.
        unfold mret, M_ret. intros [= <- <-]. simpl. by exists [], c.
  - unfold try_except, attempt.
    rewrite (bind_raise _ _ _ _ _ (http_exchange_fails net _ _ _ _ _ _ _ Hc Hn)).
    destruct (connection_failure url e) as [h|] eqn:Hh.
    + destruct e; try discriminate; injection Hh as <-;
        unfold raise; intros [= <- <-]; simpl; by exists [], c.
    + intros [= <- <-]. simpl. by exists [], c.
Qed.

(** Every request of the retry loop is the one it was given. *)
Lemma retry_loop_requests api op url data headers pu attempts :
  ∀ message code (w : World) c,
    http_connection w = Some c →
    ∃ evs,
      trace (retry_loop net api op url data headers pu attempts message code
               w).2 = trace w ++ evs
      ∧ Forall (λ ev, is_request ev = true
                      → ev = EvRequest op url data headers) evs
      ∧ (attempts ≠ [] → head evs = Some (EvRequest op url data headers)).
Proof.
  induction attempts as [|i rest IH]; intros message code w c Hc.
  - rewrite (retry_loop_exhausted net _ _ _ _ _ _ _ _ _ c Hc). simpl.
    eexists. split; [done|]. split; [|done].
    destruct (reuse_connection api); by repeat constructor.
  - simpl. unfold mbind at 1, M_bind at 1.
    destruct (try_except _ _ w) as [res w1] eqn:E.
    destruct (attempt_shape _ _ _ _ _ _ _ _ _ _ _ _ _ Hc E)
      as (evs & c' & Htr & Hevs & Hc').
    destruct res as [ctl|e].
    + destruct ctl as [rdata st rh|message' code'].
      * unfold mret, M_ret. simpl. rewrite Htr.
        eexists. split; [done|]. split; [|done].
        constructor; [done|].
        eapply Forall_impl; [exact Hevs|]. simpl. intros ev ->. done.
      * destruct (IH message' code' w1 c' Hc') as (evs' & Htr' & Hevs' & _).
        rewrite Htr', Htr, <- app_assoc.
        eexists. split; [done|]. split; [|done].
        constructor; [done|]. apply Forall_app. split; [|done].
        eapply Forall_impl; [exact Hevs|]. simpl. intros ev ->. done.
    + simpl. rewrite Htr.
      eexists. split; [done|]. split; [|done].
      constructor; [done|].
      eapply Forall_impl; [exact Hevs|]. simpl. intros ev ->. done.
Qed.

Lemma has_gzip_signature_spec (b : bytes) :
  has_gzip_signature b = true
  ↔ (3 < length b)%nat ∧ take 3 b = _GZIP_BYTEARRAY.
Proof.
  unfold has_gzip_signature.
  rewrite andb_true_iff, Nat.ltb_lt, bool_decide_eq_true. done.
Qed.

Lemma my_loads_dict (b : bytes) (response_headers d : pydict) :
  loads_body b = Ok (PDict d) →
  _my_loads (Some b) response_headers = Ok (response_headers ∪ d).
Proof.
  unfold loads_body, _my_loads. destruct _IsPy3.
  - destruct (decode_utf8 b) as [t|e]; simpl; [|done]. by intros ->.
  - by intros ->.
Qed.

Lemma post_http_world api url data headers json_data (w : World) :
  json_data_of data = Ok json_data →
  (_post_http net api url data headers w).2
  = (_make_request net api "POST" url (Some json_data) headers w).2.
Proof.
  intros Hd. unfold _post_http. rewrite Hd.
  unfold mbind at 1, M_bind at 1, lift at 1.
  unfold mbind at 1, M_bind at 1.
  destruct (_make_request _ _ _ _ _ _ w) as [[[[rdata st] rh]|e] w1]; [|done].
  destruct rdata as [b|]; [|done].
  unfold mbind, M_bind, lift, mret, M_ret.
  destruct (has_gzip_signature b); [destruct (gzip_read b)|]; simpl;
    try done; by destruct (_my_loads _ _).
Qed.

Lemma post_http_result api url data headers json_data (w w' : World) b st rh :
  json_data_of data = Ok json_data →
  _make_request net api "POST" url (Some json_data) headers w
  = (Ok (Some b, st, rh), w') →
  _post_http net api url data headers w
  = (if has_gzip_signature b then b' ← gzip_read b; parsed b' rh st
     else parsed b rh st, w').
Proof.
  intros Hd Hrun. unfold _post_http. rewrite Hd.
  unfold mbind at 1, M_bind at 1, lift at 1.
  unfold mbind at 1, M_bind at 1. rewrite Hrun.
  unfold mbind, M_bind, lift, mret, M_ret, parsed.
  destruct (has_gzip_signature b); [destruct (gzip_read b)|]; simpl;
    try done; by destruct (_my_loads _ _).
Qed.

(** C4, amended. After a successful response on the POST path, a body that
    is longer than three bytes and begins with the gzip magic number
    [1F 8B 08] is decompressed before it is parsed; any other body is parsed
    as it is.  The request body is the empty string for a null body and the
    JSON encoding otherwise, on every attempt.  In particular a 200
    response whose body decompresses to the JSON text of the object with the
    one entry "ok": true gives that mapping with the "responseHeaders"
    entry added. *)
Theorem post_http_gzip api url data headers :
  (∀ (w w' : World) json_data b st rh,
     json_data_of data = Ok json_data →
     _make_request net api "POST" url (Some json_data) headers w
     = (Ok (Some b, st, rh), w') →
     ((3 < length b)%nat → take 3 b = [Byte.x1f; Byte.x8b; Byte.x08] →
        _post_http net api url data headers w
        = (b' ← gzip_read b; parsed b' rh st, w'))
     ∧ (¬ ((3 < length b)%nat ∧ take 3 b = [Byte.x1f; Byte.x8b; Byte.x08]) →
          _post_http net api url data headers w = (parsed b rh st, w')))
  ∧ ((data = PNone → json_data_of data = Ok EmptyString)
     ∧ (data ≠ PNone → json_data_of data = json_dumps data)
     ∧ ∀ (w : World) json_data,
         json_data_of data = Ok json_data → 0 ≤ num_retries api →
         ∃ evs,
           trace (_post_http net api url data headers w).2
           = trace w ++ connect_events api (urlparse url) w ++ evs
           ∧ head evs = Some (EvRequest "POST" url (Some json_data)
                                (with_user_agent headers))
           ∧ Forall (λ ev, is_request ev = true
                           → ev = EvRequest "POST" url (Some json_data)
                                    (with_user_agent headers)) evs)
  ∧ (∀ (w : World) json_data r b,
       json_data_of data = Ok json_data → 0 ≤ num_retries api →
       net (exchanges w) = Responds r → status r = 200 → body r = Some b →
       (3 < length b)%nat → take 3 b = [Byte.x1f; Byte.x8b; Byte.x08] →
       gzip_read b = Ok (String.list_byte_of_string (json_text "{'ok':true}")) →
       loads_body (String.list_byte_of_string (json_text "{'ok':true}"))
       = Ok (PDict {[ "ok"%string := PBool true ]}) →
       (_post_http net api url data headers w).1
       = Ok {| json := <[ "responseHeaders"%string := PDict (resp_headers r) ]>
                         {[ "ok"%string := PBool true ]};
               status_code := 200 |}).
Proof.
  split; [|split].
  - intros w w' json_data b st rh Hd Hrun.
    rewrite (post_http_result _ _ _ _ _ _ _ _ _ _ Hd Hrun). split.
    + intros Hlen Hsig.
      by rewrite (proj2 (has_gzip_signature_spec b) (conj Hlen Hsig)).
    + intros Hno. destruct (has_gzip_signature b) eqn:E; [|done].
      by apply has_gzip_signature_spec in E.
  - split; [by intros ->|]. split.
    + intros Hd. unfold json_data_of.
      by rewrite (proj2 (is_None_false data) Hd).
    + intros w json_data Hd Hn.
      rewrite (post_http_world _ _ _ _ _ _ Hd), make_request_unfold.
      destruct (retry_loop_requests api "POST" url (Some json_data)
                  (with_user_agent headers) (urlparse url)
                  (seq 0 (attempts_of api)) PNone (PStr "unknownError")
                  {| http_connection :=
                       Some (connected_conn api (urlparse url) w);
                     exchanges := exchanges w;
                     trace := trace w ++ connect_events api (urlparse url) w |}
                  _ eq_refl) as (evs & Htr & Hall & Hhead).
      exists evs. rewrite Htr. simpl. rewrite <- app_assoc.
      split; [done|]. split; [|done]. apply Hhead.
      unfold attempts_of. replace (Z.to_nat (num_retries api + 1))
        with (S (Z.to_nat (num_retries api))) by lia. done.
  - intros w json_data r b Hd Hn Hr Hs Hb Hlen Hsig Hgz Hjson.
    assert (0 < attempts_of api)%nat as Hk by (unfold attempts_of; lia).
    assert (answers_429 net (exchanges w) 0) as Hans by (intros j Hj; lia).
    rewrite <- (Nat.add_0_r (exchanges w)) in Hr.
    pose proof (make_request_success net api "POST" url (Some json_data)
                  headers w 0 r Hk Hans Hr Hs) as Hrun.
    rewrite Hb in Hrun.
    rewrite (post_http_result _ _ _ _ _ _ _ _ _ _ Hd Hrun). simpl.
    rewrite (proj2 (has_gzip_signature_spec b) (conj Hlen Hsig)), Hgz. simpl.
    unfold parsed. rewrite (my_loads_dict _ _ _ Hjson). simpl.
    unfold response_headers_of. by rewrite insert_union_singleton_l.
Qed.

End PostProperties.

Lemma post_http_gzip_witness :
  (_post_http (H := Reference.runtime false)
     (λ _, Responds {| status := 200; body := Some gzip_ok;
                       resp_headers := {[ "Content-Encoding"%string := PStr "gzip" ]} |})
     API_default entities_url (PDict {[ "content"%string := PStr "hello" ]})
     ∅ world0).1
  = Ok {| json := <[ "responseHeaders"%string :=
                       PDict {[ "Content-Encoding"%string := PStr "gzip" ]} ]>
                    {[ "ok"%string := PBool true ]};
          status_code := 200 |}.
Proof.
  destruct (post_http_gzip (H := Reference.runtime false)
              (λ _, Responds {| status := 200; body := Some gzip_ok;
                                resp_headers :=
                                  {[ "Content-Encoding"%string := PStr "gzip" ]} |})
              API_default entities_url
              (PDict {[ "content"%string := PStr "hello" ]}) ∅)
    as (_ & _ & Hok).
  refine (Hok world0 (json_text "{'content': 'hello'}")
            {| status := 200; body := Some gzip_ok;
               resp_headers := {[ "Content-Encoding"%string := PStr "gzip" ]} |}
            gzip_ok _ _ _ _ _ _ _ _ _).
  - vm_compute. reflexivity.
  - vm_compute. discriminate.
  - reflexivity.
  - reflexivity.
  - reflexivity.
  - vm_compute. lia.
  - reflexivity.
  - vm_compute. reflexivity.
  - vm_compute. reflexivity.
Defined.

(** A body that is exactly the three bytes of the magic number begins with
    it, yet is not decompressed: whatever the gzip reader would do, the
    bytes go to the JSON parser as they are. *)
Lemma post_http_gzip_counterexample :
  let rdata := [Byte.x1f; Byte.x8b; Byte.x08] in
  let net := λ _ : nat, Responds {| status := 200; body := Some rdata;
                                    resp_headers := ∅ |} in
  take 3 rdata = _GZIP_BYTEARRAY
  ∧ has_gzip_signature rdata = false
  ∧ ∀ gz, (_post_http (H := Reference.runtime_with_gzip false gz) net
             API_default entities_url PNone ∅ world0).1
          = Raise (ValueError "No JSON object could be decoded").
Proof.
  intros rdata net. split; [reflexivity|]. split; [reflexivity|].
  intros gz. vm_compute. reflexivity.
Qed.

Section MultipartProperties.
Context `{PyRuntime}.
Variable net : nat → Outcome.

Lemma language_only_spec (p : ParamSet) :
  _IsPy3 = false →
  language_only (filter (λ kv, is_None kv.2 = false) (params p))
  = Ok (language_part p).
Proof.
  intros Hpy. unfold language_only. rewrite Hpy. f_equal.
  apply map_eq. intros k. apply option_eq. intros x.
  rewrite !map_lookup_filter_Some. simpl. unfold language_part. split.
  - intros [[Hk Hx] ->]. rewrite Hk, Hx. apply lookup_singleton_eq.
  - destruct (params p !! "language"%string) as [v|] eqn:Hv;
      [destruct (is_None v) eqn:Hn|]; try done.
    intros [<- <-]%lookup_singleton_Some. done.
Qed.

(** The request [call] sends for a container in multipart mode. *)
Lemma multipart_call_run (ec : EndpointCaller) (p : ParamSet)
    (path sub request_options : string) (c : pyvalue) (w : World) :
  _IsPy3 = false → wf p →
  cls p = DocumentParametersC ∨ cls p = RelationshipsParametersC →
  suburl ec = Some sub →
  useMultipart p = true → file_name p = Some path →
  params p !! "content"%string = Some c → c ≠ PNone →
  is_set p "contentUri" = false →
  json_dumps (PDict (language_part p)) = Ok request_options →
  ∃ res,
    call net ec (Container p) w
    = (res,
       {| http_connection := http_connection w;
          exchanges := S (exchanges w);
          trace :=
            trace w
            ++ [EvSend {| req_method := "POST";
                          req_url := ec_service_url ec ++ sub;
                          req_files :=
                            [("content"%string,
                              {| part_filename := basename path;
                                 part_content := c;
                                 part_type := "text/plain" |});
                             ("request"%string,
                              {| part_filename := "request_options";
                                 part_content := PStr request_options;
                                 part_type := "application/json" |})];
                          req_headers := key_headers ec |}] |}).
Proof.
  intros Hpy Hwf Hcls Hsub Hmp Hfn Hc Hcn Huri Hdumps.
  assert (is_set p "content" = true) as Hset.
  { unfold is_set. rewrite Hc. by apply negb_true_iff, is_None_false. }
  assert (serialize p = Ok (filter (λ kv, is_None kv.2 = false) (params p)))
    as Hser by (by rewrite (serialize_document_cases p Hwf Hcls), Hset, Huri).
  assert (filter (λ kv, is_None kv.2 = false) (params p) !! "content"%string
          = Some c) as Hcontent.
  { apply map_lookup_filter_Some. split; [done|]. by apply is_None_false. }
  unfold call. unfold mbind at 1, M_bind at 1, mret at 1, M_ret at 1.
  rewrite Hsub, Hmp. unfold mbind at 1, M_bind at 1, mret at 1, M_ret at 1.
  rewrite Hser. unfold mbind at 1, M_bind at 1, lift at 1.
  rewrite (language_only_spec p Hpy), Hfn, Hcontent.
  unfold mbind, M_bind, lift, mret, M_ret, session_send. simpl.
  rewrite Hdumps. simpl.
  destruct (net (exchanges w)) as [r|e]; simpl; [|by eexists].
  destruct (_my_loads _ _) as [j|e]; simpl; [|by eexists].
  by eexists.
Qed.

(** The multipart branch where it runs, on Python 2.  Loading a file puts
    a document container in multipart mode, with the path as file name and
    the bytes of the file as "content".  For such a container whose
    "contentUri" is not set (so that validation passes), on an interpreter
    where dictionaries have [iteritems], [call] sends exactly one request,
    outside the retry loop: a multipart POST of two parts, "content" with
    the bytes, the base name of the file and the type "text/plain", and
    "request" with the JSON encoding of the object that holds the
    "language" entry when it is set and nothing else. *)
Lemma call_multipart (fs : string → option bytes) (ec : EndpointCaller)
    (p0 : ParamSet) (path sub : string) (content : bytes) :
  _IsPy3 = false → wf p0 →
  cls p0 = DocumentParametersC ∨ cls p0 = RelationshipsParametersC →
  fs path = Some content → suburl ec = Some sub →
  load_document_file fs p0 path
  = (Ok tt, {| cls := cls p0;
               params := <[ "content"%string := PBytes content ]> (params p0);
               file_name := Some path;
               useMultipart := true |})
  ∧ (is_set p0 "contentUri" = false →
     ∀ request_options (w : World),
       json_dumps (PDict (language_part p0)) = Ok request_options →
       trace (call net ec (Container (load_document_file fs p0 path).2) w).2
       = trace w
         ++ [EvSend {| req_method := "POST";
                       req_url := ec_service_url ec ++ sub;
                       req_files :=
                         [("content"%string,
                           {| part_filename := basename path;
                              part_content := PBytes content;
                              part_type := "text/plain" |});
                          ("request"%string,
                           {| part_filename := "request_options";
                              part_content := PStr request_options;
                              part_type := "application/json" |})];
                       req_headers := key_headers ec |}]
       ∧ exchanges (call net ec (Container (load_document_file fs p0 path).2)
                      w).2 = S (exchanges w)).
Proof.
  intros Hpy Hwf Hcls Hfs Hsub.
  destruct (document_keys p0 Hcls) as (Hc & _ & _).
  apply (wf_lookup p0 _ Hwf) in Hc as [c0 Hc0].
  assert (load_document_file fs p0 path
          = (Ok tt, {| cls := cls p0;
                       params := <[ "content"%string := PBytes content ]>
                                   (params p0);
                       file_name := Some path;
                       useMultipart := true |})) as Hload.
  { unfold load_document_file, load_document_string, setitem. simpl.
    by rewrite Hfs, Hc0. }
  split; [exact Hload|]. intros Huri request_options w Hdumps.
  rewrite Hload. simpl.
  edestruct (multipart_call_run ec
               {| cls := cls p0;
                  params := <[ "content"%string := PBytes content ]> (params p0);
                  file_name := Some path;
                  useMultipart := true |}
               path sub request_options (PBytes content) w) as [res ->];
    simpl; try done.
  - unfold wf in *. simpl. rewrite dom_insert_L, Hwf.
    assert ("content"%string ∈ dom (params p0)) as Hin
      by (apply elem_of_dom; eauto).
    rewrite Hwf in Hin. set_solver.
  - apply lookup_insert_eq.
  - unfold is_set in *. simpl. by rewrite lookup_insert_ne.
  - unfold language_part in *. simpl. by rewrite lookup_insert_ne.
Qed.

(** C5. On Python 3 the multipart branch never builds its request.  A
    document container that has loaded a file is in multipart mode with the
    bytes of the file as "content"; with "contentUri" not set it passes
    validation, and [call] then asks the serialized parameters for
    [iteritems], which a Python 3 dictionary does not have: the call raises
    [AttributeError] and the world is as it was, nothing has been sent. *)
Theorem multipart_call_fails_on_python3 (fs : string → option bytes)
    (ec : EndpointCaller) (p0 : ParamSet) (path sub : string)
    (content : bytes) (w : World) :
  _IsPy3 = true → wf p0 →
  cls p0 = DocumentParametersC ∨ cls p0 = RelationshipsParametersC →
  fs path = Some content → suburl ec = Some sub →
  is_set p0 "contentUri" = false →
  load_document_file fs p0 path
  = (Ok tt, {| cls := cls p0;
               params := <[ "content"%string := PBytes content ]> (params p0);
               file_name := Some path;
               useMultipart := true |})
  ∧ serialize (load_document_file fs p0 path).2
    = Ok (filter (λ kv, is_None kv.2 = false)
            (<[ "content"%string := PBytes content ]> (params p0)))
  ∧ call net ec (Container (load_document_file fs p0 path).2) w
    = (Raise (AttributeError "iteritems"), w).
Proof.
  intros Hpy Hwf Hcls Hfs Hsub Huri.
  destruct (document_keys p0 Hcls) as (Hc & _ & _).
  apply (wf_lookup p0 _ Hwf) in Hc as [c0 Hc0].
  assert (load_document_file fs p0 path
          = (Ok tt, {| cls := cls p0;
                       params := <[ "content"%string := PBytes content ]>
                                   (params p0);
                       file_name := Some path;
                       useMultipart := true |})) as Hload.
  { unfold load_document_file, load_document_string, setitem. simpl.
    by rewrite Hfs, Hc0. }
  split; [exact Hload|]. rewrite Hload. simpl.
  set (p := {| cls := cls p0;
               params := <[ "content"%string := PBytes content ]> (params p0);
               file_name := Some path;
               useMultipart := true |}).
  assert (wf p) as Hwfp.
  { unfold wf in *. simpl. rewrite dom_insert_L, Hwf.
    assert ("content"%string ∈ dom (params p0)) as Hin
      by (apply elem_of_dom; eauto).
    rewrite Hwf in Hin. set_solver. }
  assert (is_set p "content" = true) as Hset.
  { unfold is_set. simpl. by rewrite lookup_insert_eq. }
  assert (is_set p "contentUri" = false) as Hurip.
  { unfold is_set in *. simpl. by rewrite lookup_insert_ne. }
  assert (serialize p
          = Ok (filter (λ kv, is_None kv.2 = false) (params p))) as Hser
    by (by rewrite (serialize_document_cases p Hwfp Hcls), Hset, Hurip).
  split; [exact Hser|].
  unfold call. unfold mbind at 1, M_bind at 1, mret at 1, M_ret at 1.
  rewrite Hsub. unfold mbind at 1, M_bind at 1, mret at 1, M_ret at 1.
  rewrite Hser. unfold mbind at 1, M_bind at 1, lift at 1.
  simpl. unfold language_only. rewrite Hpy.
  reflexivity.
Qed.

End MultipartProperties.

Lemma set_params_wf (p : ParamSet) (k : string) (v : pyvalue) :
  wf p → k ∈ repertoire (cls p) →
  wf (set_params p (<[ k := v ]> (params p))).
Proof.
  unfold wf. simpl. intros Hwf Hk. rewrite dom_insert_L, Hwf.
  apply (elem_of_list_to_set (C := gset string)) in Hk. set_solver.
Qed.

Lemma english_document_wf : wf english_document.
Proof.
  apply set_params_wf; [apply (new_ParamSet_wf DocumentParametersC)|].
  simpl. rewrite !elem_of_cons. auto.
Qed.

Lemma call_multipart_witness :
  trace (call (H := Reference.runtime false) (λ _, json_answer 200 "{}")
           (EndpointCaller_init keyed_api (Some "entities"%string))
           (Container
              (load_document_file (H := Reference.runtime false)
                 (one_file "/tmp/docs/letter.txt"
                    (String.list_byte_of_string "Dear Sir"))
                 english_document "/tmp/docs/letter.txt").2)
           world0).2
  = [EvSend {| req_method := "POST";
               req_url := entities_url;
               req_files :=
                 [("content"%string,
                   {| part_filename := "letter.txt";
                      part_content := PBytes (String.list_byte_of_string "Dear Sir");
                      part_type := "text/plain" |});
                  ("request"%string,
                   {| part_filename := "request_options";
                      part_content := PStr (json_text "{'language': 'eng'}");
                      part_type := "application/json" |})];
               req_headers :=
                 key_headers
                   (EndpointCaller_init keyed_api (Some "entities"%string)) |}].
Proof.
  destruct (call_multipart (H := Reference.runtime false)
              (λ _, json_answer 200 "{}")
              (one_file "/tmp/docs/letter.txt"
                 (String.list_byte_of_string "Dear Sir"))
              (EndpointCaller_init keyed_api (Some "entities"%string))
              english_document "/tmp/docs/letter.txt" "entities"
              (String.list_byte_of_string "Dear Sir"))
    as [_ Hsend].
  - reflexivity.
  - exact english_document_wf.
  - by left.
  - reflexivity.
  - reflexivity.
  - destruct (Hsend eq_refl (json_text "{'language': 'eng'}") world0)
      as [Htrace _]; [vm_compute; reflexivity|].
    exact Htrace.
Defined.

(** A container loaded from a file whose "contentUri" is set as well: it is
    in multipart mode, but [call] raises [badArgument] and sends nothing. *)
Lemma multipart_with_contentUri_rejected :
  let fs := one_file "/tmp/docs/letter.txt"
              (String.list_byte_of_string "Dear Sir") in
  let p1 := (load_document_file (H := Reference.runtime false) fs
               DocumentParameters "/tmp/docs/letter.txt").2 in
  let p2 := set_params p1
              (<[ "contentUri"%string := PStr "http://example.com/letter" ]>
                 (params p1)) in
  setitem (H := Reference.runtime false) p1 "contentUri"
    (PStr "http://example.com/letter") = Ok p2
  ∧ useMultipart p2 = true
  ∧ params p2 !! "content"%string
    = Some (PBytes (String.list_byte_of_string "Dear Sir"))
  ∧ call (H := Reference.runtime false) (λ _, json_answer 200 "{}")
      (EndpointCaller_init keyed_api (Some "entities"%string))
      (Container p2) world0
    = (Raise (RosetteException (PStr "badArgument")
                (PStr "Cannot supply both Content and ContentUri")
                (PStr "bad arguments")), world0).
Proof. intros fs p1 p2. repeat split; vm_compute; reflexivity. Qed.

(** On the Python 3 reference runtime: the English document, loaded from
    the letter and sent to "entities". *)
Lemma multipart_call_fails_on_python3_witness :
  call (H := Reference.runtime true) (λ _, json_answer 200 "{}")
    (EndpointCaller_init keyed_api (Some "entities"%string))
    (Container
       (load_document_file (H := Reference.runtime true)
          (one_file "/tmp/docs/letter.txt"
             (String.list_byte_of_string "Dear Sir"))
          english_document "/tmp/docs/letter.txt").2)
    world0
  = (Raise (AttributeError "iteritems"), world0).
Proof.
  apply (multipart_call_fails_on_python3 (H := Reference.runtime true)
           (λ _, json_answer 200 "{}")
           (one_file "/tmp/docs/letter.txt"
              (String.list_byte_of_string "Dear Sir"))
           (EndpointCaller_init keyed_api (Some "entities"%string))
           english_document "/tmp/docs/letter.txt" "entities"
           (String.list_byte_of_string "Dear Sir") world0).
  - reflexivity.
  - exact english_document_wf.
  - by left.
  - reflexivity.
  - reflexivity.
  - reflexivity.
Defined.

Lemma finish_result_key_error_witness :
  __finish_result (EndpointCaller_init keyed_api (Some "entities"%string))
    {| json := {[ "responseHeaders"%string := PDict ∅ ]}; status_code := 500 |}
    "operate"
  = Raise (KeyError "code").
Proof.
  apply (finish_result_key_error
           (EndpointCaller_init keyed_api (Some "entities"%string))
           {| json := {[ "responseHeaders"%string := PDict ∅ ]};
              status_code := 500 |} "operate").
  - vm_compute. discriminate.
  - reflexivity.
  - reflexivity.
Defined.

(** The non-200 branch of [__finish_result] is reached from the multipart
    branch of [call]: a 500 answer with an empty JSON object makes the call
    raise the key-lookup error. *)
Lemma multipart_call_key_error :
  (call (H := Reference.runtime false) (λ _, json_answer 500 "{}")
     (EndpointCaller_init keyed_api (Some "entities"%string))
     (Container
        (load_document_file (H := Reference.runtime false)
           (one_file "/tmp/docs/letter.txt"
              (String.list_byte_of_string "Dear Sir"))
           english_document "/tmp/docs/letter.txt").2)
     world0).1
  = Raise (KeyError "code").
Proof. vm_compute. reflexivity. Qed.

Lemma document_serialize_witness :
  serialize (H := Reference.runtime false) DocumentParameters
  = Raise (RosetteException (PStr "badArgument")
             (PStr "Must supply one of Content or ContentUri")
             (PStr "bad arguments"))
  ∧ ∃ v, serialize (H := Reference.runtime false)
           (set_params english_document
              (<[ "content"%string := PStr "Dear Sir" ]> (params english_document)))
         = Ok v
         ∧ v !! "language"%string = Some (PStr "eng")
         ∧ v !! "genre"%string = None.
Proof.
  split.
  - destruct (document_serialize (H := Reference.runtime false)
                DocumentParameters (new_ParamSet_wf DocumentParametersC)
                (or_introl eq_refl)) as (_ & Hneither & _).
    apply Hneither; reflexivity.
  - destruct (document_serialize (H := Reference.runtime false)
                (set_params english_document
                   (<[ "content"%string := PStr "Dear Sir" ]>
                      (params english_document))))
      as (_ & _ & Hone).
    + apply set_params_wf; [exact english_document_wf|].
      simpl. rewrite !elem_of_cons. auto.
    + by left.
    + destruct Hone as (v & Hv & Hkeys); [by vm_compute|].
      exists v. split; [exact Hv|]. split.
      * apply Hkeys. split; [|by split].
        simpl. rewrite !elem_of_cons. auto.
      * destruct (v !! "genre"%string) as [x|] eqn:E; [|done].
        apply Hkeys in E as (_ & E & Hx). vm_compute in E. congruence.
Defined.

Lemma name_serialize_required_witness :
  serialize (H := Reference.runtime false)
    (set_params NameTranslationParameters
       (<[ "name"%string := PStr "Moscow" ]> (params NameTranslationParameters)))
  = Raise (RosetteException (PStr "missingParameter")
             (PStr "Required Name Translation parameter not supplied")
             (PStr "'targetLanguage'"))
  ∧ serialize (H := Reference.runtime false) NameSimilarityParameters
    = Raise (RosetteException (PStr "missingParameter")
               (PStr "Required Name Similarity parameter not supplied")
               (PStr "'name1'")).
Proof.
  split.
  - destruct (name_serialize_required (H := Reference.runtime false)
                (set_params NameTranslationParameters
                   (<[ "name"%string := PStr "Moscow" ]>
                      (params NameTranslationParameters))))
      as [Htr _].
    { apply set_params_wf; [apply (new_ParamSet_wf NameTranslationParametersC)|].
      simpl. rewrite !elem_of_cons. auto. }
    destruct (Htr eq_refl) as (_ & Htarget & _).
    apply Htarget; reflexivity.
  - destruct (name_serialize_required (H := Reference.runtime false)
                NameSimilarityParameters
                (new_ParamSet_wf NameSimilarityParametersC))
      as [_ Hsim].
    destruct (Hsim eq_refl) as (Hname1 & _ & _).
    apply Hname1; reflexivity.
Defined.

(** * Further properties of the containers *)

Section MoreContainerProperties.
Context `{PyRuntime}.

(** X1. Every recognised key of a freshly constructed container reads
    [None], and the container is not in multipart mode. *)
Theorem fresh_container_reads_none (c : ParamClass) (k : string) :
  k ∈ repertoire c →
  getitem (new_ParamSet c) k = Ok PNone
  ∧ useMultipart (new_ParamSet c) = false.
Proof.
  intros Hk. split; [|by destruct c].
  unfold getitem.
  assert (params (new_ParamSet c) = _DocumentParamSetBase_init (repertoire c))
    as -> by (by destruct c).
  by rewrite (init_lookup _ _ Hk).
Qed.

(** X2. Setting a key changes that key only: every other key reads as
    before, and the class, the file name and the multipart flag are
    untouched. *)
Theorem setitem_frame (p p' : ParamSet) (k k' : string) (v : pyvalue) :
  setitem p k v = Ok p' → k' ≠ k →
  getitem p' k' = getitem p k'
  ∧ cls p' = cls p ∧ file_name p' = file_name p
  ∧ useMultipart p' = useMultipart p.
Proof.
  unfold setitem. destruct (params p !! k) as [x|]; [|done].
  intros [= <-] Hne. unfold getitem. simpl.
  by rewrite lookup_insert_ne.
Qed.

(** X3. Setting the same key twice leaves what setting it once to the
    second value leaves. *)
Theorem setitem_twice (p p1 p2 : ParamSet) (k : string) (v1 v2 : pyvalue) :
  setitem p k v1 = Ok p1 → setitem p1 k v2 = Ok p2 →
  setitem p k v2 = Ok p2.
Proof.
  unfold setitem. destruct (params p !! k) as [x|] eqn:Hk; [|done].
  intros [= <-]. simpl. rewrite lookup_insert_eq. intros [= <-].
  unfold set_params. simpl. by rewrite insert_insert_eq.
Qed.

(** X4. A serialization that succeeds, for a container of any class, is
    exactly the entries of the container whose value is not [None]: it
    never holds a [None]. *)
Theorem serialize_contents (p : ParamSet) (v : pydict) :
  serialize p = Ok v →
  (∀ k x, v !! k = Some x ↔ params p !! k = Some x ∧ x ≠ PNone)
  ∧ ∀ k, v !! k ≠ Some PNone.
Proof.
  intros Hser.
  assert (v = filter (λ kv, is_None kv.2 = false) (params p)) as ->.
  { unfold serialize, DocumentParameters_serialize,
      _DocumentParamSetBase_serialize in Hser.
    destruct (cls p); destruct (validate p) as [[]|e]; simpl in Hser;
      congruence. }
  assert (∀ k x, filter (λ kv, is_None kv.2 = false) (params p) !! k = Some x
                 ↔ params p !! k = Some x ∧ x ≠ PNone) as Hl.
  { intros k x. rewrite map_lookup_filter_Some. simpl.
    by rewrite is_None_false. }
  split; [exact Hl|]. intros k Hk. by apply Hl in Hk as [_ Hx].
Qed.

(** X5. A serialization that succeeds carries the required fields: both
    "name" and "targetLanguage" for name translation, both "name1" and
    "name2" for name similarity, and exactly one of "content" and
    "contentUri" for the document classes. *)
Theorem serialize_required_fields (p : ParamSet) (v : pydict) :
  wf p → serialize p = Ok v →
  match cls p with
  | NameTranslationParametersC =>
      is_Some (v !! "name"%string) ∧ is_Some (v !! "targetLanguage"%string)
  | NameSimilarityParametersC =>
      is_Some (v !! "name1"%string) ∧ is_Some (v !! "name2"%string)
  | DocumentParametersC | RelationshipsParametersC =>
      is_Some (v !! "content"%string) ↔ v !! "contentUri"%string = None
  end.
Proof.
  intros Hwf Hser.
  destruct (serialize_contents p v Hser) as [Hl _].
  assert (∀ k, k ∈ repertoire (cls p) → is_set p k = true → is_Some (v !! k))
    as Hset.
  { intros k Hk Hs. destruct (getitem_wf p k Hwf Hk) as (x & Hx & _ & Sx).
    exists x. apply Hl. split; [done|].
    rewrite Hs in Sx. by apply is_None_false, negb_true_iff. }
  assert (∀ k, k ∈ repertoire (cls p) → is_set p k = false → v !! k = None)
    as Hunset.
  { intros k Hk Hs. destruct (getitem_wf p k Hwf Hk) as (x & Hx & _ & Sx).
    destruct (v !! k) as [y|] eqn:Hy; [|done].
    apply Hl in Hy as [Hy Hn]. rewrite Hx in Hy. injection Hy as ->.
    rewrite Hs in Sx. symmetry in Sx. apply negb_false_iff, is_None_true in Sx.
    done. }
  assert (cls p = DocumentParametersC ∨ cls p = RelationshipsParametersC →
          is_Some (v !! "content"%string) ↔ v !! "contentUri"%string = None)
    as Hdoc.
  { intros Hcls. destruct (document_keys p Hcls) as (Hc & Hu & _).
    rewrite (serialize_document_cases p Hwf Hcls) in Hser.
    destruct (is_set p "content") eqn:Sc, (is_set p "contentUri") eqn:Su;
      try done.
    - split; intros _; [by apply Hunset|by apply Hset].
    - split.
      + intros Hsome. rewrite (Hunset _ Hc Sc) in Hsome. by destruct Hsome.
      + intros Hnone. destruct (Hset _ Hu Su) as [y Hy]. congruence. }
  destruct (cls p) eqn:Hcls; [apply Hdoc; auto|apply Hdoc; auto| |].
  - assert ("name"%string ∈ repertoire NameTranslationParametersC) as Ha
      by (simpl; rewrite !elem_of_cons; auto).
    assert ("targetLanguage"%string ∈ repertoire NameTranslationParametersC)
      as Hb by (simpl; rewrite !elem_of_cons; auto).
    destruct (getitem_wf p "name" Hwf ltac:(rewrite Hcls; exact Ha))
      as (a & _ & Ga & Sa).
    destruct (getitem_wf p "targetLanguage" Hwf ltac:(rewrite Hcls; exact Hb))
      as (b & _ & Gb & Sb).
    unfold serialize, _DocumentParamSetBase_serialize, validate in Hser.
    rewrite Hcls in Hser. unfold NameTranslationParameters_validate in Hser.
    simpl in Hser. rewrite Ga, Gb in Hser. simpl in Hser.
    destruct (is_None a) eqn:Na; [done|]. destruct (is_None b) eqn:Nb; [done|].
    split; [apply (Hset _ Ha); by rewrite Sa
           |apply (Hset _ Hb); by rewrite Sb].
  - assert ("name1"%string ∈ repertoire NameSimilarityParametersC) as Ha
      by (simpl; rewrite !elem_of_cons; auto).
    assert ("name2"%string ∈ repertoire NameSimilarityParametersC) as Hb
      by (simpl; rewrite !elem_of_cons; auto).
    destruct (getitem_wf p "name1" Hwf ltac:(rewrite Hcls; exact Ha))
      as (a & _ & Ga & Sa).
    destruct (getitem_wf p "name2" Hwf ltac:(rewrite Hcls; exact Hb))
      as (b & _ & Gb & Sb).
    unfold serialize, _DocumentParamSetBase_serialize, validate in Hser.
    rewrite Hcls in Hser. unfold NameSimilarityParameters_validate in Hser.
    simpl in Hser. rewrite Ga, Gb in Hser. simpl in Hser.
    destruct (is_None a) eqn:Na; [done|]. destruct (is_None b) eqn:Nb; [done|].
    split; [apply (Hset _ Ha); by rewrite Sa
           |apply (Hset _ Hb); by rewrite Sb].
Qed.

(** X6. When the file cannot be opened, [load_document_file] raises, but
    it has already put the container in multipart mode and stored the
    path; the parameters are as they were. *)
Theorem load_missing_file (fs : string → option bytes) (p : ParamSet)
    (path : string) :
  fs path = None →
  (load_document_file fs p path).1 = Raise (IOError path)
  ∧ useMultipart (load_document_file fs p path).2 = true
  ∧ file_name (load_document_file fs p path).2 = Some path
  ∧ params (load_document_file fs p path).2 = params p.
Proof. intros Hfs. unfold load_document_file. by rewrite Hfs. Qed.

End MoreContainerProperties.

(** * Further properties of the transport *)

Section MoreTransportProperties.
Context `{PyRuntime}.
Variable net : nat → Outcome.

(** One attempt, whatever the network does: one exchange, whose request
    comes first; at most one sleep, of the configured duration; a
    connection is left in place; and a value is returned only for a 200
    answer. *)
Lemma attempt_effects api op url data headers pu i message code (w : World) c
    res w' :
  http_connection w = Some c →
  try_except (attempt net api op url data headers pu i message code)
    (connection_failure url) w = (res, w') →
  exchanges w' = S (exchanges w)
  ∧ (∃ evs c',
       trace w' = trace w ++ EvRequest op url data headers :: evs
       ∧ Forall (λ ev, is_request ev = false) evs
       ∧ Forall (λ ev, is_sleep ev = true
                       → ev = EvSleep (connection_refresh_duration api)) evs
       ∧ (length (List.filter is_sleep evs) ≤ 1)%nat
       ∧ http_connection w' = Some c')
  ∧ (∀ rdata st rh,
       res = Ok (Return rdata st rh) →
       st = 200
       ∧ ∃ r, net (exchanges w) = Responds r ∧ status r = 200
              ∧ rdata = body r ∧ rh = response_headers_of r).
Proof.
  intros Hc. destruct (net (exchanges w)) as [r|e] eqn:Hn.
  - destruct (Z.eq_dec (status r) 200) as [E200|E200];
      [|destruct (Z.eq_dec (status r) 429) as [E429|E429]].
    + unfold try_except.
      rewrite (attempt_200 net _ _ _ _ _ _ _ _ _ _ _ _ Hc Hn E200).
      intros [= <- <-]. simpl. split; [done|]. split.
      * unfold round_200. eexists _, c. split; [done|].
        destruct (reuse_connection api); simpl; repeat split;
          repeat constructor; try done; lia.
      * intros rdata st rh [= <- <- <-]. split; [done|]. by exists r.
    + unfold try_except.
      rewrite (attempt_429 net _ _ _ _ _ _ _ _ _ _ _ _ Hc Hn E429).
      intros [= <- <-]. simpl. split; [done|]. split; [|done].
      unfold round_429, reconnect_events. eexists _, _. split; [done|].
      destruct (reuse_connection api); simpl; repeat split;
        repeat constructor; try done; lia.
    + destruct (body r) as [b|] eqn:Hb.
      * rewrite (attempt_other net _ _ _ _ _ _ _ _ _ _ _ _ _ Hc Hn E200 E429 Hb).
        intros [= <- <-]. simpl. split; [done|]. split; [|done].
        exists [], c. simpl. repeat split; try constructor. lia.
      * unfold try_except, attempt.
        rewrite (bind_ok _ _ _ _ _ (http_exchange_responds net _ _ _ _ _ _ _ Hc Hn)).
        apply Z.eqb_neq in E200, E429. rewrite E200, E429, Hb.
        unfold mret, M_ret. intros [= <- <-]. simpl.
        split; [done|]. split; [|done].
        exists [], c. simpl. repeat split; try constructor. lia.
  - unfold try_except, attempt.
    rewrite (bind_raise _ _ _ _ _ (http_exchange_fails net _ _ _ _ _ _ _ Hc Hn)).
    destruct (connection_failure url e) as [h|] eqn:Hh.
    + destruct e; try discriminate; injection Hh as <-;
        unfold raise; intros [= <- <-]; simpl;
        (split; [done|]); (split; [|done]);
        exists [], c; simpl; repeat split; try constructor; lia.
    + intros [= <- <-]. simpl. split; [done|]. split; [|done].
      exists [], c. simpl. repeat split; try constructor. lia.
Qed.

(** The loop, whatever the network does. *)
Lemma retry_loop_effects api op url data headers pu attempts :
  ∀ message code (w : World) c res w',
    http_connection w = Some c →
    retry_loop net api op url data headers pu attempts message code w
    = (res, w') →
    (exchanges w ≤ exchanges w' ≤ exchanges w + length attempts)%nat
    ∧ (∃ evs c',
         trace w' = trace w ++ evs
         ∧ length (List.filter is_request evs)
           = (exchanges w' - exchanges w)%nat
         ∧ (length (List.filter is_sleep evs)
            ≤ exchanges w' - exchanges w)%nat
         ∧ Forall (λ ev, is_sleep ev = true
                         → ev = EvSleep (connection_refresh_duration api)) evs
         ∧ http_connection w' = Some c')
    ∧ (∀ rdata st rh,
         res = Ok (rdata, st, rh) →
         st = 200
         ∧ (exchanges w < exchanges w')%nat
         ∧ ∃ r, net (pred (exchanges w')) = Responds r ∧ status r = 200
                ∧ rdata = body r ∧ rh = response_headers_of r).
Proof.
  induction attempts as [|i rest IH]; intros message code w c res w' Hc.
  - rewrite (retry_loop_exhausted net _ _ _ _ _ _ _ _ _ c Hc).
    intros [= <- <-]. simpl. split; [lia|]. split; [|done].
    eexists _, c. split; [done|].
    destruct (reuse_connection api); simpl; repeat split;
      repeat constructor; try done; lia.
  - simpl. unfold mbind at 1, M_bind at 1.
    destruct (try_except _ _ w) as [res1 w1] eqn:E.
    destruct (attempt_effects _ _ _ _ _ _ _ _ _ _ _ _ _ Hc E)
      as (Hex & (evs & c1 & Htr & Hreq & Hdur & Hsl & Hc1) & Hret).
    assert (length (List.filter is_request evs) = 0%nat) as Hnoreq.
    { clear -Hreq. induction Hreq as [|ev l Hev _ IHl]; [done|].
      simpl. by rewrite Hev. }
    destruct res1 as [[rdata st rh|message' code']|e].
    + unfold mret, M_ret. intros [= <- <-].
      split; [lia|]. split.
      * eexists _, c1. split; [exact Htr|]. simpl. rewrite Hnoreq.
        repeat split; try lia; [|done].
        constructor; [done|exact Hdur].
      * intros rdata' st' rh' [= <- <- <-].
        destruct (Hret _ _ _ eq_refl) as (-> & r & Hr & Hs & -> & ->).
        split; [done|]. split; [lia|]. exists r. by rewrite Hex.
    + intros Hrun.
      destruct (IH _ _ _ c1 _ _ Hc1 Hrun)
        as (Hb & (evs' & c' & Htr' & Hreq' & Hsl' & Hdur' & Hc') & Hret').
      split; [lia|]. split.
      * eexists _, c'. split; [by rewrite Htr', Htr, <- app_assoc|].
        simpl. rewrite !List.filter_app, !length_app, Hnoreq, Hreq'.
        repeat split; try lia; [|done].
        constructor; [done|]. apply Forall_app. by split.
      * intros rdata st rh Hres.
        destruct (Hret' _ _ _ Hres) as (-> & Hlt & r & Hr & Hrest).
        split; [done|]. split; [lia|]. by exists r.
    + intros [= <- <-]. split; [lia|]. split; [|done].
      eexists _, c1. split; [exact Htr|]. simpl. rewrite Hnoreq.
      repeat split; try lia; [|done].
      constructor; [done|exact Hdur].
Qed.

(** X7. [_make_request] returns a value only for a 200 answer: the status
    it returns is 200, and the body and headers are those of the last
    exchange it made, which was answered with 200. *)
Theorem make_request_returns_only_200 api op url data headers (w w' : World)
    rdata st rh :
  _make_request net api op url data headers w = (Ok (rdata, st, rh), w') →
  st = 200
  ∧ (exchanges w < exchanges w')%nat
  ∧ ∃ r, net (pred (exchanges w')) = Responds r ∧ status r = 200
         ∧ rdata = body r ∧ rh = response_headers_of r.
Proof.
  rewrite make_request_unfold. intros Hrun.
  eapply retry_loop_effects in Hrun as (_ & _ & Hret); [|reflexivity].
  apply (Hret _ _ _ eq_refl).
Qed.


Lemma retry_loop_fails api op url data headers pu i rest message code
    (w : World) c e :
  http_connection w = Some c → net (exchanges w) = Fails e →
  retry_loop net api op url data headers pu (i :: rest) message code w =
    (Raise (surfaced url e),
     {| http_connection := Some c;
        exchanges := S (exchanges w);
        trace := trace w ++ [EvRequest op url data headers] |}).
Proof.
  intros Hc Hn. simpl. unfold mbind at 1, M_bind at 1, try_except, attempt.
  rewrite (bind_raise _ _ _ _ _ (http_exchange_fails net _ _ _ _ _ _ _ Hc Hn)).
  by destruct e.
Qed.

(** X9. When an exchange raises (after any number of rate-limited ones) the
    call ends at once: with the "ConnectionError" structured error for
    [httplib.BadStatusLine] and [socket.gaierror], with the exception
    itself for any other. *)
Theorem failed_exchange_ends_call api op url data headers (w : World)
    (k : nat) e :
  (k < attempts_of api)%nat → answers_429 net (exchanges w) k →
  net (exchanges w + k)%nat = Fails e →
  ∃ w',
    _make_request net api op url data headers w = (Raise (surfaced url e), w')
    ∧ exchanges w' = S (exchanges w + k)
    ∧ (e = BadStatusLine ∨ e = gaierror →
       surfaced url e
       = RosetteException (PStr "ConnectionError")
           (PStr "Unable to establish connection to the Rosette API server")
           (PStr url))
    ∧ (e ≠ BadStatusLine → e ≠ gaierror → surfaced url e = e).
Proof.
  intros Hk Hans He.
  rewrite (make_request_after_429s net _ _ _ _ _ _ k Hk Hans).
  erewrite retry_loop_fails; [|reflexivity|exact He].
  eexists. split; [reflexivity|]. split; [reflexivity|]. split.
  - by intros [-> | ->].
  - intros H1 H2. by destruct e.
Qed.

(** X10. The reuse policy on a call answered with 200 at once.  With
    reuse on and a connection in place, the call opens and closes
    nothing and keeps the connection; with reuse off it opens a
    connection for the URL, sends the request and closes it. *)
Theorem reuse_policy api op url data headers (w : World) r :
  0 ≤ num_retries api →
  net (exchanges w) = Responds r → status r = 200 →
  (reuse_connection api = true →
   ∀ c, http_connection w = Some c →
        trace (_make_request net api op url data headers w).2
        = trace w ++ [EvRequest op url data (with_user_agent headers)]
        ∧ http_connection (_make_request net api op url data headers w).2
          = Some c)
  ∧ (reuse_connection api = false →
     trace (_make_request net api op url data headers w).2
     = trace w ++ [EvConnect (new_conn (urlparse url));
                   EvRequest op url data (with_user_agent headers); EvClose]
     ∧ http_connection (_make_request net api op url data headers w).2
       = Some (new_conn (urlparse url))).
Proof.
  intros Hn Hr Hs.
  assert (0 < attempts_of api)%nat as Hk by (unfold attempts_of; lia).
  assert (answers_429 net (exchanges w) 0) as Hans by (intros j Hj; lia).
  rewrite <- (Nat.add_0_r (exchanges w)) in Hr.
  rewrite (make_request_success net _ _ _ _ _ _ 0 r Hk Hans Hr Hs). simpl.
  unfold connect_events, connected_conn, reconnect_events, reconnected,
    round_200.
  split.
  - intros -> c ->. done.
  - intros ->. by destruct (http_connection w).
Qed.

(** X11. What [_my_loads] makes of a body.  A JSON object gets the
    "responseHeaders" entry, which replaces an entry of that name in the
    body, and keeps every other entry; any other JSON value raises
    [AttributeError]; an error of the parser is passed on. *)
Theorem my_loads_result (b : bytes) (r : Response) :
  (∀ d, loads_body b = Ok (PDict d) →
        ∃ j, _my_loads (Some b) (response_headers_of r) = Ok j
             ∧ j !! "responseHeaders"%string = Some (PDict (resp_headers r))
             ∧ ∀ k, k ≠ "responseHeaders"%string → j !! k = d !! k)
  ∧ (∀ v, loads_body b = Ok v → (∀ d, v ≠ PDict d) →
          ∃ what, _my_loads (Some b) (response_headers_of r)
                  = Raise (AttributeError what))
  ∧ (∀ e, loads_body b = Raise e →
          _my_loads (Some b) (response_headers_of r) = Raise e).
Proof.
  split; [|split].
  - intros d Hd. rewrite (my_loads_dict _ _ _ Hd). eexists. split; [done|].
    unfold response_headers_of. split.
    + by rewrite lookup_union_l', lookup_singleton_eq.
    + intros k Hk. rewrite lookup_union_r; [done|].
      by rewrite lookup_singleton_ne.
  - intros v Hv Hnd. unfold loads_body in Hv. unfold _my_loads, py_copy.
    destruct _IsPy3.
    + destruct (decode_utf8 b) as [t|e]; simpl in *; [|done]. rewrite Hv.
      destruct v as [| | | | | |d0]; simpl; eauto. by destruct (Hnd d0).
    + rewrite Hv.
      destruct v as [| | | | | |d0]; simpl; eauto. by destruct (Hnd d0).
  - intros e He. unfold loads_body in He. unfold _my_loads.
    destruct _IsPy3.
    + destruct (decode_utf8 b) as [t|e']; simpl in *.
      * by rewrite He.
      * by injection He as ->.
    + by rewrite He.
Qed.

End MoreTransportProperties.

(** * Further properties of the endpoint caller *)

Section MoreEndpointProperties.
Context `{PyRuntime}.
Variable net : nat → Outcome.

(** X12. Parameters that do not validate never reach the network: [call]
    raises what [serialize] raises and leaves the world as it was. *)
Theorem invalid_parameters_no_network (ec : EndpointCaller) (p : ParamSet)
    (sub : string) (e : exn) (w : World) :
  suburl ec = Some sub → serialize p = Raise e →
  call net ec (Container p) w = (Raise e, w).
Proof.
  intros Hsub Hser. unfold call.
  unfold mbind at 1, M_bind at 1, mret at 1, M_ret at 1. rewrite Hsub.
  unfold mbind at 1, M_bind at 1, mret at 1, M_ret at 1.
  unfold mbind at 1, M_bind at 1, lift at 1. by rewrite Hser.
Qed.

Lemma get_http_status api url headers (w w' : World) r :
  _get_http net api url headers w = (Ok r, w') → status_code r = 200.
Proof.
  unfold _get_http. unfold mbind at 1, M_bind at 1.
  destruct (_make_request _ _ _ _ _ _ w) as [[[[rdata st] rh]|e] w1] eqn:Hrun;
    [|done].
  rewrite make_request_unfold in Hrun.
  eapply retry_loop_effects in Hrun as (_ & _ & Hret); [|reflexivity].
  destruct (Hret _ _ _ eq_refl) as (-> & _).
  unfold mbind, M_bind, lift, mret, M_ret.
  destruct (_my_loads _ _); [|done]. by intros [= <- <-].
Qed.

Lemma post_http_status api url data headers (w w' : World) r :
  _post_http net api url data headers w = (Ok r, w') → status_code r = 200.
Proof.
  unfold _post_http. unfold mbind at 1, M_bind at 1, lift at 1.
  destruct (json_data_of data) as [jd|e]; [|done].
  unfold mbind at 1, M_bind at 1.
  destruct (_make_request _ _ _ _ _ _ w) as [[[[rdata st] rh]|e] w1] eqn:Hrun;
    [|done].
  rewrite make_request_unfold in Hrun.
  eapply retry_loop_effects in Hrun as (_ & _ & Hret); [|reflexivity].
  destruct (Hret _ _ _ eq_refl) as (-> & _).
  destruct rdata as [b|]; [|done].
  unfold mbind, M_bind, lift, mret, M_ret.
  destruct (has_gzip_signature b); [destruct (gzip_read b)|]; simpl;
    try done; (destruct (_my_loads _ _); [|done]); by intros [= <- <-].
Qed.

(** X13. Through the retrying path a response object always has status
    200: [_get_http] and [_post_http] return for no other status. *)
Theorem retrying_path_status_200 api url data headers (w w' : World) r :
  (_get_http net api url headers w = (Ok r, w') → status_code r = 200)
  ∧ (_post_http net api url data headers w = (Ok r, w') → status_code r = 200).
Proof. split; [apply get_http_status|apply post_http_status]. Qed.

(** X14. [info] and [ping] give back the parsed body of [_get_http], or
    the exception it raised: the error branch of [__finish_result] is never
    taken on this path. *)
Theorem info_ping_result (ec : EndpointCaller) (w : World) :
  info net ec w
  = match _get_http net (ec_api ec) (ec_service_url ec ++ "info")
            (binding_headers ec) w with
    | (Ok r, w') => (Ok (json r), w')
    | (Raise e, w') => (Raise e, w')
    end
  ∧ ping net ec w
    = match _get_http net (ec_api ec) (ec_service_url ec ++ "ping")
              (binding_headers ec) w with
      | (Ok r, w') => (Ok (json r), w')
      | (Raise e, w') => (Raise e, w')
      end.
Proof.
  split.
  - unfold info. unfold mbind, M_bind, lift.
    destruct (_get_http _ _ _ _ w) as [[r|e] w'] eqn:Hget; [|done].
    unfold __finish_result. by rewrite (get_http_status _ _ _ _ _ _ Hget).
  - unfold ping. unfold mbind, M_bind, lift.
    destruct (_get_http _ _ _ _ w) as [[r|e] w'] eqn:Hget; [|done].
    unfold __finish_result. by rewrite (get_http_status _ _ _ _ _ _ Hget).
Qed.

Lemma json_call_unfold (ec : EndpointCaller) (p : ParamSet) (sub : string)
    (v : pydict) (w : World) :
  suburl ec = Some sub → useMultipart p = false → serialize p = Ok v →
  call net ec (Container p) w
  = match _post_http net (ec_api ec) (ec_service_url ec ++ sub) (PDict v)
            (json_call_headers ec) w with
    | (Ok r, w') => (Ok (json r), w')
    | (Raise e, w') => (Raise e, w')
    end.
Proof.
  intros Hsub Hmp Hser. unfold call.
  unfold mbind at 1, M_bind at 1, mret at 1, M_ret at 1. rewrite Hsub, Hmp.
  unfold mbind at 1, M_bind at 1, mret at 1, M_ret at 1.
  unfold mbind at 1, M_bind at 1, lift at 1. rewrite Hser.
  unfold mbind, M_bind, lift. fold (json_call_headers ec).
  destruct (_post_http _ _ _ _ _ w) as [[r|e] w'] eqn:Hpost; [|done].
  unfold __finish_result. by rewrite (post_http_status _ _ _ _ _ _ _ Hpost).
Qed.

(** X15. A JSON call answered with 200 at once, end to end: the one
    request is a POST of the encoded parameters to the endpoint URL, and the
    result is the parsed body with the "responseHeaders" entry. *)
Theorem json_call_success (ec : EndpointCaller) (p : ParamSet) (sub jd : string)
    (v d : pydict) (w : World) r b :
  suburl ec = Some sub → useMultipart p = false →
  serialize p = Ok v → json_dumps (PDict v) = Ok jd →
  0 ≤ num_retries (ec_api ec) →
  net (exchanges w) = Responds r → status r = 200 → body r = Some b →
  has_gzip_signature b = false → loads_body b = Ok (PDict d) →
  call net ec (Container p) w
  = (Ok (response_headers_of r ∪ d),
     {| http_connection :=
          Some (connected_conn (ec_api ec)
                  (urlparse (ec_service_url ec ++ sub)) w);
        exchanges := S (exchanges w);
        trace :=
          trace w
          ++ connect_events (ec_api ec) (urlparse (ec_service_url ec ++ sub)) w
          ++ round_200 (ec_api ec) "POST" (ec_service_url ec ++ sub) (Some jd)
               (with_user_agent (json_call_headers ec)) |}).
Proof.
  intros Hsub Hmp Hser Hjd Hn Hr Hs Hb Hgz Hd.
  rewrite (json_call_unfold ec p sub v w Hsub Hmp Hser).
  assert (0 < attempts_of (ec_api ec))%nat as Hk by (unfold attempts_of; lia).
  assert (answers_429 net (exchanges w) 0) as Hans by (intros j Hj; lia).
  rewrite <- (Nat.add_0_r (exchanges w)) in Hr.
  pose proof (make_request_success net (ec_api ec) "POST"
                (ec_service_url ec ++ sub) (Some jd) (json_call_headers ec)
                w 0 r Hk Hans Hr Hs) as Hrun.
  rewrite Hb in Hrun.
  erewrite (post_http_result net); [|exact Hjd|exact Hrun].
  rewrite Hgz. unfold parsed. rewrite (my_loads_dict _ _ _ Hd). simpl.
  by rewrite Nat.add_0_r.
Qed.

(** X16. Whatever the network does, every request of a JSON call is the
    same POST of the encoded parameters, and its headers ask for gzip,
    announce JSON, name the binding as user agent, and carry the key and
    the identification of the binding exactly when a key is configured. *)
Theorem json_call_requests (ec : EndpointCaller) (p : ParamSet) (sub jd : string)
    (v : pydict) (w : World) :
  suburl ec = Some sub → useMultipart p = false →
  serialize p = Ok v → json_dumps (PDict v) = Ok jd →
  let sent := with_user_agent (json_call_headers ec) in
  (∃ evs,
     trace (call net ec (Container p) w).2 = trace w ++ evs
     ∧ Forall (λ ev, is_request ev = true
                     → ev = EvRequest "POST" (ec_service_url ec ++ sub)
                              (Some jd) sent) evs)
  ∧ sent !! "User-Agent"%string = Some (PStr "RosetteAPIPython/1.1")
  ∧ sent !! "Accept"%string = Some (PStr "application/json")
  ∧ sent !! "Accept-Encoding"%string = Some (PStr "gzip")
  ∧ sent !! "Content-Type"%string = Some (PStr "application/json")
  ∧ sent !! "X-RosetteAPI-Key"%string = PStr <$> ec_user_key ec
  ∧ sent !! "X-RosetteAPI-Binding"%string
    = (λ _, PStr "python") <$> ec_user_key ec
  ∧ sent !! "X-RosetteAPI-Devel"%string
    = if ec_debug ec then Some (PBool true) else None.
Proof.
  intros Hsub Hmp Hser Hjd sent. split.
  - rewrite (json_call_unfold ec p sub v w Hsub Hmp Hser).
    assert (trace (match _post_http net (ec_api ec) (ec_service_url ec ++ sub)
                           (PDict v) (json_call_headers ec) w with
                   | (Ok r, w') => (Ok (json r), w')
                   | (Raise e, w') => (Raise e, w')
                   end).2
            = trace (_post_http net (ec_api ec) (ec_service_url ec ++ sub)
                       (PDict v) (json_call_headers ec) w).2) as ->
      by (by destruct (_post_http _ _ _ _ _ w) as [[r|e] w']).
    assert (json_data_of (PDict v) = Ok jd) as Hjd' by exact Hjd.
    rewrite (post_http_world net _ _ _ _ jd w Hjd'), make_request_unfold.
    destruct (retry_loop_requests net (ec_api ec) "POST"
                (ec_service_url ec ++ sub) (Some jd)
                (with_user_agent (json_call_headers ec))
                (urlparse (ec_service_url ec ++ sub))
                (seq 0 (attempts_of (ec_api ec))) PNone (PStr "unknownError")
                {| http_connection :=
                     Some (connected_conn (ec_api ec)
                             (urlparse (ec_service_url ec ++ sub)) w);
                   exchanges := exchanges w;
                   trace := trace w
                            ++ connect_events (ec_api ec)
                                 (urlparse (ec_service_url ec ++ sub)) w |}
                _ eq_refl) as (evs & Htr & Hall & _).
    rewrite Htr. simpl. rewrite <- app_assoc. eexists. split; [done|].
    apply Forall_app. split; [|exact Hall].
    unfold connect_events, reconnect_events.
    destruct (http_connection w), (reuse_connection (ec_api ec));
      by repeat constructor.
  - subst sent. unfold with_user_agent, json_call_headers, key_headers.
    destruct (ec_debug ec), (ec_user_key ec); by vm_compute.
Qed.

End MoreEndpointProperties.

(** * Further properties of the multipart path and of the facade *)

Section MoreCallProperties.
Context `{PyRuntime}.
Variable net : nat → Outcome.

Lemma multipart_call_value (ec : EndpointCaller) (p : ParamSet)
    (path sub request_options : string) (c : pyvalue) (w : World) :
  _IsPy3 = false → wf p →
  cls p = DocumentParametersC ∨ cls p = RelationshipsParametersC →
  suburl ec = Some sub →
  useMultipart p = true → file_name p = Some path →
  params p !! "content"%string = Some c → c ≠ PNone →
  is_set p "contentUri" = false →
  json_dumps (PDict (language_part p)) = Ok request_options →
  (call net ec (Container p) w).1
  = match net (exchanges w) with
    | Responds r =>
        the_json ← _my_loads (body r) (response_headers_of r);
        __finish_result ec {| json := the_json; status_code := status r |}
          "operate"
    | Fails e => Raise e
    end.
Proof.
  intros Hpy Hwf Hcls Hsub Hmp Hfn Hc Hcn Huri Hdumps.
  assert (is_set p "content" = true) as Hset.
  { unfold is_set. rewrite Hc. by apply negb_true_iff, is_None_false. }
  assert (serialize p = Ok (filter (λ kv, is_None kv.2 = false) (params p)))
    as Hser by (by rewrite (serialize_document_cases p Hwf Hcls), Hset, Huri).
  assert (filter (λ kv, is_None kv.2 = false) (params p) !! "content"%string
          = Some c) as Hcontent.
  { apply map_lookup_filter_Some. split; [done|]. by apply is_None_false. }
  unfold call. unfold mbind at 1, M_bind at 1, mret at 1, M_ret at 1.
  rewrite Hsub, Hmp. unfold mbind at 1, M_bind at 1, mret at 1, M_ret at 1.
  rewrite Hser. unfold mbind at 1, M_bind at 1, lift at 1.
  rewrite (language_only_spec p Hpy), Hfn, Hcontent.
  unfold mbind, M_bind, lift, mret, M_ret, session_send. simpl.
  rewrite Hdumps. simpl.
  destruct (net (exchanges w)) as [r|e]; simpl; [|done].
  unfold response_headers_of, result_bind.
  by destruct (_my_loads _ _) as [j|e].
Qed.

(** X17. The answer to a multipart upload is interpreted once, without
    retry and without translation of failures.  A 200 answer gives the
    parsed body with the "responseHeaders" entry; any other status whose
    body has a "message" (429 included) raises the structured error with
    that status, the endpoint in the message and the body's message as
    context; an exception of the exchange is raised as it is. *)
Theorem multipart_call_result (ec : EndpointCaller) (p : ParamSet)
    (path sub request_options : string) (c : pyvalue) (w : World) :
  _IsPy3 = false → wf p →
  cls p = DocumentParametersC ∨ cls p = RelationshipsParametersC →
  suburl ec = Some sub →
  useMultipart p = true → file_name p = Some path →
  params p !! "content"%string = Some c → c ≠ PNone →
  is_set p "contentUri" = false →
  json_dumps (PDict (language_part p)) = Ok request_options →
  (∀ r b d, net (exchanges w) = Responds r → body r = Some b →
            loads_body b = Ok (PDict d) → status r = 200 →
            (call net ec (Container p) w).1 = Ok (response_headers_of r ∪ d))
  ∧ (∀ r b d m, net (exchanges w) = Responds r → body r = Some b →
                loads_body b = Ok (PDict d) → status r ≠ 200 →
                d !! "message"%string = Some m →
                (call net ec (Container p) w).1
                = Raise (RosetteException (PInt (status r))
                           (PStr ("operate " ++ sub
                                  ++ " : failed to communicate with Rosette"))
                           m))
  ∧ (∀ e, net (exchanges w) = Fails e →
          (call net ec (Container p) w).1 = Raise e).
Proof.
  intros Hpy Hwf Hcls Hsub Hmp Hfn Hc Hcn Huri Hdumps.
  rewrite (multipart_call_value ec p path sub request_options c w)
    by assumption.
  split; [|split].
  - intros r b d -> Hb Hd Hs. rewrite Hb, (my_loads_dict _ _ _ Hd). simpl.
    unfold __finish_result. simpl. by rewrite Hs.
  - intros r b d m -> Hb Hd Hs Hm. rewrite Hb, (my_loads_dict _ _ _ Hd). simpl.
    unfold __finish_result. simpl. apply Z.eqb_neq in Hs. rewrite Hs.
    assert ((response_headers_of r ∪ d) !! "message"%string = Some m) as ->.
    { unfold response_headers_of.
      rewrite lookup_union_r; [done|]. by rewrite lookup_singleton_ne. }
    simpl. by rewrite Hsub.
  - by intros e ->.
Qed.

(** X18. Multipart mode outlives the file: after a file was loaded, a
    string loaded into the same container is uploaded as a multipart
    request under the base name of that file. *)
Theorem multipart_mode_is_sticky (fs : string → option bytes)
    (ec : EndpointCaller) (p0 p2 : ParamSet) (path sub request_options : string)
    (content : bytes) (s : pyvalue) (w : World) :
  _IsPy3 = false → wf p0 →
  cls p0 = DocumentParametersC ∨ cls p0 = RelationshipsParametersC →
  fs path = Some content → suburl ec = Some sub →
  is_set p0 "contentUri" = false → s ≠ PNone →
  load_document_string (load_document_file fs p0 path).2 s = Ok p2 →
  json_dumps (PDict (language_part p0)) = Ok request_options →
  useMultipart p2 = true ∧ file_name p2 = Some path
  ∧ getitem p2 "content" = Ok s
  ∧ trace (call net ec (Container p2) w).2
    = trace w
      ++ [EvSend {| req_method := "POST";
                    req_url := ec_service_url ec ++ sub;
                    req_files :=
                      [("content"%string,
                        {| part_filename := basename path;
                           part_content := s;
                           part_type := "text/plain" |});
                       ("request"%string,
                        {| part_filename := "request_options";
                           part_content := PStr request_options;
                           part_type := "application/json" |})];
                    req_headers := key_headers ec |}].
Proof.
  intros Hpy Hwf Hcls Hfs Hsub Huri Hs Hload Hdumps.
  destruct (document_keys p0 Hcls) as (Hc & _ & _).
  apply (wf_lookup p0 _ Hwf) in Hc as [c0 Hc0].
  assert (load_document_file fs p0 path
          = (Ok tt, {| cls := cls p0;
                       params := <[ "content"%string := PBytes content ]>
                                   (params p0);
                       file_name := Some path;
                       useMultipart := true |})) as Hfile.
  { unfold load_document_file, load_document_string, setitem. simpl.
    by rewrite Hfs, Hc0. }
  rewrite Hfile in Hload. unfold load_document_string, setitem in Hload.
  simpl in Hload. rewrite lookup_insert_eq in Hload. injection Hload as <-.
  unfold set_params. simpl. rewrite insert_insert_eq.
  split; [done|]. split; [done|]. split.
  { unfold getitem. simpl. by rewrite lookup_insert_eq. }
  edestruct (multipart_call_run net ec
               {| cls := cls p0;
                  params := <[ "content"%string := s ]> (params p0);
                  file_name := Some path;
                  useMultipart := true |}
               path sub request_options s w) as [res ->];
    simpl; try done.
  - unfold wf in *. simpl. rewrite dom_insert_L, Hwf.
    assert ("content"%string ∈ dom (params p0)) as Hin
      by (apply elem_of_dom; eauto).
    rewrite Hwf in Hin. set_solver.
  - apply lookup_insert_eq.
  - unfold is_set in *. simpl. by rewrite lookup_insert_ne.
  - unfold language_part in *. simpl. by rewrite lookup_insert_ne.
Qed.

(** The container a plain text is wrapped into. *)
Lemma call_plain_wraps (ec : EndpointCaller) (text : pyvalue) (w : World) :
  suburl ec ≠ Some "name-similarity"%string →
  suburl ec ≠ Some "name-translation"%string →
  call net ec (Plain text) w
  = call net ec
      (Container (set_params DocumentParameters
                    (<[ "content"%string := text ]> (params DocumentParameters))))
      w.
Proof.
  intros Hs Ht. unfold call.
  by rewrite (bool_decide_eq_false_2 _ Hs), (bool_decide_eq_false_2 _ Ht).
Qed.

(** X19. Every document method of the facade takes a plain text: it is
    the call with the fresh document container whose "content" is the
    text.  The facet of [morphology] is not checked. *)
Theorem document_facades_accept_text (api : API) (text : pyvalue)
    (facet : string) (resolve_entities : bool) (w : World) :
  let wrapped :=
    Container (set_params DocumentParameters
                 (<[ "content"%string := text ]> (params DocumentParameters))) in
  language net api (Plain text) w = language net api wrapped w
  ∧ sentences net api (Plain text) w = sentences net api wrapped w
  ∧ tokens net api (Plain text) w = tokens net api wrapped w
  ∧ morphology net api (Plain text) facet w = morphology net api wrapped facet w
  ∧ entities net api (Plain text) resolve_entities w
    = entities net api wrapped resolve_entities w
  ∧ categories net api (Plain text) w = categories net api wrapped w
  ∧ sentiment net api (Plain text) w = sentiment net api wrapped w
  ∧ relationships net api (Plain text) w = relationships net api wrapped w.
Proof.
  intros wrapped. subst wrapped.
  unfold language, sentences, tokens, morphology, entities, categories,
    sentiment, relationships.
  destruct resolve_entities; repeat split; by apply call_plain_wraps.
Qed.

(** X20. The name methods of the facade, the deprecated aliases included,
    refuse a plain text before anything is sent. *)
Theorem name_facades_reject_text (api : API) (text : pyvalue) (w : World) :
  let refused sub :=
    (Raise (RosetteException (PStr "incompatible")
              (PStr "Text-only input only works for DocumentParameter endpoints")
              (PStr sub)), w) in
  name_translation net api (Plain text) w = refused "name-translation"%string
  ∧ translated_name net api (Plain text) w = refused "name-translation"%string
  ∧ name_similarity net api (Plain text) w = refused "name-similarity"%string
  ∧ matched_name net api (Plain text) w = refused "name-similarity"%string.
Proof. by repeat split. Qed.

End MoreCallProperties.

(** * A plain text as argument *)

Section PlainTextProperties.
Context `{PyRuntime}.
Variable net : nat → Outcome.

Lemma fresh_document_contentUri :
  params DocumentParameters !! "contentUri"%string = Some PNone.
Proof.
  apply (init_lookup (repertoire DocumentParametersC)).
  simpl. rewrite !elem_of_cons. auto.
Qed.

(** What the fresh document container with a text serializes to: the one
    entry "content", unless the text is [None]. *)
Lemma plain_text_serialize (text : pyvalue) :
  text ≠ PNone →
  serialize (set_params DocumentParameters
               (<[ "content"%string := text ]> (params DocumentParameters)))
  = Ok {[ "content"%string := text ]}.
Proof.
  intros Htext.
  set (p := set_params DocumentParameters
              (<[ "content"%string := text ]> (params DocumentParameters))).
  assert (wf p) as Hwf.
  { apply set_params_wf; [apply (new_ParamSet_wf DocumentParametersC)|].
    simpl. rewrite !elem_of_cons. auto. }
  assert (params p
          = <[ "content"%string := text ]> (params DocumentParameters))
    as Hp by reflexivity.
  assert (is_set p "content" = true) as Hc.
  { unfold is_set. rewrite Hp, lookup_insert_eq.
    by apply negb_true_iff, is_None_false. }
  assert (is_set p "contentUri" = false) as Hu.
  { unfold is_set. rewrite Hp, lookup_insert_ne by done.
    by rewrite fresh_document_contentUri. }
  rewrite (serialize_document_cases p Hwf (or_introl eq_refl)), Hc, Hu.
  f_equal. apply map_eq. intros k. apply option_eq. intros x.
  rewrite map_lookup_filter_Some. cbn [fst snd]. rewrite is_None_false.
  rewrite lookup_singleton_Some, Hp. split.
  - intros [Hk Hx]. destruct (decide (k = "content"%string)) as [->|Hne].
    + rewrite lookup_insert_eq in Hk. by injection Hk as <-.
    + rewrite lookup_insert_ne in Hk by done.
      assert (is_Some (params DocumentParameters !! k)) as Hin by eauto.
      apply (wf_lookup DocumentParameters k
               (new_ParamSet_wf DocumentParametersC)) in Hin.
      pose proof (init_lookup _ k Hin) as Hnone.
      change (params DocumentParameters !! k = Some PNone) in Hnone.
      rewrite Hnone in Hk. by injection Hk as <-.
  - intros [<- <-]. by rewrite lookup_insert_eq.
Qed.

(** C6. A call whose argument is not a container (a plain string).  On an
    endpoint other than "name-similarity" and "name-translation" the text
    becomes the "content" of a fresh [DocumentParameters] container, not in
    multipart mode, and the call goes on as for that container: the
    container serializes to the one entry "content" with the text, and the
    call is the POST of that entry to the URL of the endpoint through the
    retrying path, whose parsed answer it returns and whose exception it
    raises; a text that is [None] stops at validation.  In particular, with
    a first answer of status 200 and a JSON object as body the call sends
    that one request and returns the object with the "responseHeaders"
    entry.  On the two name endpoints the call raises the "incompatible"
    exception, whose context is the endpoint sub-path, and sends nothing. *)
Theorem call_plain_text (ec : EndpointCaller) (text : pyvalue) :
  (suburl ec ≠ Some "name-similarity"%string →
   suburl ec ≠ Some "name-translation"%string →
   ∃ p, setitem DocumentParameters "content" text = Ok p
        ∧ cls p = DocumentParametersC
        ∧ params p = <[ "content"%string := text ]> (params DocumentParameters)
        ∧ useMultipart p = false
        ∧ (∀ w, call net ec (Plain text) w = call net ec (Container p) w)
        ∧ (text ≠ PNone → serialize p = Ok {[ "content"%string := text ]})
        ∧ (∀ sub w, suburl ec = Some sub → text ≠ PNone →
             call net ec (Plain text) w
             = match _post_http net (ec_api ec) (ec_service_url ec ++ sub)
                       (PDict {[ "content"%string := text ]})
                       (json_call_headers ec) w with
               | (Ok r, w') => (Ok (json r), w')
               | (Raise e, w') => (Raise e, w')
               end)
        ∧ (∀ sub w, suburl ec = Some sub → text = PNone →
             call net ec (Plain text) w
             = (Raise (RosetteException (PStr "badArgument")
                         (PStr "Must supply one of Content or ContentUri")
                         (PStr "bad arguments")), w))
        ∧ (∀ sub jd d (w : World) r b,
             suburl ec = Some sub → text ≠ PNone →
             json_dumps (PDict {[ "content"%string := text ]}) = Ok jd →
             0 ≤ num_retries (ec_api ec) →
             net (exchanges w) = Responds r → status r = 200 →
             body r = Some b → has_gzip_signature b = false →
             loads_body b = Ok (PDict d) →
             call net ec (Plain text) w
             = (Ok (response_headers_of r ∪ d),
                {| http_connection :=
                     Some (connected_conn (ec_api ec)
                             (urlparse (ec_service_url ec ++ sub)) w);
                   exchanges := S (exchanges w);
                   trace :=
                     trace w
                     ++ connect_events (ec_api ec)
                          (urlparse (ec_service_url ec ++ sub)) w
                     ++ round_200 (ec_api ec) "POST" (ec_service_url ec ++ sub)
                          (Some jd)
                          (with_user_agent (json_call_headers ec)) |})))
  ∧ (∀ sub, suburl ec = Some sub →
       sub = "name-similarity"%string ∨ sub = "name-translation"%string →
       ∀ w, call net ec (Plain text) w =
              (Raise (RosetteException (PStr "incompatible")
                        (PStr "Text-only input only works for DocumentParameter endpoints")
                        (PStr sub)), w)).
Proof.
  split.
  - intros Hs Ht.
    exists (set_params DocumentParameters
              (<[ "content"%string := text ]> (params DocumentParameters))).
    assert (∀ sub w, suburl ec = Some sub → text ≠ PNone →
              call net ec (Plain text) w
              = match _post_http net (ec_api ec) (ec_service_url ec ++ sub)
                        (PDict {[ "content"%string := text ]})
                        (json_call_headers ec) w with
                | (Ok r, w') => (Ok (json r), w')
                | (Raise e, w') => (Raise e, w')
                end) as Hpost.
    { intros sub w Hsub Htext. rewrite (call_plain_wraps net ec text w Hs Ht).
      apply json_call_unfold; [done|done|by apply plain_text_serialize]. }
    split; [reflexivity|]. split; [reflexivity|]. split; [reflexivity|].
    split; [reflexivity|].
    split; [intros w; by apply call_plain_wraps|].
    split; [apply plain_text_serialize|].
    split; [exact Hpost|]. split.
    + intros sub w Hsub ->. rewrite (call_plain_wraps net ec PNone w Hs Ht).
      unfold call. unfold mbind at 1, M_bind at 1, mret at 1, M_ret at 1.
      rewrite Hsub. unfold mbind at 1, M_bind at 1, mret at 1, M_ret at 1.
      unfold mbind at 1, M_bind at 1, lift at 1.
      assert (serialize (set_params DocumentParameters
                (<[ "content"%string := PNone ]> (params DocumentParameters)))
              = Raise (RosetteException (PStr "badArgument")
                         (PStr "Must supply one of Content or ContentUri")
                         (PStr "bad arguments"))) as ->; [|done].
      rewrite serialize_document_cases;
        [|apply set_params_wf; [apply (new_ParamSet_wf DocumentParametersC)|];
          simpl; rewrite !elem_of_cons; auto
         |by left].
      unfold is_set.
      change (params (set_params DocumentParameters
                (<[ "content"%string := PNone ]> (params DocumentParameters))))
        with (<[ "content"%string := PNone ]> (params DocumentParameters)).
      rewrite lookup_insert_eq, lookup_insert_ne by done.
      by rewrite fresh_document_contentUri.
    + intros sub jd d w r b Hsub Htext Hjd Hn Hr Hst Hb Hgz Hd.
      rewrite (Hpost sub w Hsub Htext).
      assert (0 < attempts_of (ec_api ec))%nat as Hk
        by (unfold attempts_of; lia).
      assert (answers_429 net (exchanges w) 0) as Hans by (intros j Hj; lia).
      rewrite <- (Nat.add_0_r (exchanges w)) in Hr.
      pose proof (make_request_success net (ec_api ec) "POST"
                    (ec_service_url ec ++ sub) (Some jd) (json_call_headers ec)
                    w 0 r Hk Hans Hr Hst) as Hrun.
      rewrite Hb in Hrun.
      erewrite (post_http_result net); [|exact Hjd|exact Hrun].
      rewrite Hgz. unfold parsed. rewrite (my_loads_dict _ _ _ Hd). simpl.
      by rewrite Nat.add_0_r.
  - intros sub Hsub Hcase w. unfold call. rewrite Hsub.
    destruct Hcase as [-> | ->]; reflexivity.
Qed.

End PlainTextProperties.

Lemma call_plain_text_witness :
  (∃ p, setitem (H := py2) DocumentParameters "content"
          (PStr "Bill Murray will appear in new Ghostbusters film.") = Ok p
        ∧ serialize (H := py2) p
          = Ok {[ "content"%string :=
                    PStr "Bill Murray will appear in new Ghostbusters film." ]}
        ∧ call (H := py2) (λ _, json_answer 200 "{'entities': []}")
            (EndpointCaller_init keyed_api (Some "entities"%string))
            (Plain (PStr "Bill Murray will appear in new Ghostbusters film."))
            world0
          = (Ok (<[ "responseHeaders"%string := PDict ∅ ]>
                   {[ "entities"%string := PList [] ]}),
             {| http_connection :=
                  Some (connected_conn keyed_api
                          (urlparse (PyRuntime := py2) entities_url) world0);
                exchanges := 1;
                trace :=
                  connect_events keyed_api
                    (urlparse (PyRuntime := py2) entities_url) world0
                  ++ round_200 keyed_api "POST" entities_url
                       (Some (json_text
                          "{'content': 'Bill Murray will appear in new Ghostbusters film.'}"))
                       (with_user_agent
                          (json_call_headers
                             (EndpointCaller_init keyed_api
                                (Some "entities"%string)))) |}))
  ∧ call (H := py2) (λ _, json_answer 200 "{}")
      (EndpointCaller_init keyed_api (Some "name-similarity"%string))
      (Plain (PStr "Bill Murray")) world0
    = (Raise (RosetteException (PStr "incompatible")
                (PStr "Text-only input only works for DocumentParameter endpoints")
                (PStr "name-similarity")), world0).
Proof.
  split.
  - destruct (call_plain_text (H := py2)
                (λ _, json_answer 200 "{'entities': []}")
                (EndpointCaller_init keyed_api (Some "entities"%string))
                (PStr "Bill Murray will appear in new Ghostbusters film."))
      as [Hwrap _].
    destruct Hwrap as (p & Hp & _ & _ & _ & _ & Hser & _ & _ & Hrun);
      [done|done|].
    exists p. split; [exact Hp|]. split; [by apply Hser|].
    rewrite (Hrun "entities"%string
               (json_text
                  "{'content': 'Bill Murray will appear in new Ghostbusters film.'}")
               {[ "entities"%string := PList [] ]}
               world0
               {| status := 200;
                  body := Some (String.list_byte_of_string
                                  (json_text "{'entities': []}"));
                  resp_headers := ∅ |}
               (String.list_byte_of_string (json_text "{'entities': []}"))).
    + unfold response_headers_of. cbn [resp_headers].
      by rewrite insert_union_singleton_l.
    + reflexivity.
    + done.
    + vm_compute. reflexivity.
    + vm_compute. discriminate.
    + reflexivity.
    + reflexivity.
    + reflexivity.
    + vm_compute. reflexivity.
    + vm_compute. reflexivity.
  - destruct (call_plain_text (H := py2) (λ _, json_answer 200 "{}")
                (EndpointCaller_init keyed_api (Some "name-similarity"%string))
                (PStr "Bill Murray"))
      as [_ Hfail].
    apply (Hfail "name-similarity"%string eq_refl (or_introl eq_refl) world0).
Defined.

(** * Further properties: printing errors, the enumeration, bytes, the
      constructor *)

Section MoreProperties.
Context `{PyRuntime}.
Variable net : nat → Outcome.

(** X21. The error of a call that ran out of attempts can be printed: its
    text is the [repr] of 429, the recorded message and the URL. *)
Theorem exhausted_error_prints api op url data headers (w : World) :
  0 ≤ num_retries api →
  answers_429 net (exchanges w) (attempts_of api) →
  ∃ e, (_make_request net api op url data headers w).1 = Raise e
       ∧ exn_str e
         = Ok (repr (PInt 429) ++ ": "
               ++ format_429
                    (answer_body
                       (net (exchanges w + Z.to_nat (num_retries api))%nat))
                    (Z.to_nat (num_retries api))
               ++ ":" ++ String "010" "  " ++ url)%string.
Proof.
  intros Hn Hans. rewrite (make_request_exhausted net _ _ _ _ _ _ Hans).
  eexists. split; [reflexivity|].
  assert (attempts_of api = S (Z.to_nat (num_retries api))) as ->
    by (unfold attempts_of; lia).
  reflexivity.
Qed.

(** X22. The error raised for a status other than 200 and 429 on the first
    attempt, when the body is a JSON object without "message", has [None]
    as message: printing it raises [TypeError]. *)
Theorem messageless_error_cannot_print api op url data headers (w : World)
    r b d :
  0 ≤ num_retries api →
  net (exchanges w) = Responds r →
  status r ≠ 200 → status r ≠ 429 → body r = Some b →
  loads_body b = Ok (PDict d) → d !! "message"%string = None →
  ∃ code,
    (_make_request net api op url data headers w).1
    = Raise (RosetteException code PNone (PStr url))
    ∧ exn_str (RosetteException code PNone (PStr url))
      = Raise (TypeError "cannot concatenate 'str' and non-str objects").
Proof.
  intros Hn Hr H200 H429 Hb Hd Hm.
  assert (0 < attempts_of api)%nat as Hk by (unfold attempts_of; lia).
  assert (answers_429 net (exchanges w) 0) as Hans by (intros j Hj; lia).
  rewrite <- (Nat.add_0_r (exchanges w)) in Hr.
  rewrite (make_request_other net _ _ _ _ _ _ 0 r b Hk Hans Hr H200 H429 Hb).
  unfold error_of_body. rewrite (my_loads_dict _ _ _ Hd). simpl.
  assert ((response_headers_of r ∪ d) !! "message"%string = None) as ->.
  { unfold response_headers_of.
    rewrite lookup_union_r; [done|]. by rewrite lookup_singleton_ne. }
  simpl. eexists. split; reflexivity.
Qed.

Lemma filter_bool_Permutation {A} (f : A → bool) (l l' : list A) :
  l ≡ₚ l' → List.filter f l ≡ₚ List.filter f l'.
Proof.
  induction 1 as [|x l l' _ IH|x y l|l l' l'' _ IH1 _ IH2]; simpl.
  - done.
  - destruct (f x); [by constructor|done].
  - destruct (f x), (f y); try done. apply perm_swap.
  - by etrans.
Qed.

Lemma filter_dunder (added : list (string * pyvalue)) :
  Forall (λ kv, startswith_dunder kv.1 = true) added →
  List.filter (λ kv, negb (startswith_dunder kv.1)) added = [].
Proof.
  induction 1 as [|kv added Hkv _ IH]; simpl; [done|]. by rewrite Hkv.
Qed.

(** The values an enumeration of the class dictionary leaves after the
    names with two underscores are dropped: the facet names, in the order
    of the enumeration. *)
Lemma MorphologyOutput_values (items : list (string * pyvalue)) :
  MorphologyOutput_vars items →
  ∃ names,
    (λ kv, kv.2) <$> List.filter (λ kv, negb (startswith_dunder kv.1)) items
    = PStr <$> names
    ∧ names ≡ₚ facets.
Proof.
  intros (added & Hadd & Hperm).
  apply (filter_bool_Permutation (λ kv, negb (startswith_dunder kv.1)))
    in Hperm.
  rewrite List.filter_app, (filter_dunder added Hadd), app_nil_r in Hperm.
  apply (fmap_Permutation (λ kv, kv.2)) in Hperm.
  change ((λ kv : string * pyvalue, kv.2)
            <$> List.filter (λ kv, negb (startswith_dunder kv.1))
                  MorphologyOutput_attributes)
    with (map PStr facets) in Hperm.
  apply Permutation_map_inv in Hperm as (names & Heq & Hnames).
  exists names. split; [exact Heq|by symmetry].
Qed.

Lemma existsb_equals_attr (s : string) (names : list string) :
  existsb (py_equals_attr (PStr s)) (PStr <$> names) = true ↔ s ∈ names.
Proof.
  induction names as [|t names IH]; simpl.
  - rewrite elem_of_nil. split; [discriminate|done].
  - rewrite orb_true_iff, IH, elem_of_cons.
    by destruct (String.eqb_spec s t); split; intros [?|?]; auto.
Qed.

Lemma py_join_strings (sep : string) (names : list string) :
  py_join sep (PStr <$> names) = Ok (String.concat sep names).
Proof.
  induction names as [|x [|y names] IH]; [done|done|].
  change (py_join sep (PStr <$> x :: y :: names))
    with (r ← py_join sep (PStr <$> y :: names); Ok (x ++ sep ++ r)%string).
  by rewrite IH.
Qed.

(** X23. [MorphologyOutput.validate], for every order in which the
    interpreter enumerates the class dictionary: the values it compares with
    are the five facet names, in the order of the enumeration; it accepts
    exactly these five, and for any other string it raises
    "unknownVariable", with the names joined by ", " in that order in the
    message and the [repr] of the value as context. *)
Theorem MorphologyOutput_validate_spec (items : list (string * pyvalue))
    (s name : string) :
  MorphologyOutput_vars items →
  ∃ names,
    (λ kv, kv.2) <$> List.filter (λ kv, negb (startswith_dunder kv.1)) items
    = PStr <$> names
    ∧ names ≡ₚ facets
    ∧ (s ∈ facets → _PseudoEnum_validate items (PStr s) name = Ok tt)
    ∧ (s ∉ facets →
       _PseudoEnum_validate items (PStr s) name
       = Raise (RosetteException (PStr "unknownVariable")
                  (PStr ("The value supplied for " ++ name ++ " is not one of "
                         ++ String.concat ", " names ++ "."))
                  (PStr (repr (PStr s))))).
Proof.
  intros Hvars.
  destruct (MorphologyOutput_values items Hvars) as (names & Heq & Hperm).
  exists names. split; [exact Heq|]. split; [exact Hperm|].
  unfold _PseudoEnum_validate. rewrite Heq. split.
  - intros Hs. rewrite <- Hperm in Hs.
    apply existsb_equals_attr in Hs. by rewrite Hs.
  - intros Hs. rewrite <- Hperm in Hs.
    destruct (existsb (py_equals_attr (PStr s)) (PStr <$> names)) eqn:E.
    + by apply existsb_equals_attr in E.
    + simpl. by rewrite py_join_strings.
Qed.

Lemma byteify_from_spec (s : codepoints) :
  ∀ (ix : nat) (b : bytes),
    length b = (ix + length s)%nat →
    (Forall (λ oc, (oc < 256)%N) s →
     ∃ l, _byteify_from s ix b = Ok (take ix b ++ l)
          ∧ Stdlib.Strings.Byte.to_N <$> l = s)
    ∧ (¬ Forall (λ oc, (oc < 256)%N) s →
       _byteify_from s ix b = Raise (OtherError "AssertionError")).
Proof.
  induction s as [|oc rest IH]; intros ix b Hlen; simpl in *.
  - split.
    + intros _. exists []. rewrite app_nil_r, take_ge by lia. done.
    + intros Hno. destruct Hno. constructor.
  - destruct (N.ltb_spec oc 256) as [Hlt|Hge].
    + destruct (Stdlib.Strings.Byte.of_N oc) as [x|] eqn:Hx.
      2:{ apply Stdlib.Strings.Byte.of_N_None_iff in Hx. lia. }
      apply Stdlib.Strings.Byte.to_of_N in Hx.
      destruct (IH (S ix) (<[ ix := x ]> b)) as [Hok Hbad].
      { rewrite length_insert. lia. }
      assert (take (S ix) (<[ ix := x ]> b) = take ix b ++ [x]) as Htake.
      { rewrite (take_S_r _ _ x).
        - by rewrite take_insert_ge.
        - apply list_lookup_insert_eq. lia. }
      split.
      * intros Hall. apply Forall_cons in Hall as [_ Hall].
        destruct (Hok Hall) as (l & -> & Hl).
        exists (x :: l). rewrite Htake, <- app_assoc. split; [done|].
        rewrite fmap_cons. by rewrite Hx, Hl.
      * intros Hno. apply Hbad. intros Hall. apply Hno. by constructor.
    + split.
      * intros Hall. apply Forall_cons in Hall as [Hlt _]. lia.
      * done.
Qed.

(** X24. [_byteify] succeeds exactly on strings whose characters are all
    below 256; the bytes it returns are as many as the characters and have
    their values.  On any other string its assertion fails. *)
Theorem byteify_spec (s : codepoints) :
  (Forall (λ oc, (oc < 256)%N) s →
   ∃ b, _byteify s = Ok b ∧ length b = length s
        ∧ Stdlib.Strings.Byte.to_N <$> b = s)
  ∧ (¬ Forall (λ oc, (oc < 256)%N) s →
     _byteify s = Raise (OtherError "AssertionError")).
Proof.
  unfold _byteify.
  destruct (byteify_from_spec s 0 (replicate (length s) Byte.x00))
    as [Hok Hbad]; [by rewrite length_replicate|].
  split; [|exact Hbad].
  intros Hall. destruct (Hok Hall) as (l & -> & Hl).
  exists l. simpl. split; [done|]. split; [|done].
  by rewrite <- Hl, length_fmap.
Qed.

Lemma endswith_app (c : ascii) (s : string) :
  endswith c (s ++ String c EmptyString) = true.
Proof.
  induction s as [|a s IH]; simpl.
  - apply Ascii.eqb_refl.
  - destruct (s ++ String c EmptyString)%string eqn:E; [|exact IH].
    by destruct s.
Qed.

(** X25. What the constructor normalises: the service URL ends with a
    slash, and is the argument itself when that ends with one; the retry
    count is the argument raised to at least 1, so every client makes at
    least two attempts; the refresh duration is the argument, or zero when
    the argument is negative. *)
Theorem API_init_normalizes user_key url retries reuse refresh debug :
  let api := API_init user_key url retries reuse refresh debug in
  endswith "/" (service_url api) = true
  ∧ (endswith "/" url = true → service_url api = url)
  ∧ (endswith "/" url = false → service_url api = (url ++ "/")%string)
  ∧ num_retries api = Z.max 1 retries
  ∧ (2 ≤ attempts_of api)%nat
  ∧ (0 <= connection_refresh_duration api)%Q
  ∧ ((0 <= refresh)%Q → connection_refresh_duration api = refresh).
Proof.
  intros api. subst api. unfold API_init, attempts_of. simpl.
  repeat split.
  - destruct (endswith "/" url) eqn:E; [done|apply endswith_app].
  - by intros ->.
  - by intros ->.
  - destruct (Z.ltb_spec retries 1); lia.
  - destruct (Z.ltb_spec retries 1); lia.
  - destruct (Qle_bool 0 refresh) eqn:E; simpl.
    + by apply Qle_bool_iff.
    + apply Qle_refl.
  - intros Hle. apply Qle_bool_iff in Hle. by rewrite Hle.
Qed.

End MoreProperties.

(** * Runs of the further properties *)

Lemma english_letter_wf : wf english_letter.
Proof.
  apply set_params_wf; [exact english_document_wf|].
  simpl. rewrite !elem_of_cons. auto.
Qed.

Lemma fresh_container_reads_none_witness :
  getitem (H := py2) NameSimilarityParameters "name2" = Ok PNone.
Proof.
  destruct (fresh_container_reads_none (H := py2) NameSimilarityParametersC
              "name2") as [Hget _]; [|exact Hget].
  simpl. rewrite !elem_of_cons. auto.
Defined.

Lemma setitem_frame_witness :
  getitem (H := py2) english_letter "language"
  = getitem (H := py2) english_document "language".
Proof.
  apply (setitem_frame (H := py2) english_document english_letter "content"
           "language" (PStr "Dear Sir")); [reflexivity|done].
Defined.

Lemma setitem_twice_witness :
  setitem (H := py2) english_document "content" (PStr "Dear Sir")
  = Ok english_letter.
Proof.
  apply (setitem_twice (H := py2) english_document
           (set_params english_document
              (<[ "content"%string := PStr "Dear Madam" ]>
                 (params english_document)))
           english_letter "content" (PStr "Dear Madam") (PStr "Dear Sir"));
    reflexivity.
Defined.

Lemma serialize_contents_witness :
  ∃ v, serialize (H := py2) english_letter = Ok v
       ∧ ∀ k, v !! k ≠ Some PNone.
Proof.
  assert (serialize (H := py2) english_letter
          = Ok (<[ "language"%string := PStr "eng" ]>
                  {[ "content"%string := PStr "Dear Sir" ]})) as E
    by (vm_compute; reflexivity).
  eexists. split; [exact E|].
  apply (serialize_contents (H := py2) english_letter _ E).
Defined.

Lemma serialize_required_fields_witness :
  ∃ v, serialize (H := py2) english_letter = Ok v
       ∧ (is_Some (v !! "content"%string) ↔ v !! "contentUri"%string = None).
Proof.
  assert (serialize (H := py2) english_letter
          = Ok (<[ "language"%string := PStr "eng" ]>
                  {[ "content"%string := PStr "Dear Sir" ]})) as E
    by (vm_compute; reflexivity).
  eexists. split; [exact E|].
  apply (serialize_required_fields (H := py2) english_letter _
           english_letter_wf E).
Defined.

Lemma load_missing_file_witness :
  (load_document_file (H := py2) letter_file DocumentParameters
     "/tmp/docs/missing.txt").1 = Raise (IOError "/tmp/docs/missing.txt")
  ∧ useMultipart (load_document_file (H := py2) letter_file DocumentParameters
                    "/tmp/docs/missing.txt").2 = true.
Proof.
  destruct (load_missing_file (H := py2) letter_file DocumentParameters
              "/tmp/docs/missing.txt") as (Hraise & Hmp & _);
    [reflexivity|].
  split; [exact Hraise|exact Hmp].
Defined.

Lemma make_request_returns_only_200_witness :
  ∃ r, scripted [answer 429 "slow"; json_answer 200 "{}"] 1 = Responds r
       ∧ status r = 200
       ∧ body r = Some (String.list_byte_of_string (json_text "{}")).
Proof.
  set (run := _make_request (H := py2)
                (scripted [answer 429 "slow"; json_answer 200 "{}"])
                API_default "GET" entities_url None ∅ world0).
  assert (run = (Ok (Some (String.list_byte_of_string (json_text "{}")),
                     200, {[ "responseHeaders"%string := PDict ∅ ]}),
                 run.2)) as Hrun.
  { apply injective_projections; [vm_compute; reflexivity|reflexivity]. }
  destruct (make_request_returns_only_200 (H := py2) _ _ _ _ _ _ _ _ _ _ _
              Hrun) as (_ & _ & r & Hr & Hs & Hb & _).
  exists r. split; [exact Hr|]. split; [exact Hs|]. by symmetry.
Defined.

Lemma failed_exchange_ends_call_witness :
  ∃ w', _make_request (H := py2)
          (scripted [answer 429 "slow"; Fails BadStatusLine])
          API_default "GET" entities_url None ∅ world0
        = (Raise (RosetteException (PStr "ConnectionError")
                    (PStr "Unable to establish connection to the Rosette API server")
                    (PStr entities_url)), w')
        ∧ exchanges w' = 2%nat.
Proof.
  destruct (failed_exchange_ends_call (H := py2)
              (scripted [answer 429 "slow"; Fails BadStatusLine])
              API_default "GET" entities_url None ∅ world0 1 BadStatusLine)
    as (w' & Hrun & Hex & _).
  - vm_compute. lia.
  - intros j Hj. assert (j = 0%nat) as -> by lia.
    eexists. split; reflexivity.
  - reflexivity.
  - exists w'. split; [exact Hrun|exact Hex].
Defined.

Lemma reuse_policy_witness :
  trace (_make_request (H := py2) (λ _, json_answer 200 "{}")
           (API_init None "http://localhost:8181/rest/v1/" 5 false (1 # 2) false)
           "GET" "http://localhost:8181/rest/v1/ping" None ∅ world0).2
  = [EvConnect {| conn_https := false; conn_loc := "localhost:8181" |};
     EvRequest "GET" "http://localhost:8181/rest/v1/ping" None
       (with_user_agent ∅);
     EvClose].
Proof.
  destruct (reuse_policy (H := py2) (λ _, json_answer 200 "{}")
              (API_init None "http://localhost:8181/rest/v1/" 5 false (1 # 2)
                 false)
              "GET" "http://localhost:8181/rest/v1/ping" None ∅ world0
              {| status := 200;
                 body := Some (String.list_byte_of_string (json_text "{}"));
                 resp_headers := ∅ |})
    as [_ Hoff]; [by vm_compute|reflexivity|reflexivity|].
  destruct (Hoff eq_refl) as [Htrace _]. exact Htrace.
Defined.

Lemma my_loads_result_witness :
  ∃ j, _my_loads (H := py2)
         (Some (String.list_byte_of_string
                  (json_text "{'responseHeaders': 1, 'a': 2}")))
         (response_headers_of {| status := 200; body := None;
                                 resp_headers := ∅ |}) = Ok j
       ∧ j !! "responseHeaders"%string = Some (PDict ∅)
       ∧ j !! "a"%string = Some (PInt 2).
Proof.
  destruct (my_loads_result (H := py2)
              (String.list_byte_of_string
                 (json_text "{'responseHeaders': 1, 'a': 2}"))
              {| status := 200; body := None; resp_headers := ∅ |})
    as (Hdict & _ & _).
  destruct (Hdict (<[ "a"%string := PInt 2 ]>
                     {[ "responseHeaders"%string := PInt 1 ]}))
    as (j & Hj & Hh & Hother); [vm_compute; reflexivity|].
  exists j. split; [exact Hj|]. split; [exact Hh|].
  rewrite (Hother "a"%string) by done. reflexivity.
Defined.

Lemma invalid_parameters_no_network_witness :
  call (H := py2) (λ _, json_answer 200 "{}") entities_caller
    (Container DocumentParameters) world0
  = (Raise (RosetteException (PStr "badArgument")
              (PStr "Must supply one of Content or ContentUri")
              (PStr "bad arguments")), world0).
Proof.
  apply (invalid_parameters_no_network (H := py2) (λ _, json_answer 200 "{}")
           entities_caller DocumentParameters "entities"); reflexivity.
Defined.

Lemma retrying_path_status_200_witness :
  ∃ r w', _get_http (H := py2) (λ _, json_answer 200 "{}") API_default
            entities_url ∅ world0 = (Ok r, w')
          ∧ status_code r = 200.
Proof.
  set (run := _get_http (H := py2) (λ _, json_answer 200 "{}") API_default
                entities_url ∅ world0).
  assert (run = (Ok {| json := {[ "responseHeaders"%string := PDict ∅ ]};
                       status_code := 200 |}, run.2)) as Hget.
  { apply injective_projections; [vm_compute; reflexivity|reflexivity]. }
  eexists _, _. split; [exact Hget|].
  destruct (retrying_path_status_200 (H := py2) (λ _, json_answer 200 "{}")
              API_default entities_url PNone ∅ world0 run.2
              {| json := {[ "responseHeaders"%string := PDict ∅ ]};
                 status_code := 200 |}) as [Hg _].
  apply Hg, Hget.
Defined.

Lemma json_call_success_witness :
  (call (H := py2) (λ _, json_answer 200 "{'entities': []}") entities_caller
     (Container english_letter) world0).1
  = Ok (<[ "responseHeaders"%string := PDict ∅ ]>
          {[ "entities"%string := PList [] ]}).
Proof.
  rewrite (json_call_success (H := py2)
             (λ _, json_answer 200 "{'entities': []}") entities_caller
             english_letter "entities"
             (json_text "{'content': 'Dear Sir', 'language': 'eng'}")
             (<[ "language"%string := PStr "eng" ]>
                {[ "content"%string := PStr "Dear Sir" ]})
             {[ "entities"%string := PList [] ]} world0
             {| status := 200;
                body := Some (String.list_byte_of_string
                                (json_text "{'entities': []}"));
                resp_headers := ∅ |}
             (String.list_byte_of_string (json_text "{'entities': []}"))).
  - simpl. unfold response_headers_of. simpl.
    by rewrite insert_union_singleton_l.
  - reflexivity.
  - reflexivity.
  - vm_compute. reflexivity.
  - vm_compute. reflexivity.
  - by vm_compute.
  - reflexivity.
  - reflexivity.
  - reflexivity.
  - reflexivity.
  - vm_compute. reflexivity.
Defined.

Lemma json_call_requests_witness :
  with_user_agent (json_call_headers entities_caller)
  !! "X-RosetteAPI-Key"%string = Some (PStr "0123456789abcdef").
Proof.
  destruct (json_call_requests (H := py2)
              (λ _, json_answer 200 "{'entities': []}") entities_caller
              english_letter "entities"
              (json_text "{'content': 'Dear Sir', 'language': 'eng'}")
              (<[ "language"%string := PStr "eng" ]>
                 {[ "content"%string := PStr "Dear Sir" ]})
              world0)
    as (_ & _ & _ & _ & _ & Hkey & _).
  - reflexivity.
  - reflexivity.
  - vm_compute. reflexivity.
  - vm_compute. reflexivity.
  - exact Hkey.
Defined.

Lemma multipart_call_result_witness :
  (call (H := py2) (λ _, json_answer 429 "{'message': 'slow down'}")
     entities_caller
     (Container (load_document_file (H := py2) letter_file english_document
                   "/tmp/docs/letter.txt").2)
     world0).1
  = Raise (RosetteException (PInt 429)
             (PStr "operate entities : failed to communicate with Rosette")
             (PStr "slow down")).
Proof.
  destruct (multipart_call_result (H := py2)
              (λ _, json_answer 429 "{'message': 'slow down'}")
              entities_caller
              (load_document_file (H := py2) letter_file english_document
                 "/tmp/docs/letter.txt").2
              "/tmp/docs/letter.txt" "entities"
              (json_text "{'language': 'eng'}")
              (PBytes (String.list_byte_of_string "Dear Sir")) world0)
    as (_ & Herr & _).
  - reflexivity.
  - apply (load_document_file_wf (H := py2)), english_document_wf.
  - by left.
  - reflexivity.
  - reflexivity.
  - reflexivity.
  - reflexivity.
  - done.
  - reflexivity.
  - vm_compute. reflexivity.
  - apply (Herr {| status := 429;
                   body := Some (String.list_byte_of_string
                                   (json_text "{'message': 'slow down'}"));
                   resp_headers := ∅ |}
             (String.list_byte_of_string (json_text "{'message': 'slow down'}"))
             {[ "message"%string := PStr "slow down" ]} (PStr "slow down")).
    + reflexivity.
    + reflexivity.
    + vm_compute. reflexivity.
    + done.
    + reflexivity.
Defined.

Lemma multipart_mode_is_sticky_witness :
  ∃ p2, load_document_string (H := py2)
          (load_document_file (H := py2) letter_file english_document
             "/tmp/docs/letter.txt").2 (PStr "Dear Madam") = Ok p2
        ∧ useMultipart p2 = true
        ∧ file_name p2 = Some "/tmp/docs/letter.txt"%string
        ∧ getitem (H := py2) p2 "content" = Ok (PStr "Dear Madam").
Proof.
  eexists. split; [reflexivity|].
  destruct (multipart_mode_is_sticky (H := py2) (λ _, json_answer 200 "{}")
              letter_file entities_caller english_document
              (set_params
                 (load_document_file (H := py2) letter_file english_document
                    "/tmp/docs/letter.txt").2
                 (<[ "content"%string := PStr "Dear Madam" ]>
                    (params (load_document_file (H := py2) letter_file
                               english_document "/tmp/docs/letter.txt").2)))
              "/tmp/docs/letter.txt" "entities"
              (json_text "{'language': 'eng'}")
              (String.list_byte_of_string "Dear Sir") (PStr "Dear Madam")
              world0)
    as (Hmp & Hfn & Hget & _).
  - reflexivity.
  - exact english_document_wf.
  - by left.
  - reflexivity.
  - reflexivity.
  - reflexivity.
  - done.
  - reflexivity.
  - vm_compute. reflexivity.
  - split; [exact Hmp|]. split; [exact Hfn|exact Hget].
Defined.

Lemma exhausted_error_prints_witness :
  ∃ e, (_make_request (H := py2) (λ _, answer 429 "too many requests")
          (API_init None "https://api.rosette.com/rest/v1/" 1 true (1 # 2) false)
          "GET" entities_url None ∅ world0).1 = Raise e
       ∧ exn_str (H := py2) e
         = Ok ("429: too many requests (1):" ++ String "010" "  "
               ++ entities_url)%string.
Proof.
  destruct (exhausted_error_prints (H := py2)
              (λ _, answer 429 "too many requests")
              (API_init None "https://api.rosette.com/rest/v1/" 1 true (1 # 2)
                 false)
              "GET" entities_url None ∅ world0)
    as (e & Hrun & Hstr).
  - by vm_compute.
  - intros j Hj. eexists. split; reflexivity.
  - exists e. split; [exact Hrun|]. rewrite Hstr. reflexivity.
Defined.

Lemma messageless_error_cannot_print_witness :
  ∃ code,
    (_make_request (H := py2) (λ _, json_answer 404 "{'code': 'notFound'}")
       API_default "GET" entities_url None ∅ world0).1
    = Raise (RosetteException code PNone (PStr entities_url))
    ∧ exn_str (H := py2) (RosetteException code PNone (PStr entities_url))
      = Raise (TypeError "cannot concatenate 'str' and non-str objects").
Proof.
  apply (messageless_error_cannot_print (H := py2)
           (λ _, json_answer 404 "{'code': 'notFound'}")
           API_default "GET" entities_url None ∅ world0
           {| status := 404;
              body := Some (String.list_byte_of_string
                              (json_text "{'code': 'notFound'}"));
              resp_headers := ∅ |}
           (String.list_byte_of_string (json_text "{'code': 'notFound'}"))
           {[ "code"%string := PStr "notFound" ]}).
  - by vm_compute.
  - reflexivity.
  - done.
  - done.
  - reflexivity.
  - vm_compute. reflexivity.
  - reflexivity.
Defined.

Lemma MorphologyOutput_validate_spec_witness :
  _PseudoEnum_validate (H := py2) MorphologyOutput_items_shuffled
    (PStr "han-readings") "facet" = Ok tt
  ∧ _PseudoEnum_validate (H := py2) MorphologyOutput_items_shuffled
      (PStr "syntax") "facet"
    = Raise (RosetteException (PStr "unknownVariable")
               (PStr ("The value supplied for facet is not one of "
                      ++ "complete, lemmas, compound-components, han-readings, parts-of-speech"
                      ++ "."))
               (PStr "'syntax'")).
Proof.
  assert (MorphologyOutput_vars MorphologyOutput_items_shuffled) as Hvars.
  { exists [("__module__"%string, PStr "rosette.api");
            ("__doc__"%string, PNone)].
    split; [by repeat constructor|].
    unfold MorphologyOutput_items_shuffled, MorphologyOutput_attributes.
    solve_Permutation. }
  split.
  - destruct (MorphologyOutput_validate_spec (H := py2)
                MorphologyOutput_items_shuffled "han-readings" "facet" Hvars)
      as (names & _ & _ & Hok & _).
    apply Hok. unfold facets. rewrite !elem_of_cons. auto.
  - destruct (MorphologyOutput_validate_spec (H := py2)
                MorphologyOutput_items_shuffled "syntax" "facet" Hvars)
      as (names & Hnames & _ & _ & Hbad).
    assert (names = ["complete"; "lemmas"; "compound-components";
                     "han-readings"; "parts-of-speech"]%string) as ->.
    { apply (list_fmap_eq_inj PStr); [by intros ?? [= ->]|].
      rewrite <- Hnames. reflexivity. }
    apply Hbad. unfold facets. rewrite !elem_of_cons, elem_of_nil.
    intros [E | [E | [E | [E | [E | []]]]]]; discriminate.
Defined.

Lemma byteify_spec_witness :
  (∃ b, _byteify [72; 105; 233]%N = Ok b ∧ length b = 3%nat
        ∧ Stdlib.Strings.Byte.to_N <$> b = [72; 105; 233]%N)
  ∧ _byteify [72; 8364]%N = Raise (OtherError "AssertionError").
Proof.
  split.
  - apply (byteify_spec [72; 105; 233]%N). repeat constructor.
  - apply (byteify_spec [72; 8364]%N). intros Hall.
    apply Forall_cons in Hall as [_ Hall].
    apply Forall_cons in Hall as [Hlt _]. discriminate.
Defined.

Lemma API_init_normalizes_witness :
  service_url (API_init None "http://localhost:8181/rest/v1" 0 true (-1 # 2) false)
  = "http://localhost:8181/rest/v1/"%string.
Proof.
  destruct (API_init_normalizes None "http://localhost:8181/rest/v1" 0 true
              (-1 # 2) false) as (_ & _ & Hadd & _).
  apply Hadd. reflexivity.
Defined.
